(** * Contract checks of the dashboard smoke-test corpus

    The repository is a set of stand-alone Python scripts
    ([testsprite_tests/TC001 ... TC010]).  Each script sends HTTP requests
    to a backend with [requests], and judges every response with [assert].
    This development embeds the scripts as programs of a small state and
    exception monad: the state is the world the script runs in (the
    backend's replies in the order the calls are made, the clock, the
    UUID source and the log of requests sent), an exception is a Python
    exception with its class and its text. *)

From Stdlib Require Import ZArith List String Ascii Bool Lia.
From Stdlib Require Import PrimFloat DecimalString.
Import ListNotations.

Local Open Scope string_scope.
Local Open Scope Z_scope.

(** ** Text: the [str] operations the scripts use *)

Module Text.

(** ['A' <= c <= 'Z']. *)
Definition is_upper (c : ascii) : bool :=
  ((65 <=? nat_of_ascii c) && (nat_of_ascii c <=? 90))%nat.

Definition lower_char (c : ascii) : ascii :=
  if is_upper c then ascii_of_nat (nat_of_ascii c + 32) else c.

(** [s.lower()].  A string is a sequence of 8-bit characters; the
    letters [A-Z] are mapped to [a-z], every other character is kept. *)
Fixpoint lower (s : string) : string :=
  match s with
  | EmptyString => EmptyString
  | String c t => String (lower_char c) (lower t)
  end.

(** [needle in hay] on two strings: [needle] occurs in [hay] as a
    contiguous run of characters. *)
Fixpoint substr_in (needle hay : string) : bool :=
  if String.prefix needle hay then true
  else match hay with
       | EmptyString => false
       | String _ t => substr_in needle t
       end.

(** [c in s] for a single character. *)
Fixpoint char_in (c : ascii) (s : string) : bool :=
  match s with
  | EmptyString => false
  | String d t => Ascii.eqb c d || char_in c t
  end.

(** [str(n)] and [f"{n}"] for an [int]. *)
Definition str_of_int (n : Z) : string :=
  NilZero.string_of_int (Z.to_int n).

(** [str(n).zfill(w)] for a non-negative [n]: what [%Y], [%m] and [%d]
    print. *)
Fixpoint zfill (w : nat) (s : string) : string :=
  match w with
  | O => s
  | S k => if (String.length s <=? k)%nat then zfill k (String "0" s) else s
  end.

End Text.

(** ** Parsed JSON, as [response.json()] returns it

    [json.loads] gives [None], [bool], [int], [float], [str], [list] and
    [dict].  An object keeps its members in document order; a key is
    looked up from the left. *)

#[local] Set Warnings "-register-all".

Inductive json : Type :=
| JNull
| JBool (b : bool)
| JInt (n : Z)
| JFloat (f : float)
| JStr (s : string)
| JArr (items : list json)
| JObj (members : list (string * json)).

Module Py.

(** [type(v).__name__], as it is printed in the text of a [TypeError]
    or an [AttributeError]. *)
Definition type_name (v : json) : string :=
  match v with
  | JNull => "NoneType"
  | JBool _ => "bool"
  | JInt _ => "int"
  | JFloat _ => "float"
  | JStr _ => "str"
  | JArr _ => "list"
  | JObj _ => "dict"
  end.

(** [bool(v)]: [None], [False], zero, and the empty string, list and
    dict are false. *)
Definition truthy (v : json) : bool :=
  match v with
  | JNull => false
  | JBool b => b
  | JInt n => negb (n =? 0)
  | JFloat f => negb (PrimFloat.eqb f 0%float)
  | JStr s => negb (String.eqb s "")
  | JArr l => match l with [] => false | _ => true end
  | JObj kv => match kv with [] => false | _ => true end
  end.

(** [v == s] for a string literal [s]. *)
Definition eq_str (v : json) (s : string) : bool :=
  match v with
  | JStr t => String.eqb t s
  | _ => false
  end.

(** [v is True]. *)
Definition is_True (v : json) : bool :=
  match v with
  | JBool true => true
  | _ => false
  end.

(** [v is not None]. *)
Definition is_not_None (v : json) : bool :=
  match v with
  | JNull => false
  | _ => true
  end.

Definition isinstance_dict (v : json) : bool :=
  match v with JObj _ => true | _ => false end.

Definition isinstance_list (v : json) : bool :=
  match v with JArr _ => true | _ => false end.

(** Lookup of a key among the members of a [dict]. *)
Fixpoint lookup (k : string) (kv : list (string * json)) : option json :=
  match kv with
  | [] => None
  | (k', v) :: rest => if String.eqb k' k then Some v else lookup k rest
  end.

Definition has_key (k : string) (kv : list (string * json)) : bool :=
  match lookup k kv with Some _ => true | None => false end.

(** The value of [k in v] where [in] is defined: a key of a [dict], an
    element of a [list], a substring of a [str].  On the other types
    [in] raises (see [Lib.py_in]) and [member] is [false]. *)
Definition member (k : string) (v : json) : bool :=
  match v with
  | JObj kv => has_key k kv
  | JArr l => existsb (fun e => eq_str e k) l
  | JStr s => Text.substr_in k s
  | _ => false
  end.

End Py.

(** ** Requests and responses *)

Inductive http_method := GET | POST.

(** The keyword arguments of [requests.get] and [requests.post]; [None]
    is an argument that the call does not pass. *)
Record request : Type := mk_request {
  meth : http_method;
  url : string;
  headers : option (list (string * string));
  params : option (list (string * string));
  json_payload : option (list (string * string));
  timeout : option Z
}.

(** What the scripts read of a [requests.Response]: the status line, the
    URL it answers and the body, [None] when the body is not a JSON document. *)
Record response : Type := mk_response {
  status_code : Z;
  reason : string;
  final_url : string;
  body : option json
}.

(** A call either gets a response or fails in transport (connection
    refused, timeout, ...) with the text of the error. *)
Inductive reply : Type :=
| Answer (r : response)
| Unreachable (err : string).

(** ** Exceptions *)

Inductive exn_class : Type :=
| AssertionError
| RequestException      (* ConnectionError, Timeout and the like *)
| HTTPError             (* raise_for_status *)
| JSONDecodeError       (* response.json() *)
| TypeError
| AttributeError
| KeyError
| PytestFailed          (* pytest.fail *)
| InvalidHeader         (* requests, preparing a request *)
| ValueError.           (* http.client, writing a header *)

Record exn : Type := mk_exn { cls : exn_class; text : string }.

(** [except requests.RequestException]: [HTTPError], [InvalidHeader]
    and, since requests 2.27, [JSONDecodeError] derive from it. *)
Definition is_RequestException (c : exn_class) : bool :=
  match c with
  | RequestException | HTTPError | JSONDecodeError | InvalidHeader => true
  | _ => false
  end.

(** [except Exception]: everything but what derives from [BaseException]
    only, as the exception of [pytest.fail] does. *)
Definition is_Exception (c : exn_class) : bool :=
  match c with
  | PytestFailed => false
  | _ => true
  end.

(** ** The world and the script monad *)

(** One reading of the clock: [time.time()] and the local date of
    [datetime.now()], in days since 1970-01-01. *)
Record instant : Type := mk_instant { unix : float; local_day : Z }.

Record world : Type := mk_world {
  replies : nat -> reply;     (* the reply to the n-th call made *)
  clock : nat -> instant;     (* the n-th reading of the clock *)
  uuids : nat -> string;      (* [.hex] of the n-th UUID drawn *)
  sent : list request;        (* the calls made so far, oldest first *)
  ticks : nat;                (* clock readings taken so far *)
  drawn : nat                 (* UUIDs drawn so far *)
}.

Definition boot (rs : nat -> reply) (ck : nat -> instant) (us : nat -> string) : world :=
  mk_world rs ck us [] 0 0.

Inductive result (A : Type) : Type :=
| Ok (a : A)
| Raise (x : exn).
Arguments Ok {A} a.
Arguments Raise {A} x.

Definition M (A : Type) : Type := world -> result A * world.

Module Script.

Definition ret {A} (a : A) : M A := fun w => (Ok a, w).

Definition bind {A B} (m : M A) (k : A -> M B) : M B :=
  fun w =>
    match m w with
    | (Ok a, w') => k a w'
    | (Raise x, w') => (Raise x, w')
    end.

Definition raise {A} (c : exn_class) (msg : string) : M A :=
  fun w => (Raise (mk_exn c msg), w).

(** [try: body / except <catches> as e: handler e]. *)
Definition try_except {A} (body : M A) (catches : exn_class -> bool)
           (handler : exn -> M A) : M A :=
  fun w =>
    match body w with
    | (Ok a, w') => (Ok a, w')
    | (Raise x, w') =>
        if catches (cls x) then handler x w' else (Raise x, w')
    end.

(** [assert cond, msg]. *)
Definition py_assert (cond : bool) (msg : string) : M unit :=
  if cond then ret tt else raise AssertionError msg.

End Script.

Declare Scope script_scope.
Delimit Scope script_scope with script.
Notation "x <- m ;; k" := (Script.bind m (fun x => k))
  (at level 61, m at next level, right associativity) : script_scope.
Notation "m ;; k" := (Script.bind m (fun _ => k))
  (at level 61, right associativity) : script_scope.
Local Open Scope script_scope.

(** ** The library calls of the scripts *)

Module Lib.
Import Script.

Definition log_call (q : request) (w : world) : world :=
  mk_world (replies w) (clock w) (uuids w) (sent w ++ [q])%list (ticks w) (drawn w).

(** The reply the next call will get. *)
Definition next_reply (w : world) : reply := replies w (List.length (sent w)).

(** *** Headers that are not sent

    The headers of a call are checked twice before anything goes to the
    network (the URLs of the corpus are plain http: no connection is
    opened before the headers are written): by [requests] when it
    prepares the request ([check_header_validity]; the text of the error
    is that of requests 2.28 and later), then by [http.client] when it
    writes them ([putheader]).  A text is a sequence of 8-bit
    characters, read as Latin-1; a text with a character above 255,
    which [http.client] cannot encode in a header, is outside the
    model. *)

Definition code (c : ascii) : nat := nat_of_ascii c.

(** Carriage return, line feed and tab are the characters 13, 10 and 9. *)
Definition is_CR (c : ascii) : bool := Ascii.eqb c "013".
Definition is_LF (c : ascii) : bool := Ascii.eqb c "010".
Definition is_tab (c : ascii) : bool := Ascii.eqb c "009".
Definition is_colon (c : ascii) : bool := Ascii.eqb c ":".

(** [\s] in a pattern on [bytes]: the characters 9 to 13 and the
    space; and in a pattern on [str], for the characters below 256:
    the characters 28 to 31, 133 and 160 as well. *)
Definition is_ascii_space (c : ascii) : bool :=
  existsb (Ascii.eqb c) ["009"; "010"; "011"; "012"; "013"; " "]%char.

Definition is_space (c : ascii) : bool :=
  is_ascii_space c || existsb (Ascii.eqb c) ["028"; "029"; "030"; "031"; "133"; "160"]%char.

(** A character of ASCII: below 128. *)
Definition is_ascii (c : ascii) : bool :=
  match c with Ascii _ _ _ _ _ _ _ high => negb high end.

(** The tail of the two patterns of [requests], [[^\r\n]*$] and
    [[^:\r\n]*$]: [$] matches at the end of the text and before a
    line feed that ends it. *)
Fixpoint rest_of_line (no_colon : bool) (s : string) : bool :=
  match s with
  | EmptyString => true
  | String c t =>
      if is_LF c then match t with EmptyString => true | _ => false end
      else if is_CR c || (no_colon && is_colon c) then false
      else rest_of_line no_colon t
  end.

(** [^[^:\s][^:\r\n]*$], matched from the start of a name. *)
Definition valid_header_name (name : string) : bool :=
  match name with
  | EmptyString => false
  | String c t => negb (is_colon c) && negb (is_space c) && rest_of_line true t
  end.

(** [^\S[^\r\n]*$|^$], matched from the start of a value. *)
Definition valid_header_value (value : string) : bool :=
  match value with
  | EmptyString => true
  | String c t =>
      if is_LF c then match t with EmptyString => true | _ => false end
      else negb (is_space c) && rest_of_line false t
  end.

Definition squote : ascii := ascii_of_nat 39.
Definition dquote : ascii := ascii_of_nat 34.
Definition backslash : ascii := ascii_of_nat 92.

Definition hex_digit (n : nat) : ascii :=
  nth n (list_ascii_of_string "0123456789abcdef") "0"%char.

(** [str.isprintable] of a character below 256, and what [repr] of
    [bytes] shows as it is. *)
Definition isprintable (c : ascii) : bool :=
  ((32 <=? code c) && (code c <? 127) || (161 <=? code c) && negb (code c =? 173))%nat.

Definition is_ascii_printable (c : ascii) : bool :=
  ((32 <=? code c) && (code c <? 127))%nat.

(** One character inside [repr] of a text quoted with [q]. *)
Definition repr_char (as_it_is : ascii -> bool) (q c : ascii) : string :=
  if Ascii.eqb c q || Ascii.eqb c backslash then String backslash (String c "")
  else if is_tab c then String backslash "t"
  else if is_LF c then String backslash "n"
  else if is_CR c then String backslash "r"
  else if as_it_is c then String c ""
  else String backslash
         (String "x" (String (hex_digit (code c / 16)) (String (hex_digit (code c mod 16)) ""))).

Fixpoint repr_chars (as_it_is : ascii -> bool) (q : ascii) (s : string) : string :=
  match s with
  | EmptyString => EmptyString
  | String c t => repr_char as_it_is q c ++ repr_chars as_it_is q t
  end.

(** The quote of a [repr]: the double one when the text has a single
    quote and no double quote. *)
Definition repr_quote (s : string) : ascii :=
  if Text.char_in squote s && negb (Text.char_in dquote s) then dquote else squote.

(** [repr(s)] of a [str], and of [s.encode('latin-1')]. *)
Definition repr_str (s : string) : string :=
  String (repr_quote s) (repr_chars isprintable (repr_quote s) s ++ String (repr_quote s) "").

Definition repr_bytes (s : string) : string :=
  String "b" (String (repr_quote s)
                (repr_chars is_ascii_printable (repr_quote s) s ++ String (repr_quote s) "")).

(** [check_header_validity(header)] of [requests.utils]. *)
Definition check_header_validity (header : string * string) : option exn :=
  let complaint (kind part : string) :=
    mk_exn InvalidHeader
      ("Invalid leading whitespace, reserved character(s), or return character(s) in header "
       ++ kind ++ ": " ++ repr_str part) in
  if negb (valid_header_name (fst header)) then Some (complaint "name" (fst header))
  else if negb (valid_header_value (snd header)) then Some (complaint "value" (snd header))
  else None.

(** The first run of characters that ASCII does not have: where it
    starts, counted from [at], and how long it is. *)
Fixpoint run_length (s : string) : nat :=
  match s with
  | EmptyString => 0
  | String c t => if is_ascii c then 0 else S (run_length t)
  end.

Fixpoint non_ascii_run (at_ : nat) (s : string) : option (ascii * nat * nat) :=
  match s with
  | EmptyString => None
  | String c t =>
      if is_ascii c then non_ascii_run (S at_) t
      else Some (c, at_, S (run_length t))
  end.

(** [_is_legal_header_name]: the whole name matches
    [[^:\s][^:\r\n]*], a pattern on [bytes]. *)
Definition is_legal_header_name (name : string) : bool :=
  match name with
  | EmptyString => false
  | String c t =>
      negb (is_colon c) && negb (is_ascii_space c)
      && forallb (fun d => negb (is_colon d || is_CR d || is_LF d)) (list_ascii_of_string t)
  end.

(** [_is_illegal_header_value]: somewhere in the value there is a line
    feed that no space or tab follows, or a carriage return that no
    space, tab or line feed follows. *)
Fixpoint is_illegal_header_value (value : string) : bool :=
  match value with
  | EmptyString => false
  | String c t =>
      let folded := match t with
                    | String d _ => Ascii.eqb d " " || is_tab d
                    | EmptyString => false
                    end in
      (is_LF c && negb folded)
      || (is_CR c && negb (folded || (match t with String d _ => is_LF d | _ => false end)))
      || is_illegal_header_value t
  end.

(** [putheader(name, value)] of [http.client.HTTPConnection]: the name
    is encoded in ASCII and the value in Latin-1, then both are
    checked. *)
Definition putheader (header : string * string) : option exn :=
  match non_ascii_run 0 (fst header) with
  | Some (c, start, 1%nat) =>
      Some (mk_exn ValueError
              ("'ascii' codec can't encode character '"
               ++ String backslash
                    (String "x" (String (hex_digit (code c / 16))
                                        (String (hex_digit (code c mod 16)) "")))
               ++ "' in position " ++ Text.str_of_int (Z.of_nat start)
               ++ ": ordinal not in range(128)"))
  | Some (_, start, n) =>
      Some (mk_exn ValueError
              ("'ascii' codec can't encode characters in position "
               ++ Text.str_of_int (Z.of_nat start) ++ "-"
               ++ Text.str_of_int (Z.of_nat (start + n - 1))
               ++ ": ordinal not in range(128)"))
  | None =>
      if negb (is_legal_header_name (fst header)) then
        Some (mk_exn ValueError ("Invalid header name " ++ repr_bytes (fst header)))
      else if is_illegal_header_value (snd header) then
        Some (mk_exn ValueError ("Invalid header value " ++ repr_bytes (snd header)))
      else None
  end.

(** The names of the headers that a session of [requests] sends by
    itself, in its order. *)
Definition session_header_names : list string :=
  ["User-Agent"; "Accept-Encoding"; "Accept"; "Connection"].

(** [d[name] = value] on a [CaseInsensitiveDict]: a name that is there
    already, whatever the case of its letters, keeps its place and
    takes the new spelling and the new value. *)
Fixpoint ci_set (name : string) (value : option string)
         (d : list (string * option string)) : list (string * option string) :=
  match d with
  | [] => [(name, value)]
  | (name', value') :: rest =>
      if String.eqb (Text.lower name') (Text.lower name) then (name, value) :: rest
      else (name', value') :: ci_set name value rest
  end.

(** The headers of the prepared request that come from the call, in the
    order of the prepared request: the headers of the session are
    updated with those of the call, so that a header of the call that
    replaces one of the session stands in its place, before the others.
    The headers that the session and [requests] add by themselves pass
    both checks and are left out. *)
Definition prepared_headers (hd : list (string * string)) : list (string * string) :=
  flat_map (fun e => match snd e with Some value => [(fst e, value)] | None => [] end)
           (fold_left (fun d h => ci_set (fst h) (Some (snd h)) d) hd
                      (map (fun name => (name, None)) session_header_names)).

(** The first complaint of a check over the headers, in their order. *)
Fixpoint first_complaint (check : string * string -> option exn)
         (hd : list (string * string)) : option exn :=
  match hd with
  | [] => None
  | h :: rest =>
      match check h with
      | Some x => Some x
      | None => first_complaint check rest
      end
  end.

(** The complaint about the headers of a call: that of [requests] if it
    has one, else that of [http.client]. *)
Definition header_complaint (hd : list (string * string)) : option exn :=
  match first_complaint check_header_validity (prepared_headers hd) with
  | Some x => Some x
  | None => first_complaint putheader (prepared_headers hd)
  end.

(** What stops a call before it is made. *)
Definition refused (q : request) : option exn :=
  header_complaint (match headers q with Some hd => hd | None => [] end).

(** One HTTP call.  A call with a header that is refused raises before
    it is made.  Otherwise the call is logged, and the world's reply to
    it is either returned or raised as the transport error it is. *)
Definition send (q : request) : M response :=
  fun w =>
    match refused q with
    | Some x => (Raise x, w)
    | None =>
        match next_reply w with
        | Answer r => (Ok r, log_call q w)
        | Unreachable err => (Raise (mk_exn RequestException err), log_call q w)
        end
    end.

Definition requests_get (u : string) (hd pr : option (list (string * string)))
           (tmo : option Z) : M response :=
  send (mk_request GET u hd pr None tmo).

Definition requests_post (u : string) (js hd : option (list (string * string)))
           (tmo : option Z) : M response :=
  send (mk_request POST u hd None js tmo).

(** [response.json()]. *)
Definition response_json (r : response) : M json :=
  match body r with
  | Some v => ret v
  | None => raise JSONDecodeError "Expecting value: line 1 column 1 (char 0)"
  end.

(** [response.raise_for_status()]: a status in 400..599 raises
    [HTTPError]. *)
Definition raise_for_status (r : response) : M unit :=
  let s := status_code r in
  if (400 <=? s) && (s <? 500) then
    raise HTTPError (Text.str_of_int s ++ " Client Error: " ++ reason r
                     ++ " for url: " ++ final_url r)
  else if (500 <=? s) && (s <? 600) then
    raise HTTPError (Text.str_of_int s ++ " Server Error: " ++ reason r
                     ++ " for url: " ++ final_url r)
  else ret tt.

(** [k in v]. *)
Definition py_in (k : string) (v : json) : M bool :=
  match v with
  | JObj _ | JArr _ | JStr _ => ret (Py.member k v)
  | _ => raise TypeError ("argument of type '" ++ Py.type_name v ++ "' is not iterable")
  end.

(** [v.get(k, default)]: only a [dict] has the method. *)
Definition dict_get (v : json) (k : string) (default : json) : M json :=
  match v with
  | JObj kv => ret (match Py.lookup k kv with Some x => x | None => default end)
  | _ => raise AttributeError ("'" ++ Py.type_name v ++ "' object has no attribute 'get'")
  end.

(** [v[k]] for a string [k]. *)
Definition getitem (v : json) (k : string) : M json :=
  match v with
  | JObj kv =>
      match Py.lookup k kv with
      | Some x => ret x
      | None => raise KeyError ("'" ++ k ++ "'")
      end
  | JArr _ => raise TypeError "list indices must be integers or slices, not str"
  | JStr _ => raise TypeError "string indices must be integers, not 'str'"
  | _ => raise TypeError ("'" ++ Py.type_name v ++ "' object is not subscriptable")
  end.

(** [v.lower()]: only a [str] has the method. *)
Definition py_lower (v : json) : M string :=
  match v with
  | JStr s => ret (Text.lower s)
  | _ => raise AttributeError ("'" ++ Py.type_name v ++ "' object has no attribute 'lower'")
  end.

(** [a or b], the operands being evaluated in turn. *)
Definition py_or (a b : M json) : M json :=
  x <- a ;; if Py.truthy x then ret x else b.

(** [p or q] on two tests. *)
Definition orb_lazy (p q : M bool) : M bool :=
  x <- p ;; if x then ret true else q.

(** [p and q] on two tests. *)
Definition andb_lazy (p q : M bool) : M bool :=
  x <- p ;; if x then q else ret false.

Definition tick (w : world) : world :=
  mk_world (replies w) (clock w) (uuids w) (sent w) (S (ticks w)) (drawn w).

(** [time.time()]. *)
Definition time_time : M float :=
  fun w => (Ok (unix (clock w (ticks w))), tick w).

(** [datetime.now()], of which the scripts use the date only. *)
Definition datetime_now : M Z :=
  fun w => (Ok (local_day (clock w (ticks w))), tick w).

(** [uuid.uuid4().hex]. *)
Definition uuid4_hex : M string :=
  fun w => (Ok (uuids w (drawn w)),
            mk_world (replies w) (clock w) (uuids w) (sent w) (ticks w) (S (drawn w))).

(** [for x in xs: body x]. *)
Fixpoint for_each {A} (xs : list A) (body : A -> M unit) : M unit :=
  match xs with
  | [] => ret tt
  | x :: rest => body x ;; for_each rest body
  end.

(** [pytest.fail(msg)]. *)
Definition pytest_fail {A} (msg : string) : M A := raise PytestFailed msg.

(** The characters of a [str], each a [str] of length one. *)
Fixpoint chars (s : string) : list json :=
  match s with
  | EmptyString => []
  | String c t => JStr (String c EmptyString) :: chars t
  end.

(** [iter(v)]: the keys of a [dict], the elements of a [list], the
    characters of a [str]. *)
Definition py_iter (v : json) : M (list json) :=
  match v with
  | JObj kv => ret (map (fun m => JStr (fst m)) kv)
  | JArr l => ret l
  | JStr s => ret (chars s)
  | _ => raise TypeError ("'" ++ Py.type_name v ++ "' object is not iterable")
  end.

(** [any(p x for x in xs)]: stops at the first true test. *)
Fixpoint any_of {A} (xs : list A) (p : A -> M bool) : M bool :=
  match xs with
  | [] => ret false
  | x :: rest => b <- p x ;; if b then ret true else any_of rest p
  end.

(** [v.keys()]. *)
Definition dict_keys (v : json) : M (list string) :=
  match v with
  | JObj kv => ret (map fst kv)
  | _ => raise AttributeError ("'" ++ Py.type_name v ++ "' object has no attribute 'keys'")
  end.

(** [len(v)] where the scripts call it. *)
Definition py_len (v : json) : M Z :=
  match v with
  | JObj kv => ret (Z.of_nat (List.length kv))
  | JArr l => ret (Z.of_nat (List.length l))
  | JStr s => ret (Z.of_nat (String.length s))
  | _ => raise TypeError ("object of type '" ++ Py.type_name v ++ "' has no len()")
  end.

(** The payload of a request: a [dict] from strings to strings. *)
Definition payload := list (string * string).

Fixpoint remove_key (k : string) (d : payload) : payload :=
  match d with
  | [] => []
  | (k', v) :: rest => if String.eqb k' k then rest else (k', v) :: remove_key k rest
  end.

Definition has_field (k : string) (d : payload) : bool :=
  existsb (fun m => String.eqb (fst m) k) d.

(** [d.pop(k)] on a copy [d]: the copy without [k]; [KeyError] when
    [k] is not a key. *)
Definition dict_pop (k : string) (d : payload) : M payload :=
  if has_field k d then ret (remove_key k d)
  else raise KeyError ("'" ++ k ++ "'").

(** [d[k] = v] on a copy [d]: the value of an existing key is replaced
    in place, a new key goes last. *)
Fixpoint dict_set (k v : string) (d : payload) : payload :=
  match d with
  | [] => [(k, v)]
  | (k', v') :: rest =>
      if String.eqb k' k then (k, v) :: rest else (k', v') :: dict_set k v rest
  end.

(** The civil date of a day number (days since 1970-01-01, proleptic
    Gregorian calendar). *)
Definition civil_from_days (days : Z) : Z * Z * Z :=
  let z := days + 719468 in
  let era := z / 146097 in
  let doe := z - era * 146097 in
  let yoe := (doe - doe / 1460 + doe / 36524 - doe / 146096) / 365 in
  let doy := doe - (365 * yoe + yoe / 4 - yoe / 100) in
  let mp := (5 * doy + 2) / 153 in
  let d := doy - (153 * mp + 2) / 5 + 1 in
  let m := if mp <? 10 then mp + 3 else mp - 9 in
  let y := yoe + era * 400 + (if m <=? 2 then 1 else 0) in
  (y, m, d).

(** [date.strftime('%Y-%m-%d')]. *)
Definition strftime_Ymd (days : Z) : string :=
  let '(y, m, d) := civil_from_days days in
  Text.zfill 4 (Text.str_of_int y) ++ "-" ++
  Text.zfill 2 (Text.str_of_int m) ++ "-" ++
  Text.zfill 2 (Text.str_of_int d).

(** [sum(xs)] of floats, added from the left in IEEE binary64 (CPython
    3.12 and later also compensate the rounding of the partial sums,
    which changes the last bits at most), and [float(n)] for a length. *)
Definition py_sum (xs : list float) : float :=
  fold_left PrimFloat.add xs 0%float.

Fixpoint float_of_nat (n : nat) : float :=
  match n with
  | O => 0%float
  | S k => PrimFloat.add (float_of_nat k) 1%float
  end.

(** [range(n)]. *)
Definition range (n : nat) : list nat := seq 0 n.

End Lib.

(** ** The scripts

    One module per file of [testsprite_tests], with the names of the
    file.  A script's function is the sequence of its blocks; a block is
    a definition of its own where a property below is about it. *)

(** *** TC001_user_login_functionality.py *)

Module TC001.
Import Script Lib Text.

Definition BASE_URL := "http://localhost:3001".
Definition LOGIN_ENDPOINT := "/api/v1/auth/login".
Definition TIMEOUT := 30.

Definition url := BASE_URL ++ LOGIN_ENDPOINT.
Definition headers := [("Content-Type", "application/json")].

Definition valid_payload : payload :=
  [("email", "validuser@example.com"); ("password", "ValidPassword123")].

Definition invalid_payload : payload :=
  [("email", "invaliduser@example.com"); ("password", "WrongPassword")].

(** Lines 26-33: successful login with valid credentials. *)
Definition valid_login : M unit :=
  try_except
    (response_valid <- requests_post url (Some valid_payload) (Some headers) (Some TIMEOUT) ;;
     py_assert (status_code response_valid =? 200)
       ("Expected 200, got " ++ str_of_int (status_code response_valid)) ;;
     json_response <- response_json response_valid ;;
     found <- orb_lazy (py_in "token" json_response) (py_in "accessToken" json_response) ;;
     py_assert found "Missing token in successful login response")
    is_RequestException
    (fun e => py_assert false ("Request exception on valid login test: " ++ text e)).

(** Lines 36-43: login failure with invalid credentials. *)
Definition invalid_login : M unit :=
  try_except
    (response_invalid <- requests_post url (Some invalid_payload) (Some headers) (Some TIMEOUT) ;;
     py_assert ((status_code response_invalid =? 400) || (status_code response_invalid =? 401))
       ("Expected 400 or 401, got " ++ str_of_int (status_code response_invalid)) ;;
     json_response_invalid <- response_json response_invalid ;;
     found <- orb_lazy (py_in "error" json_response_invalid)
                       (py_in "message" json_response_invalid) ;;
     py_assert found "Error message expected in invalid login response")
    is_RequestException
    (fun e => py_assert false ("Request exception on invalid login test: " ++ text e)).

Definition test_user_login_functionality : M unit :=
  valid_login ;; invalid_login.

End TC001.

(** *** TC002_user_registration_process.py *)

Module TC002.
Import Script Lib Text.

Section WithStr.

(** [str(v)] of a parsed JSON value.  On a string it is the string; on
    the other values it is Python's rendering of them, which the
    properties below do not depend on. *)
Variable py_str : json -> string.

Definition BASE_URL := "http://localhost:3001".
Definition REGISTER_ENDPOINT := "/api/v1/auth/register".
Definition TIMEOUT := 30.

Definition url := BASE_URL ++ REGISTER_ENDPOINT.
Definition headers := [("Content-Type", "application/json")].

Definition valid_payload (unique_email : string) : payload :=
  [("name", "Test User"); ("email", unique_email);
   ("password", "StrongP@ssw0rd!"); ("organizationName", "Test Organization")].

(** Lines 22-26: successful registration with valid data. *)
Definition valid_registration (unique_email : string) : M unit :=
  response <- requests_post url (Some (valid_payload unique_email)) (Some headers) (Some TIMEOUT) ;;
  py_assert ((status_code response =? 201) || (status_code response =? 200))
    ("Expected 201 or 200, got " ++ str_of_int (status_code response)) ;;
  json_data <- response_json response ;;
  same <- andb_lazy (py_in "email" json_data)
                    (v <- getitem json_data "email" ;; ret (Py.eq_str v unique_email)) ;;
  py_assert same "Response should contain registered user's email".

(** [str(err_json.get("message", "")).lower()]. *)
Definition lowered_message (err_json : json) : M string :=
  msg <- dict_get err_json "message" (JStr "") ;;
  ret (lower (py_str msg)).

(** Lines 30-37: the body of the loop over the required fields. *)
Definition missing_field_check (unique_email missing_field : string) : M unit :=
  invalid_payload <- dict_pop missing_field (valid_payload unique_email) ;;
  resp <- requests_post url (Some invalid_payload) (Some headers) (Some TIMEOUT) ;;
  py_assert ((status_code resp =? 400) || (status_code resp =? 422))
    ("Missing field '" ++ missing_field ++ "' should fail with 400 or 422, got "
     ++ str_of_int (status_code resp)) ;;
  err_json <- response_json resp ;;
  keys <- py_iter err_json ;;
  mentioned <- any_of keys
                 (fun _ => m <- lowered_message err_json ;; ret (substr_in missing_field m)) ;;
  py_assert mentioned ("Error message should mention missing " ++ missing_field).

Definition required_fields : list string :=
  ["name"; "email"; "password"; "organizationName"].

(** Lines 40-45: invalid email format. *)
Definition invalid_email_check (unique_email : string) : M unit :=
  let invalid_email_payload := dict_set "email" "invalid-email-format" (valid_payload unique_email) in
  resp <- requests_post url (Some invalid_email_payload) (Some headers) (Some TIMEOUT) ;;
  py_assert ((status_code resp =? 400) || (status_code resp =? 422))
    ("Invalid email should fail with 400 or 422, got " ++ str_of_int (status_code resp)) ;;
  err_json <- response_json resp ;;
  m <- lowered_message err_json ;;
  py_assert (substr_in "email" m) "Error should indicate invalid email format".

(** Lines 48-53: short password. *)
Definition short_password_check (unique_email : string) : M unit :=
  let short_password_payload := dict_set "password" "123" (valid_payload unique_email) in
  resp <- requests_post url (Some short_password_payload) (Some headers) (Some TIMEOUT) ;;
  py_assert ((status_code resp =? 400) || (status_code resp =? 422))
    ("Short password should fail with 400 or 422, got " ++ str_of_int (status_code resp)) ;;
  err_json <- response_json resp ;;
  m <- lowered_message err_json ;;
  py_assert (substr_in "password" m) "Error should indicate password validation failure".

Definition test_user_registration_process : M unit :=
  hex <- uuid4_hex ;;
  let unique_email := "user_" ++ hex ++ "@example.com" in
  valid_registration unique_email ;;
  for_each required_fields (missing_field_check unique_email) ;;
  invalid_email_check unique_email ;;
  short_password_check unique_email.

End WithStr.
End TC002.

(** *** TC003_utm_link_creation_and_validation.py *)

Module TC003.
Import Script Lib Text.

Definition BASE_URL := "http://localhost:3001".
Definition UTM_CREATE_URL := BASE_URL ++ "/api/v1/utm/create".
Definition TIMEOUT := 30.

Definition headers := [("Content-Type", "application/json")].

Definition valid_payload_minimal : payload :=
  [("originalUrl", "https://www.example.com")].

Definition valid_payload_full : payload :=
  [("originalUrl", "https://www.example.com/page");
   ("utmSource", "newsletter"); ("utmMedium", "email"); ("utmCampaign", "launch");
   ("utmTerm", "testterm"); ("utmContent", "contentA")].

(** [data.get("utmLink") or data.get("shortUrl") or data.get("url")]. *)
Definition created_link (data : json) : M json :=
  py_or (dict_get data "utmLink" JNull)
        (py_or (dict_get data "shortUrl" JNull) (dict_get data "url" JNull)).

(** Lines 16-22: creation with the required parameter only. *)
Definition minimal_creation : M unit :=
  response <- requests_post UTM_CREATE_URL (Some valid_payload_minimal) (Some headers) (Some TIMEOUT) ;;
  py_assert ((status_code response =? 201) || (status_code response =? 200))
    ("Expected 200 or 201, got " ++ str_of_int (status_code response)) ;;
  data <- response_json response ;;
  found <- orb_lazy (py_in "utmLink" data) (orb_lazy (py_in "shortUrl" data) (py_in "url" data)) ;;
  py_assert found "Response missing UTM link creation result" ;;
  created_url <- created_link data ;;
  inside <- py_in "https://www.example.com" created_url ;;
  py_assert inside "Created link does not contain original URL".

Definition utm_params : list string :=
  ["utm_source=newsletter"; "utm_medium=email"; "utm_campaign=launch";
   "utm_term=testterm"; "utm_content=contentA"].

(** Line 40: the body of the loop over the UTM parameters. *)
Definition utm_param_check (created_url_full : json) (param : string) : M unit :=
  lowered <- py_lower created_url_full ;;
  py_assert (substr_in param lowered) ("UTM parameter " ++ param ++ " missing in created URL").

(** Lines 33-40: creation with all UTM parameters. *)
Definition full_creation : M unit :=
  response <- requests_post UTM_CREATE_URL (Some valid_payload_full) (Some headers) (Some TIMEOUT) ;;
  py_assert ((status_code response =? 201) || (status_code response =? 200))
    ("Expected 200 or 201, got " ++ str_of_int (status_code response)) ;;
  data <- response_json response ;;
  created_url_full <- created_link data ;;
  py_assert (Py.is_not_None created_url_full) "Response missing UTM link" ;;
  for_each utm_params (utm_param_check created_url_full).

Definition error_keys : list string := ["error"; "message"; "detail"; "errors"].

Definition invalid_payload : payload := [("originalUrl", "htp://bad-url")].
Definition missing_url_payload : payload := [("utmSource", "newsletter")].

(** Lines 46-51 and 57-60: a payload that must be refused. *)
Definition refused_creation (p : payload) (what : string) : M unit :=
  response <- requests_post UTM_CREATE_URL (Some p) (Some headers) (Some TIMEOUT) ;;
  py_assert (400 <=? status_code response)
    ("Expected client error status for " ++ what ++ ", got " ++ str_of_int (status_code response)) ;;
  data <- response_json response ;;
  found <- any_of error_keys (fun key => py_in key data) ;;
  py_assert found ("No error message returned for " ++ what).

Definition test_utm_link_creation_and_validation : M unit :=
  minimal_creation ;;
  full_creation ;;
  refused_creation invalid_payload "invalid URL" ;;
  refused_creation missing_url_payload "missing originalUrl".

End TC003.

(** *** TC004_google_ads_oauth_flow_initiation.py *)

Module TC004.
Import Script Lib Text.

Definition BASE_URL := "http://localhost:3001".
Definition TIMEOUT := 30.
Definition HEADERS := [("Content-Type", "application/json")].

Definition url := BASE_URL ++ "/api/v1/google-ads/auth".

Definition valid_payload : payload :=
  [("redirect_uri", "https://example.com/oauth/callback")].
Definition missing_param_payload : payload := [].
Definition invalid_payload : payload := [("redirect_uri", "not-a-valid-url")].

(** [try: requests.post(...) / except RequestException: pytest.fail(...)]. *)
Definition post_or_fail (p : payload) (msg : string) : M response :=
  try_except
    (requests_post url (Some p) (Some HEADERS) (Some TIMEOUT))
    is_RequestException
    (fun e => pytest_fail (msg ++ text e)).

(** Lines 17-25: a valid redirect_uri. *)
Definition valid_redirect : M unit :=
  response <- post_or_fail valid_payload "Request failed with exception: " ;;
  py_assert ((status_code response =? 200) || (status_code response =? 201))
    ("Expected 200 or 201 but got " ++ str_of_int (status_code response)) ;;
  json_resp <- response_json response ;;
  py_assert (Py.isinstance_dict json_resp) "Response should be a JSON object" ;;
  found <- orb_lazy (py_in "auth_url" json_resp)
             (orb_lazy (py_in "url" json_resp)
                (ks <- dict_keys json_resp ;;
                 ret (existsb (fun k => negb (String.eqb k "")) ks))) ;;
  py_assert found "Response should contain an OAuth URL or token".

(** Lines 30-37 and 43-50: a payload that must be refused. *)
Definition refused_redirect (p : payload) (on_exn what : string) : M unit :=
  response <- post_or_fail p on_exn ;;
  py_assert ((status_code response =? 400) || (status_code response =? 422))
    ("Expected 400 or 422 error for " ++ what ++ " redirect_uri, got "
     ++ str_of_int (status_code response)) ;;
  json_body <- response_json response ;;
  found <- orb_lazy (py_in "error" json_body) (py_in "message" json_body) ;;
  py_assert found "Error response should contain error or message field".

Definition test_google_ads_oauth_flow_initiation : M unit :=
  valid_redirect ;;
  refused_redirect missing_param_payload
    "Request failed with exception on missing param test: " "missing" ;;
  refused_redirect invalid_payload
    "Request failed with exception on invalid param test: " "invalid".

End TC004.

(** *** TC005_fetch_google_ads_campaigns.py *)

Module TC005.
Import Script Lib Text.

Definition BASE_URL := "http://localhost:3001".
Definition TIMEOUT := 30.

Definition endpoint := BASE_URL ++ "/api/v1/google-ads/campaigns".
Definition headers := [("Accept", "application/json")].

Definition valid_customer_id := "1234567890".
Definition invalid_customer_id := "invalid_id_!@#".

(** [try: block / except Exception as e: assert False, f"{msg}{str(e)}"]. *)
Definition guarded (block : M unit) (msg : string) : M unit :=
  try_except block is_Exception (fun e => py_assert false (msg ++ text e)).

(** Lines 23-37: a valid customer_id. *)
Definition valid_customer : M unit :=
  guarded
    (response <- requests_get endpoint (Some headers)
                   (Some [("customer_id", valid_customer_id)]) (Some TIMEOUT) ;;
     py_assert (status_code response =? 200)
       ("Expected status 200, got " ++ str_of_int (status_code response)) ;;
     data <- response_json response ;;
     py_assert (Py.isinstance_dict data) "Response JSON should be an object" ;;
     has <- py_in "campaigns" data ;;
     py_assert has "Response JSON should contain 'campaigns' key" ;;
     campaigns <- getitem data "campaigns" ;;
     py_assert (Py.isinstance_list campaigns) "'campaigns' should be a list")
    "Exception during valid customer_id request: ".

(** Lines 40-51: no customer_id. *)
Definition missing_customer : M unit :=
  guarded
    (response <- requests_get endpoint (Some headers) None (Some TIMEOUT) ;;
     py_assert ((status_code response =? 400) || (status_code response =? 422))
       ("Expected status 400 or 422 for missing customer_id, got "
        ++ str_of_int (status_code response)) ;;
     error_data <- response_json response ;;
     found <- orb_lazy (py_in "error" error_data) (py_in "message" error_data) ;;
     py_assert found "Error response should contain error description")
    "Exception during missing customer_id request: ".

(** Lines 56-67: an invalid customer_id. *)
Definition invalid_customer : M unit :=
  guarded
    (response <- requests_get endpoint (Some headers)
                   (Some [("customer_id", invalid_customer_id)]) (Some TIMEOUT) ;;
     py_assert ((status_code response =? 400) || (status_code response =? 404))
       ("Expected status 400 or 404 for invalid customer_id, got "
        ++ str_of_int (status_code response)) ;;
     error_data <- response_json response ;;
     found <- orb_lazy (py_in "error" error_data) (py_in "message" error_data) ;;
     py_assert found "Error response should contain error description")
    "Exception during invalid customer_id request: ".

Definition test_fetch_google_ads_campaigns : M unit :=
  valid_customer ;; missing_customer ;; invalid_customer.

End TC005.

(** *** TC006_dashboard_metrics_retrieval.py *)

Module TC006.
Import Script Lib Text.

Section WithStr.

(** [str(v)], as in [TC002]: here it formats the token into the
    [Authorization] header. *)
Variable py_str : json -> string.

Definition BASE_URL := "http://localhost:3001".
Definition TIMEOUT := 30.

Definition get_auth_token (email password : string) : M json :=
  let url := BASE_URL ++ "/api/v1/auth/login" in
  try_except
    (response <- requests_post url (Some [("email", email); ("password", password)])
                   None (Some TIMEOUT) ;;
     raise_for_status response ;;
     data <- response_json response ;;
     token <- py_or (dict_get data "accessToken" JNull) (dict_get data "token" JNull) ;;
     py_assert (Py.is_not_None token) "No token found in login response" ;;
     ret token)
    is_RequestException
    (fun e => py_assert false ("Login request failed: " ++ text e) ;; ret JNull).

Definition url := BASE_URL ++ "/api/v1/metrics/dashboard".

Definition auth_headers (token : json) : list (string * string) :=
  [("Accept", "application/json"); ("Authorization", "Bearer " ++ py_str token)].

Definition params_valid := [("startDate", "2025-01-01"); ("endDate", "2025-01-31")].

(** Lines 38-46: a valid date range. *)
Definition valid_dates (hd : list (string * string)) : M unit :=
  try_except
    (response <- requests_get url (Some hd) (Some params_valid) (Some TIMEOUT) ;;
     raise_for_status response ;;
     data <- response_json response ;;
     py_assert (Py.isinstance_dict data) "Response is not a JSON object" ;;
     n <- py_len data ;;
     py_assert (0 <? n) "Response data is empty")
    is_RequestException
    (fun e => py_assert false ("Request failed for valid dates: " ++ text e)).

(** Lines 49-57: no dates. *)
Definition missing_dates (hd : list (string * string)) : M unit :=
  try_except
    (response <- requests_get url (Some hd) None (Some TIMEOUT) ;;
     if status_code response =? 200 then
       data <- response_json response ;;
       py_assert (Py.isinstance_dict data) "Response is not a JSON object for missing dates"
     else
       py_assert ((status_code response =? 400) || (status_code response =? 422))
         "Expected client error status for missing dates")
    is_RequestException
    (fun e => py_assert false ("Request failed for missing dates: " ++ text e)).

(** Lines 64-68 and 74-78: a date in a wrong format. *)
Definition invalid_date (hd : list (string * string)) (params_invalid : list (string * string))
           (which : string) : M unit :=
  try_except
    (response <- requests_get url (Some hd) (Some params_invalid) (Some TIMEOUT) ;;
     py_assert ((status_code response =? 400) || (status_code response =? 422))
       ("Expected client error for invalid " ++ which ++ ", got "
        ++ str_of_int (status_code response)))
    is_RequestException
    (fun e => py_assert false ("Request failed for invalid " ++ which ++ ": " ++ text e)).

Definition test_dashboard_metrics_retrieval : M unit :=
  let email := "testuser@example.com" in
  let password := "testpassword" in
  token <- get_auth_token email password ;;
  let hd := auth_headers token in
  valid_dates hd ;;
  missing_dates hd ;;
  invalid_date hd [("startDate", "invalid-date"); ("endDate", "2025-01-31")] "startDate" ;;
  invalid_date hd [("startDate", "2025-01-01"); ("endDate", "31-01-2025")] "endDate".

End WithStr.
End TC006.

(** *** TC007_metrics_history_data_grouping.py *)

Module TC007_grouping.
Import Script Lib Text.

Definition url := "http://localhost:3001/api/v1/metrics/history".

Definition headers :=
  [("Content-Type", "application/json"); ("Authorization", "Bearer valid-test-token")].

Definition params (start_date end_date : string) :=
  [("startDate", start_date); ("endDate", end_date); ("groupBy", "day")].

(** Lines 31-36: the body of a 200. *)
Definition history_body (response : response) : M unit :=
  data <- response_json response ;;
  py_assert (Py.isinstance_dict data) "Response should be a JSON object" ;;
  has_success <- py_in "success" data ;;
  py_assert has_success "Response should have success field" ;;
  has_data <- py_in "data" data ;;
  py_assert has_data "Response should have data field" ;;
  rows <- getitem data "data" ;;
  py_assert (Py.isinstance_list rows) "Data should be an array of historical metrics".

(** Lines 37-41: the body of a 401. *)
Definition invalid_token_body (response : response) : M unit :=
  data <- response_json response ;;
  has_error <- py_in "error" data ;;
  py_assert has_error "Error response should have error field" ;;
  err <- getitem data "error" ;;
  code <- getitem err "code" ;;
  py_assert (Py.eq_str code "INVALID_TOKEN") "Should return INVALID_TOKEN error".

(** Lines 24-44. *)
Definition grouped_history (start_date end_date : string) : M unit :=
  try_except
    (response <- requests_get url (Some headers) (Some (params start_date end_date)) (Some 10) ;;
     py_assert ((status_code response =? 200) || (status_code response =? 401))
       ("Expected 200 or 401, got " ++ str_of_int (status_code response)) ;;
     if status_code response =? 200 then history_body response
     else if status_code response =? 401 then invalid_token_body response
     else ret tt)
    is_RequestException
    (fun e => py_assert false ("Request failed unexpectedly: " ++ text e)).

Definition test_metrics_history_data_grouping : M unit :=
  today <- datetime_now ;;
  let end_date := strftime_Ymd today in
  today' <- datetime_now ;;
  let start_date := strftime_Ymd (today' - 30) in
  grouped_history start_date end_date.

End TC007_grouping.

(** *** TC007_metrics_history_data_retrieval.py *)

Module TC007_retrieval.
Import Script Lib Text.

Definition BASE_URL := "http://localhost:3001".
Definition TIMEOUT := 30.
Definition HEADERS := [("Content-Type", "application/json")].

Definition endpoint := BASE_URL ++ "/api/v1/metrics/history".
Definition valid_groupbys : list string := ["day"; "week"; "month"].
Definition invalid_groupby := "year".

(** Lines 14-21: the body of the loop over the valid values. *)
Definition valid_groupby_check (groupby : string) : M unit :=
  try_except
    (response <- requests_get endpoint (Some HEADERS) (Some [("groupBy", groupby)]) (Some TIMEOUT) ;;
     py_assert (status_code response =? 200)
       ("Expected 200 OK for groupBy=" ++ groupby ++ ", got " ++ str_of_int (status_code response)) ;;
     json_data <- response_json response ;;
     py_assert (Py.isinstance_dict json_data || Py.isinstance_list json_data)
       ("Response for groupBy=" ++ groupby ++ " should be dict or list"))
    is_RequestException
    (fun e => py_assert false ("Request failed for groupBy=" ++ groupby ++ ": " ++ text e)).

(** Lines 24-30: the invalid value. *)
Definition invalid_groupby_check : M unit :=
  try_except
    (response <- requests_get endpoint (Some HEADERS) (Some [("groupBy", invalid_groupby)])
                   (Some TIMEOUT) ;;
     py_assert ((status_code response =? 400) || (status_code response =? 422))
       ("Expected 400 or 422 for invalid groupBy, got " ++ str_of_int (status_code response)) ;;
     json_data <- response_json response ;;
     found <- orb_lazy (py_in "error" json_data) (py_in "message" json_data) ;;
     py_assert found "Error response should contain error or message field")
    is_RequestException
    (fun e => py_assert false
                ("Request failed for invalid groupBy=" ++ invalid_groupby ++ ": " ++ text e)).

Definition test_metrics_history_data_retrieval : M unit :=
  for_each valid_groupbys valid_groupby_check ;;
  invalid_groupby_check.

End TC007_retrieval.

(** *** TC008_roas_roi_analysis_report_generation.py *)

Module TC008.
Import Script Lib Text.

Definition BASE_URL := "http://localhost:3001".
Definition TIMEOUT := 30.

Definition endpoint := BASE_URL ++ "/api/v1/roas-roi/analysis".
Definition headers :=
  [("Accept", "application/json"); ("Authorization", "Bearer testtoken")].

Definition params_valid := [("startDate", "2024-01-01"); ("endDate", "2024-01-31")].
Definition params_missing_start := [("endDate", "2024-01-31")].
Definition params_missing_end := [("startDate", "2024-01-01")].
Definition params_invalid_start := [("startDate", "invalid-date"); ("endDate", "2024-01-31")].
Definition params_invalid_end := [("startDate", "2024-01-01"); ("endDate", "invalid-date")].

(** Lines 18-26: a valid date range. *)
Definition valid_range : M unit :=
  try_except
    (response <- requests_get endpoint (Some headers) (Some params_valid) (Some TIMEOUT) ;;
     raise_for_status response ;;
     data <- response_json response ;;
     py_assert (Py.isinstance_dict data) "Response should be a JSON object" ;;
     found <- orb_lazy (py_in "report" data) (py_in "analysis" data) ;;
     py_assert found "Response should contain report or analysis data")
    is_RequestException
    (fun e => py_assert false ("Request with valid dates failed: " ++ text e)).

(** Lines 32-34, 40-41, 48-49 and 56-57: a range that must be refused. *)
Definition refused_range (ps : list (string * string)) (what : string) : M unit :=
  response <- requests_get endpoint (Some headers) (Some ps) (Some TIMEOUT) ;;
  py_assert ((status_code response =? 400) || (status_code response =? 422))
    ("Expected 400 or 422 for " ++ what ++ ", got " ++ str_of_int (status_code response)).

Definition test_roas_roi_analysis_report_generation : M unit :=
  valid_range ;;
  refused_range params_missing_start "missing startDate" ;;
  refused_range params_missing_end "missing endDate" ;;
  refused_range params_invalid_start "invalid startDate format" ;;
  refused_range params_invalid_end "invalid endDate format".

End TC008.

(** *** TC009_billing_subscription_management.py *)

Module TC009.
Import Script Lib Text.

Definition BASE_URL := "http://localhost:3001".
Definition SUBSCRIPTION_ENDPOINT := BASE_URL ++ "/api/v1/billing/subscription".
Definition TIMEOUT := 30.

Definition headers := [("Content-Type", "application/json")].

Definition get_subscription : M response :=
  try_except
    (requests_get SUBSCRIPTION_ENDPOINT (Some headers) None (Some TIMEOUT))
    is_RequestException
    (fun e => raise AssertionError ("Request to get subscription failed: " ++ text e)).

(** Lines 20-24: the current subscription. *)
Definition subscription_details : M unit :=
  response_get <- get_subscription ;;
  py_assert (status_code response_get =? 200)
    ("Expected 200, got " ++ str_of_int (status_code response_get)) ;;
  json_get <- response_json response_get ;;
  has_plan <- py_in "plan" json_get ;;
  py_assert has_plan "Missing 'plan' in subscription details" ;;
  has_status <- py_in "status" json_get ;;
  py_assert has_status "Missing 'status' in subscription details".

(** Lines 29-33: one round of the timed loop; [response_times] is the
    list as it is before the round, the result is the list after it. *)
Definition timed_round (response_times : list float) : M (list float) :=
  start_time <- time_time ;;
  resp <- get_subscription ;;
  now <- time_time ;;
  let duration := PrimFloat.sub now start_time in
  let response_times' := (response_times ++ [duration])%list in
  py_assert (status_code resp =? 200)
    ("Expected 200 during performance test, got " ++ str_of_int (status_code resp)) ;;
  ret response_times'.

(** [for _ in range(n)] over the rounds. *)
Fixpoint timed_rounds (n : nat) (response_times : list float) : M (list float) :=
  match n with
  | O => ret response_times
  | S k => response_times' <- timed_round response_times ;; timed_rounds k response_times'
  end.

Definition average (response_times : list float) : float :=
  PrimFloat.div (py_sum response_times) (float_of_nat (List.length response_times)).

(** Lines 27-35: the timed repetition.  The text of the last assertion
    prints the average with [:.2f], which is not modelled: it is given
    up to the number. *)
Definition performance : M unit :=
  response_times <- timed_rounds 5 [] ;;
  let avg_response_time := average response_times in
  py_assert (PrimFloat.ltb avg_response_time 2%float) "Average response time too high: ".

Definition test_billing_subscription_management : M unit :=
  subscription_details ;; performance.

End TC009.

(** *** TC010_whatsapp_message_sending.py *)

Module TC010.
Import Script Lib Text.

Definition BASE_URL := "http://localhost:3001".
Definition TIMEOUT := 30.
Definition AUTH_TOKEN := "Bearer sample_valid_token".

Definition url := BASE_URL ++ "/api/v1/whatsapp/send".
Definition headers := [("Content-Type", "application/json"); ("Authorization", AUTH_TOKEN)].

Definition valid_payload : payload :=
  [("to", "+12345678901"); ("message", "Test message from automated test.")].
Definition payload_missing_to : payload := [("message", "Test message without recipient.")].
Definition payload_missing_message : payload := [("to", "+12345678901")].
Definition payload_invalid_to : payload :=
  [("to", ""); ("message", "Message with invalid recipient")].
Definition payload_invalid_message : payload := [("to", "+12345678901"); ("message", "")].

(** Lines 20-23: a valid message. *)
Definition valid_message : M unit :=
  response <- requests_post url (Some valid_payload) (Some headers) (Some TIMEOUT) ;;
  py_assert (status_code response =? 200)
    ("Expected 200 OK for valid message, got " ++ str_of_int (status_code response)) ;;
  resp_json <- response_json response ;;
  good <- orb_lazy
            (andb_lazy (py_in "success" resp_json)
                       (v <- getitem resp_json "success" ;; ret (Py.is_True v)))
            (py_in "messageId" resp_json) ;;
  py_assert good "Expected success response content".

(** Lines 29-30, 36-37, 44-45 and 52-53: a payload that must be refused. *)
Definition refused_message (p : payload) (what : string) : M unit :=
  response <- requests_post url (Some p) (Some headers) (Some TIMEOUT) ;;
  py_assert ((status_code response =? 400) || (status_code response =? 422))
    ("Expected 400 or 422 for " ++ what ++ ", got " ++ str_of_int (status_code response)).

Definition test_whatsapp_message_sending : M unit :=
  valid_message ;;
  refused_message payload_missing_to "missing 'to'" ;;
  refused_message payload_missing_message "missing 'message'" ;;
  refused_message payload_invalid_to "invalid 'to'" ;;
  refused_message payload_invalid_message "invalid 'message'".

End TC010.

(** ** The corpus *)

Section Corpus.

Variable py_str : json -> string.

(** The eleven scripts, by file name. *)
Definition corpus : list (string * M unit) :=
  [("TC001_user_login_functionality", TC001.test_user_login_functionality);
   ("TC002_user_registration_process", TC002.test_user_registration_process py_str);
   ("TC003_utm_link_creation_and_validation", TC003.test_utm_link_creation_and_validation);
   ("TC004_google_ads_oauth_flow_initiation", TC004.test_google_ads_oauth_flow_initiation);
   ("TC005_fetch_google_ads_campaigns", TC005.test_fetch_google_ads_campaigns);
   ("TC006_dashboard_metrics_retrieval", TC006.test_dashboard_metrics_retrieval py_str);
   ("TC007_metrics_history_data_grouping", TC007_grouping.test_metrics_history_data_grouping);
   ("TC007_metrics_history_data_retrieval", TC007_retrieval.test_metrics_history_data_retrieval);
   ("TC008_roas_roi_analysis_report_generation", TC008.test_roas_roi_analysis_report_generation);
   ("TC009_billing_subscription_management", TC009.test_billing_subscription_management);
   ("TC010_whatsapp_message_sending", TC010.test_whatsapp_message_sending)].

End Corpus.

(** * The vocabulary of the properties

    ** What a run is judged by *)

(** A block accepts a world when it runs to its end without raising. *)
Definition accepts (m : M unit) (w : world) : Prop := fst (m w) = Ok tt.

(** The calls a run of [m] adds to the log. *)
Definition calls_of {A} (m : M A) (w : world) : list request :=
  skipn (List.length (sent w)) (sent (snd (m w))).

(** [v] is a JSON object that has one of the keys [ks]. *)
Definition object_with_one_of (ks : list string) (v : json) : bool :=
  match v with
  | JObj kv => existsb (fun k => Py.has_key k kv) ks
  | _ => false
  end.

(** The message of an error body, [""] when it has none:
    [err_json.get("message", "")] on a [dict]. *)
Definition message_of (kv : list (string * json)) : json :=
  match Py.lookup "message" kv with
  | Some x => x
  | None => JStr ""
  end.

(** ** Worlds and values for the examples

    An instance of [str] for the examples: exact on strings, integers,
    booleans and [None]; a [float], a [list] and a [dict] are shown by
    the name of their type. *)
Definition str_sample (v : json) : string :=
  match v with
  | JStr s => s
  | JInt n => Text.str_of_int n
  | JBool true => "True"
  | JBool false => "False"
  | JNull => "None"
  | _ => "<" ++ Py.type_name v ++ ">"
  end.

(** Worlds for the examples: the replies are those of a list, in order,
    and a transport error after them; the clock and the UUID source are
    fixed. *)
Definition scripted (rs : list reply) (ck : nat -> instant) : world :=
  boot (fun i => nth i rs (Unreachable "Connection refused"))
       ck
       (fun _ => "0123456789abcdef0123456789abcdef").

(** The text of one line feed. *)
Definition line_feed : string := String "010"%char "".

(** A clock that stands still, on 2026-01-01. *)
Definition noon : nat -> instant := fun _ => mk_instant 0%float 20454.

(** A response with a JSON body. *)
Definition answer (status : Z) (v : json) : reply :=
  Answer (mk_response status "" "" (Some v)).



(** Every call is answered 200 with an empty object. *)
Definition all_fine : nat -> reply := fun _ => answer 200 (JObj []).


(** A link with the five UTM parameters of [TC003.valid_payload_full],
    letter for letter. *)
Definition complete_link : string :=
  "https://www.example.com/page?utm_source=newsletter&utm_medium=email&utm_campaign=launch&utm_term=testterm&utm_content=contentA".

(** ** The calls of the checks, written out *)

Definition login_call (p : Lib.payload) : request :=
  mk_request POST "http://localhost:3001/api/v1/auth/login"
             (Some [("Content-Type", "application/json")]) None (Some p) (Some 30).

Definition history_call (g : string) : request :=
  mk_request GET "http://localhost:3001/api/v1/metrics/history"
             (Some [("Content-Type", "application/json")]) (Some [("groupBy", g)]) None
             (Some 30).

Definition grouped_history_call (start_date end_date : string) : request :=
  mk_request GET "http://localhost:3001/api/v1/metrics/history"
             (Some [("Content-Type", "application/json");
                    ("Authorization", "Bearer valid-test-token")])
             (Some [("startDate", start_date); ("endDate", end_date); ("groupBy", "day")])
             None (Some 10).

(** The body of a 200 and of a 401 that [grouped_history] accepts. *)
Definition history_rows (v : json) : Prop :=
  exists kv rows, v = JObj kv /\ Py.has_key "success" kv = true /\
                  Py.lookup "data" kv = Some (JArr rows).

Definition invalid_token_error (v : json) : Prop :=
  exists kv ekv, v = JObj kv /\ Py.lookup "error" kv = Some (JObj ekv) /\
                 Py.lookup "code" ekv = Some (JStr "INVALID_TOKEN").

Definition campaigns_call (ps : option (list (string * string))) : request :=
  mk_request GET "http://localhost:3001/api/v1/google-ads/campaigns"
             (Some [("Accept", "application/json")]) ps None (Some 30).

Definition register_call (p : Lib.payload) : request :=
  mk_request POST "http://localhost:3001/api/v1/auth/register"
             (Some [("Content-Type", "application/json")]) None (Some p) (Some 30).

Definition subscription_call : request :=
  mk_request GET "http://localhost:3001/api/v1/billing/subscription"
             (Some [("Content-Type", "application/json")]) None None (Some 30).

(** The duration measured in the [i]-th round of the timed loop started
    in [w]: the difference of the two clock readings around the call. *)
Definition round_duration (w : world) (i : nat) : float :=
  PrimFloat.sub (unix (clock w (ticks w + 2 * i + 1))) (unix (clock w (ticks w + 2 * i))).

(** The mean of five durations: their sum, added up from zero in their
    order, over five, in IEEE binary64. *)
Definition mean_of_five (d0 d1 d2 d3 d4 : float) : float :=
  PrimFloat.div
    (PrimFloat.add
       (PrimFloat.add (PrimFloat.add (PrimFloat.add (PrimFloat.add 0%float d0) d1) d2) d3) d4)
    5%float.

(** The duration between two readings of a clock. *)
Definition elapsed (ck : nat -> instant) (from to : nat) : float :=
  PrimFloat.sub (unix (ck to)) (unix (ck from)).

(** ** Discipline of the calls

    [silent] blocks make no call; [orderly P n] blocks make at most [n]
    calls, all satisfying [P], exactly [n] when they return, and stop at
    the first call that fails in transport, raising an exception whose
    text carries the text of that failure. *)

(** No call made so far has failed in transport. *)
Definition quiet (w : world) : Prop :=
  forall i e, (i < List.length (sent w))%nat -> replies w i <> Unreachable e.

(** The last call made, and no call before it, failed in transport, and
    [x] carries the text of the failure. *)
Definition fatal (w : world) (x : exn) : Prop :=
  exists i e, List.length (sent w) = S i /\ replies w i = Unreachable e /\
              Text.substr_in e (text x) = true /\
              forall j e', (j < i)%nat -> replies w j <> Unreachable e'.

Definition silent {A} (m : M A) : Prop :=
  forall w, sent (snd (m w)) = sent w /\ replies (snd (m w)) = replies w.

Definition orderly (P : request -> Prop) (n : nat) {A} (m : M A) : Prop :=
  forall w, quiet w ->
    replies (snd (m w)) = replies w /\
    exists l, sent (snd (m w)) = (sent w ++ l)%list /\ Forall P l /\
              match fst (m w) with
              | Ok _ => List.length l = n /\ quiet (snd (m w))
              | Raise x => (List.length l <= n)%nat /\
                           (quiet (snd (m w)) \/ fatal (snd (m w)) x)
              end.

(** A handler that raises again, keeping the text it was given. *)
Definition reraises {A} (h : exn -> M A) : Prop :=
  forall x w, exists x', h x w = (Raise x', w) /\
                         forall e, Text.substr_in e (text x) = true ->
                                   Text.substr_in e (text x') = true.

Definition timeout_is (t : Z) (q : request) : Prop := timeout q = Some t.

(** The timeout a script passes to its calls, by file name: the
    constant [TIMEOUT = 30] of ten files, the literal [timeout=10] of
    TC007_metrics_history_data_grouping.py. *)
Definition script_timeout (name : string) : Z :=
  if String.eqb name "TC007_metrics_history_data_grouping" then 10 else 30.

(** The calls a script makes when every check of it passes: its call
    sites, those in a loop counted once per round. *)
Definition calls_planned (name : string) : nat :=
  match
    find (fun e => String.eqb (fst e) name)
         [("TC001_user_login_functionality", 2%nat);
          ("TC002_user_registration_process", 7%nat);
          ("TC003_utm_link_creation_and_validation", 4%nat);
          ("TC004_google_ads_oauth_flow_initiation", 3%nat);
          ("TC005_fetch_google_ads_campaigns", 3%nat);
          ("TC006_dashboard_metrics_retrieval", 5%nat);
          ("TC007_metrics_history_data_grouping", 1%nat);
          ("TC007_metrics_history_data_retrieval", 4%nat);
          ("TC008_roas_roi_analysis_report_generation", 5%nat);
          ("TC009_billing_subscription_management", 6%nat);
          ("TC010_whatsapp_message_sending", 5%nat)]
  with
  | Some e => snd e
  | None => 0%nat
  end.

(** A script run from scratch: its outcome and the calls it made. *)
Definition outcome (t : M unit) (rs : nat -> reply) (ck : nat -> instant)
           (us : nat -> string) : result unit :=
  fst (t (boot rs ck us)).

Definition call_log (t : M unit) (rs : nat -> reply) (ck : nat -> instant)
           (us : nat -> string) : list request :=
  sent (snd (t (boot rs ck us))).

(** ** Replies the checks look for

    The conditions under which the blocks of the scripts accept a
    reply, as predicates on the reply. *)

(** The types on which [in] is defined. *)
Definition is_container (v : json) : bool :=
  match v with
  | JObj _ | JArr _ | JStr _ => true
  | _ => false
  end.

(** [s == a] and [s == a or s == b] on a status. *)
Definition exactly (a : Z) (s : Z) : bool := s =? a.
Definition either_status (a b : Z) (s : Z) : bool := (s =? a) || (s =? b).

(** [raise_for_status] lets the status through: it is not in 400..599. *)
Definition no_http_error (s : Z) : bool :=
  negb ((400 <=? s) && (s <? 600)).

(** A response of an admitted status, whatever its body. *)
Definition status_reply (admitted : Z -> bool) (rp : reply) : Prop :=
  exists r, rp = Answer r /\ admitted (status_code r) = true.

(** A response of an admitted status whose body is JSON and satisfies
    [P]. *)
Definition json_reply (admitted : Z -> bool) (P : json -> Prop) (rp : reply) : Prop :=
  exists r v, rp = Answer r /\ admitted (status_code r) = true /\ body r = Some v /\ P v.

(** One of two names is in the body, by Python's [in]. *)
Definition has_either (k1 k2 : string) (v : json) : Prop :=
  Py.member k1 v = true \/ Py.member k2 v = true.

(** An object with a [campaigns] list (TC005). *)
Definition campaigns_object (v : json) : Prop :=
  exists kv l, v = JObj kv /\ Py.lookup "campaigns" kv = Some (JArr l).

(** An object or an array (TC007, retrieval). *)
Definition object_or_array (v : json) : Prop :=
  Py.isinstance_dict v || Py.isinstance_list v = true.

(** An object one of whose keys is not the empty string (TC004). *)
Definition object_with_a_key (v : json) : Prop :=
  exists kv, v = JObj kv /\ existsb (fun k => negb (String.eqb k "")) (map fst kv) = true.

(** An object with a [report] or an [analysis] key (TC008). *)
Definition report_object (v : json) : Prop :=
  exists kv, v = JObj kv /\ (Py.has_key "report" kv = true \/ Py.has_key "analysis" kv = true).


(** Both names are in the body, by Python's [in] (TC009). *)
Definition has_both (k1 k2 : string) (v : json) : Prop :=
  Py.member k1 v = true /\ Py.member k2 v = true.

(** What TC010 takes for a sent message: an object whose [success] is
    [True] or that has a [messageId]; or an array or a string that has
    "messageId" in it and not "success". *)
Definition sent_message (v : json) : Prop :=
  match v with
  | JObj kv => Py.lookup "success" kv = Some (JBool true) \/ Py.has_key "messageId" kv = true
  | _ => Py.member "success" v = false /\ Py.member "messageId" v = true
  end.

(** One of the four names of TC003's [error_keys] is in the body. *)
Definition has_error_key (v : json) : Prop :=
  existsb (fun k => Py.member k v) TC003.error_keys = true.

(** [d.get(k)] on the members of a [dict]. *)
Definition get_or_None (k : string) (kv : list (string * json)) : json :=
  match Py.lookup k kv with
  | Some x => x
  | None => JNull
  end.

(** [a or b or c] on three values. *)
Definition first_truthy (a b c : json) : json :=
  if Py.truthy a then a else if Py.truthy b then b else c.

(** The link TC003 reads from an object:
    [data.get("utmLink") or data.get("shortUrl") or data.get("url")]. *)
Definition selected_link (kv : list (string * json)) : json :=
  first_truthy (get_or_None "utmLink" kv) (get_or_None "shortUrl" kv) (get_or_None "url" kv).

(** An object whose selected link has the original URL in it. *)
Definition link_object (original : string) (v : json) : Prop :=
  exists kv, v = JObj kv /\ Py.member original (selected_link kv) = true.


(** An object that echoes the email (TC002). *)
Definition echoes_email (email : string) (v : json) : Prop :=
  exists kv, v = JObj kv /\ Py.lookup "email" kv = Some (JStr email).

(** A body check leaves the world as it is and returns exactly on [P]. *)
Definition body_check (bc : json -> M unit) (P : json -> Prop) : Prop :=
  forall v w w', bc v w = (Ok tt, w') <-> w' = w /\ P v.

(** [call] makes the call [q] and returns the response to it. *)
Definition calls (call : M response) (q : request) : Prop :=
  forall r w w', call w = (Ok r, w') <-> Lib.next_reply w = Answer r /\ w' = Lib.log_call q w.

(** [m] is a check of one call: it makes the call [q], and returns
    exactly when the reply to it satisfies [C]. *)
Definition checks (m : M unit) (q : request) (C : reply -> Prop) : Prop :=
  forall w w', m w = (Ok tt, w') <-> w' = Lib.log_call q w /\ C (Lib.next_reply w).

(** ** The calls of the other checks, written out *)

Definition utm_call (p : Lib.payload) : request :=
  mk_request POST "http://localhost:3001/api/v1/utm/create"
             (Some [("Content-Type", "application/json")]) None (Some p) (Some 30).

Definition oauth_call (p : Lib.payload) : request :=
  mk_request POST "http://localhost:3001/api/v1/google-ads/auth"
             (Some [("Content-Type", "application/json")]) None (Some p) (Some 30).

Definition token_call : request :=
  mk_request POST "http://localhost:3001/api/v1/auth/login" None None
             (Some [("email", "testuser@example.com"); ("password", "testpassword")])
             (Some 30).

Definition dashboard_call (authorization : string) (ps : option (list (string * string)))
  : request :=
  mk_request GET "http://localhost:3001/api/v1/metrics/dashboard"
             (Some [("Accept", "application/json"); ("Authorization", authorization)])
             ps None (Some 30).

Definition roas_call (ps : list (string * string)) : request :=
  mk_request GET "http://localhost:3001/api/v1/roas-roi/analysis"
             (Some [("Accept", "application/json"); ("Authorization", "Bearer testtoken")])
             (Some ps) None (Some 30).

Definition whatsapp_call (p : Lib.payload) : request :=
  mk_request POST "http://localhost:3001/api/v1/whatsapp/send"
             (Some [("Content-Type", "application/json");
                    ("Authorization", "Bearer sample_valid_token")])
             None (Some p) (Some 30).

(** What TC007 (grouping) takes for a good reply: a 200 with the rows,
    or a 401 with the INVALID_TOKEN error. *)
Definition rows_or_invalid_token (rp : reply) : Prop :=
  json_reply (exactly 200) history_rows rp \/
  json_reply (exactly 401) invalid_token_error rp.

(** The world after [n] rounds of TC009's timed loop started in [w]:
    [n] calls and [2 * n] clock readings later. *)
Definition after_rounds (n : nat) (w : world) : world :=
  mk_world (replies w) (clock w) (uuids w)
           (sent w ++ repeat subscription_call n)%list (ticks w + 2 * n) (drawn w).




(** [400 <= s]. *)
Definition at_least_400 (s : Z) : bool := 400 <=? s.

(** The five calls of TC006 with the token [token]. *)
Definition dashboard_calls (py_str : json -> string) (token : json) : list request :=
  [token_call;
   dashboard_call ("Bearer " ++ py_str token)
                  (Some [("startDate", "2025-01-01"); ("endDate", "2025-01-31")]);
   dashboard_call ("Bearer " ++ py_str token) None;
   dashboard_call ("Bearer " ++ py_str token)
                  (Some [("startDate", "invalid-date"); ("endDate", "2025-01-31")]);
   dashboard_call ("Bearer " ++ py_str token)
                  (Some [("startDate", "2025-01-01"); ("endDate", "31-01-2025")])].

(** The exceptions of [m] are all of a class that [ok] admits. *)
Definition raises_in (ok : exn_class -> bool) {A} (m : M A) : Prop :=
  forall w x w', m w = (Raise x, w') -> ok (cls x) = true.

(** The text of the [HTTPError] of [raise_for_status]. *)
Definition http_error_text (r : response) : string :=
  Text.str_of_int (status_code r)
  ++ (if status_code r <? 500 then " Client Error: " else " Server Error: ")
  ++ reason r ++ " for url: " ++ final_url r.

(** The email TC002 registers: [f"user_{uuid.uuid4().hex}@example.com"]
    with the first UUID drawn. *)
Definition registered_email (us : nat -> string) : string :=
  "user_" ++ us 0%nat ++ "@example.com".

(** A block ends well, or in an [AssertionError] whose text starts with
    [prefix]. *)
Definition fails_only_with (prefix : string) (m : M unit) : Prop :=
  forall w, fst (m w) = Ok tt \/
            exists detail, fst (m w) = Raise (mk_exn AssertionError (prefix ++ detail)).

(** ** The requests of a script, in order *)







(** * Properties *)

(** ** The library model on examples *)

Example strftime_epoch : Lib.strftime_Ymd 0 = "1970-01-01".
Proof. reflexivity. Qed.

Example strftime_leap_day : Lib.strftime_Ymd 19782 = "2024-02-29".
Proof. reflexivity. Qed.

Example strftime_thirty_days_back : Lib.strftime_Ymd (20454 - 30) = "2025-12-02".
Proof. reflexivity. Qed.

Example lower_keeps_digits_and_signs :
  Text.lower "UTM_Content=ContentA&x=1" = "utm_content=contenta&x=1".
Proof. reflexivity. Qed.

Example substr_in_middle : Text.substr_in "email" "invalid email format" = true.
Proof. reflexivity. Qed.

Example substr_in_is_case_sensitive : Text.substr_in "Email" "invalid email format" = false.
Proof. reflexivity. Qed.

Example str_of_int_status : Text.str_of_int 404 = "404".
Proof. reflexivity. Qed.

Example pop_then_set :
  Lib.remove_key "email" (TC002.valid_payload "a@b.c")
  = [("name", "Test User"); ("password", "StrongP@ssw0rd!");
     ("organizationName", "Test Organization")] /\
  Lib.dict_set "password" "123" (TC002.valid_payload "a@b.c")
  = [("name", "Test User"); ("email", "a@b.c"); ("password", "123");
     ("organizationName", "Test Organization")].
Proof. split; reflexivity. Qed.

(** ** Facts about text *)

Lemma lower_char_not_upper c : Text.is_upper (Text.lower_char c) = false.
Proof. destruct c as [[] [] [] [] [] [] [] []]; reflexivity. Qed.

Lemma char_in_lower c s : Text.char_in c (Text.lower s) = true -> Text.is_upper c = false.
Proof.
  induction s as [|d s IH]; cbn; [discriminate|].
  intros H. apply orb_true_iff in H. destruct H as [H|H]; [|auto].
  apply Ascii.eqb_eq in H. subst. apply lower_char_not_upper.
Qed.

Lemma prefix_char_in n : forall h c,
  String.prefix n h = true -> Text.char_in c n = true -> Text.char_in c h = true.
Proof.
  induction n as [|a n IH]; intros h c; [intros _ H; discriminate H|].
  destruct h as [|b h]; [discriminate|].
  cbn. destruct (ascii_dec a b) as [->|]; [|discriminate].
  intros P H. apply orb_true_iff in H. apply orb_true_iff.
  destruct H; [now left | right; eauto].
Qed.

Lemma substr_in_char_in n h c :
  Text.substr_in n h = true -> Text.char_in c n = true -> Text.char_in c h = true.
Proof.
  induction h as [|b h IH]; cbn [Text.substr_in].
  - destruct (String.prefix n "") eqn:P; [|discriminate].
    intros _. now apply prefix_char_in.
  - destruct (String.prefix n (String b h)) eqn:P.
    + intros _. now apply prefix_char_in.
    + intros H C. cbn. apply orb_true_iff. right. auto.
Qed.

(** A needle with a capital letter is in no lowercased text. *)
Lemma capital_not_in_lower n s c :
  Text.char_in c n = true -> Text.is_upper c = true ->
  Text.substr_in n (Text.lower s) = false.
Proof.
  intros C U. destruct (Text.substr_in n (Text.lower s)) eqn:E; [|reflexivity].
  pose proof (char_in_lower c s (substr_in_char_in _ _ _ E C)). congruence.
Qed.

Lemma prefix_refl s : String.prefix s s = true.
Proof.
  induction s as [|a s IH]; cbn; [reflexivity|].
  destruct (ascii_dec a a); [assumption | congruence].
Qed.

Lemma substr_in_refl s : Text.substr_in s s = true.
Proof. destruct s; cbn [Text.substr_in]; now rewrite prefix_refl. Qed.

(** The text of an error is in every message that ends with it. *)
Lemma substr_in_app p e s :
  Text.substr_in e s = true -> Text.substr_in e (p ++ s) = true.
Proof.
  induction p as [|a p IH]; cbn [append Text.substr_in]; [auto|].
  intros H. destruct (String.prefix e (String a (p ++ s))); auto.
Qed.

(** ** Rules for runs that return *)

Section RunRules.
Import Script Lib.
Context {A B : Type}.

Lemma run_ret (a b : A) w w' : ret a w = (Ok b, w') -> b = a /\ w' = w.
Proof. unfold ret. intros H. inversion H. auto. Qed.

Lemma run_raise c msg (b : A) w w' : raise c msg w = (Ok b, w') -> False.
Proof. unfold raise. discriminate. Qed.

Lemma run_bind (m : M A) (k : A -> M B) b w w' :
  bind m k w = (Ok b, w') -> exists a w1, m w = (Ok a, w1) /\ k a w1 = (Ok b, w').
Proof.
  unfold bind. destruct (m w) as [[a|x] w1]; intros H; [eauto | discriminate].
Qed.

Lemma run_try (body : M A) c h a w w' :
  try_except body c h w = (Ok a, w') ->
  body w = (Ok a, w') \/
  exists x w1, body w = (Raise x, w1) /\ c (cls x) = true /\ h x w1 = (Ok a, w').
Proof.
  unfold try_except. destruct (body w) as [[a'|x] w1]; intros H; [now left|].
  destruct (c (cls x)) eqn:E; [right; eauto | discriminate].
Qed.

End RunRules.

Section RunRulesLib.
Import Script Lib.

Lemma run_assert cond msg u w w' :
  py_assert cond msg w = (Ok u, w') -> cond = true /\ w' = w.
Proof.
  unfold py_assert. destruct cond; intros H.
  - apply run_ret in H. tauto.
  - now apply run_raise in H.
Qed.

Lemma run_send q r w w' :
  send q w = (Ok r, w') -> next_reply w = Answer r /\ w' = log_call q w.
Proof.
  unfold send. destruct (refused q); [discriminate|].
  destruct (next_reply w); intros H; inversion H; auto.
Qed.


Lemma run_response_json r v w w' :
  response_json r w = (Ok v, w') -> body r = Some v /\ w' = w.
Proof.
  unfold response_json. destruct (body r); intros H.
  - apply run_ret in H. destruct H; subst; auto.
  - now apply run_raise in H.
Qed.

Lemma run_raise_for_status r u w w' :
  raise_for_status r w = (Ok u, w') ->
  (status_code r < 400 \/ 600 <= status_code r) /\ w' = w.
Proof.
  unfold raise_for_status.
  destruct ((400 <=? status_code r) && (status_code r <? 500)) eqn:E1;
    [intros H; now apply run_raise in H|].
  destruct ((500 <=? status_code r) && (status_code r <? 600)) eqn:E2;
    [intros H; now apply run_raise in H|].
  intros H. apply run_ret in H. split; [|tauto].
  apply andb_false_iff in E1, E2. lia.
Qed.

Lemma run_py_in k v b w w' :
  py_in k v w = (Ok b, w') -> b = Py.member k v /\ w' = w.
Proof.
  unfold py_in.
  destruct v; intros H; try (now apply run_raise in H); now apply run_ret in H.
Qed.

Lemma run_dict_get v k d x w w' :
  dict_get v k d w = (Ok x, w') ->
  exists kv, v = JObj kv /\
             x = match Py.lookup k kv with Some y => y | None => d end /\ w' = w.
Proof.
  unfold dict_get.
  destruct v; intros H; try (now apply run_raise in H).
  apply run_ret in H. destruct H; eauto.
Qed.

Lemma run_getitem v k x w w' :
  getitem v k w = (Ok x, w') ->
  exists kv, v = JObj kv /\ Py.lookup k kv = Some x /\ w' = w.
Proof.
  unfold getitem.
  destruct v; intros H; try (now apply run_raise in H).
  destruct (Py.lookup k members) eqn:E; [|now apply run_raise in H].
  apply run_ret in H. destruct H; subst; eauto.
Qed.

Lemma run_py_lower v s w w' :
  py_lower v w = (Ok s, w') -> exists t, v = JStr t /\ s = Text.lower t /\ w' = w.
Proof.
  unfold py_lower.
  destruct v; intros H; try (now apply run_raise in H).
  apply run_ret in H. destruct H; eauto.
Qed.

Lemma run_py_iter v l w w' :
  py_iter v w = (Ok l, w') ->
  (v = JObj [] \/ v = JArr [] \/ v = JStr "" -> l = []) /\ w' = w.
Proof.
  unfold py_iter.
  destruct v; intros H; try (now apply run_raise in H);
    apply run_ret in H; destruct H; subst; split; auto;
    intros [E|[E|E]]; inversion E; subst; reflexivity.
Qed.

End RunRulesLib.


(** Inversion of a run that returned, one construct at a time. *)
Ltac run_inv :=
  repeat
    match goal with
    | H : @Script.bind _ _ _ _ _ = (Ok _, _) |- _ =>
        apply run_bind in H; destruct H as (? & ? & ? & H); cbv beta in H
    | H : @Script.try_except _ _ _ _ _ = (Ok _, _) |- _ =>
        apply run_try in H; destruct H as [H | (? & ? & _ & _ & H)]; cbv beta in H
    | H : Script.py_assert _ _ _ = (Ok _, _) |- _ =>
        apply run_assert in H; destruct H as [? ?]; try discriminate; subst
    | H : @Script.ret _ _ _ = (Ok _, _) |- _ =>
        apply run_ret in H; destruct H as [? ?]; subst
    | H : @Script.raise _ _ _ _ = (Ok _, _) |- _ =>
        now apply run_raise in H
    | H : Lib.send _ _ = (Ok _, _) |- _ =>
        apply run_send in H; destruct H as [? ?]; subst
    | H : Lib.requests_post _ _ _ _ _ = (Ok _, _) |- _ => unfold Lib.requests_post in H
    | H : Lib.requests_get _ _ _ _ _ = (Ok _, _) |- _ => unfold Lib.requests_get in H
    | H : Lib.response_json _ _ = (Ok _, _) |- _ =>
        apply run_response_json in H; destruct H as [? ?]; subst
    | H : Lib.raise_for_status _ _ = (Ok _, _) |- _ =>
        apply run_raise_for_status in H; destruct H as [? ?]; subst
    | H : Lib.py_in _ _ _ = (Ok _, _) |- _ =>
        apply run_py_in in H; destruct H as [? ?]; subst
    | H : Lib.dict_get _ _ _ _ = (Ok _, _) |- _ =>
        apply run_dict_get in H; destruct H as (? & ? & ? & ?); subst
    | H : Lib.getitem _ _ _ = (Ok _, _) |- _ =>
        apply run_getitem in H; destruct H as (? & ? & ? & ?); subst
    | H : Lib.py_lower _ _ = (Ok _, _) |- _ =>
        apply run_py_lower in H; destruct H as (? & ? & ? & ?); subst
    | H : Lib.orb_lazy _ _ _ = (Ok _, _) |- _ => unfold Lib.orb_lazy in H
    | H : Lib.andb_lazy _ _ _ = (Ok _, _) |- _ => unfold Lib.andb_lazy in H
    | H : Lib.py_or _ _ _ = (Ok _, _) |- _ => unfold Lib.py_or in H
    | H : (if ?c then _ else _) _ = (Ok _, _) |- _ => destruct c eqn:?
    end.

(** From a block that accepts to the run that returned. *)
Lemma accepts_run (m : M unit) w : accepts m w -> exists w', m w = (Ok tt, w').
Proof.
  unfold accepts. destruct (m w) as [[[]|x] w']; cbn; intros H; [eauto | discriminate].
Qed.

(** The calls of a run whose final log is known. *)
Lemma calls_of_log {A} (m : M A) w (l : list request) :
  sent (snd (m w)) = (sent w ++ l)%list -> calls_of m w = l.
Proof.
  unfold calls_of. intros ->.
  rewrite skipn_app, skipn_all, Nat.sub_diag. reflexivity.
Qed.

Lemma sent_log_call q w : sent (Lib.log_call q w) = (sent w ++ [q])%list.
Proof. reflexivity. Qed.

(** [start_run H as R]: [H] becomes the run that returned, [R] keeps its
    final log. *)
Tactic Notation "start_run" hyp(H) "as" ident(R) :=
  apply accepts_run in H; destruct H as [? H];
  pose proof (f_equal (fun o => sent (snd o)) H) as R; cbn [snd] in R.

(** The calls of the run kept by [start_run], when it made one call. *)
Ltac one_call R :=
  apply calls_of_log; rewrite R; apply sent_log_call.

Lemma status_one_of_two (s a b : Z) :
  (s =? a) || (s =? b) = true -> s = a \/ s = b.
Proof. intros H. apply orb_true_iff in H. rewrite !Z.eqb_eq in H. exact H. Qed.

(** Statuses as the conclusions state them. *)
Ltac tidy_status :=
  repeat
    match goal with
    | E : (_ =? _) || (_ =? _) = true |- _ => apply status_one_of_two in E
    | E : (_ =? _) = true |- _ => apply Z.eqb_eq in E
    end.

#[local] Hint Resolve eq_sym : core.

(** ** The login check (TC001) *)

(** What [valid_login] and [invalid_login] require of the reply, with
    the membership test that [in] is. *)
Lemma valid_login_requires w :
  accepts TC001.valid_login w ->
  calls_of TC001.valid_login w = [login_call TC001.valid_payload] /\
  exists r v, Lib.next_reply w = Answer r /\ status_code r = 200 /\ body r = Some v /\
              (Py.member "token" v = true \/ Py.member "accessToken" v = true).
Proof.
  intros H. start_run H as R. unfold TC001.valid_login in H.
  run_inv; tidy_status; (split; [one_call R | eauto 10]).
Qed.

Lemma invalid_login_requires w :
  accepts TC001.invalid_login w ->
  calls_of TC001.invalid_login w = [login_call TC001.invalid_payload] /\
  exists r v, Lib.next_reply w = Answer r /\
              (status_code r = 400 \/ status_code r = 401) /\ body r = Some v /\
              (Py.member "error" v = true \/ Py.member "message" v = true).
Proof.
  intros H. start_run H as R. unfold TC001.invalid_login in H.
  run_inv; tidy_status; (split; [one_call R | eauto 10]).
Qed.

(** C7, as amended: with the known-valid pair the login check accepts only
    a reply of status 200 whose JSON body has [token] or [accessToken] in
    it by Python's [in] (a key of an object; also an element of an array
    or a substring of a string); with the mismatched pair it accepts only
    a reply of status 400 or 401 whose JSON body has [error] or [message]
    in it in the same sense. *)
Theorem login_contract_by_membership (w : world) :
  (accepts TC001.valid_login w ->
   calls_of TC001.valid_login w = [login_call TC001.valid_payload] /\
   exists r v, Lib.next_reply w = Answer r /\ status_code r = 200 /\ body r = Some v /\
               (Py.member "token" v = true \/ Py.member "accessToken" v = true)) /\
  (accepts TC001.invalid_login w ->
   calls_of TC001.invalid_login w = [login_call TC001.invalid_payload] /\
   exists r v, Lib.next_reply w = Answer r /\
               (status_code r = 400 \/ status_code r = 401) /\ body r = Some v /\
               (Py.member "error" v = true \/ Py.member "message" v = true)).
Proof. split; [apply valid_login_requires | apply invalid_login_requires]. Qed.

Lemma login_contract_by_membership_witness :
  accepts TC001.valid_login (scripted [answer 200 (JObj [("token", JStr "t0")])] noon) /\
  accepts TC001.invalid_login (scripted [answer 401 (JObj [("error", JStr "bad")])] noon) /\
  (exists r v,
      Lib.next_reply (scripted [answer 200 (JObj [("token", JStr "t0")])] noon) = Answer r /\
      status_code r = 200 /\ body r = Some v /\
      (Py.member "token" v = true \/ Py.member "accessToken" v = true)) /\
  (exists r v,
      Lib.next_reply (scripted [answer 401 (JObj [("error", JStr "bad")])] noon) = Answer r /\
      (status_code r = 400 \/ status_code r = 401) /\ body r = Some v /\
      (Py.member "error" v = true \/ Py.member "message" v = true)).
Proof.
  split; [reflexivity|]. split; [reflexivity|]. split.
  - apply (proj1 (login_contract_by_membership _)). reflexivity.
  - apply (proj2 (login_contract_by_membership _)). reflexivity.
Defined.

(** C7, as stated, fails: a 200 whose body is the JSON array ["token"]
    is accepted, and that body is no object with a [token] or an
    [accessToken] key. *)
Lemma login_accepts_token_outside_object :
  accepts TC001.valid_login (scripted [answer 200 (JArr [JStr "token"])] noon) /\
  object_with_one_of ["token"; "accessToken"] (JArr [JStr "token"]) = false.
Proof. split; reflexivity. Qed.

(** ** The metrics-history checks (TC007) *)

Lemma valid_groupby_requires g w :
  accepts (TC007_retrieval.valid_groupby_check g) w ->
  calls_of (TC007_retrieval.valid_groupby_check g) w = [history_call g] /\
  exists r, Lib.next_reply w = Answer r /\ status_code r = 200.
Proof.
  intros H. start_run H as R. unfold TC007_retrieval.valid_groupby_check in H.
  run_inv; tidy_status; (split; [one_call R | eauto 10]).
Qed.

Lemma invalid_groupby_requires w :
  accepts TC007_retrieval.invalid_groupby_check w ->
  calls_of TC007_retrieval.invalid_groupby_check w = [history_call "year"] /\
  exists r v, Lib.next_reply w = Answer r /\
              (status_code r = 400 \/ status_code r = 422) /\ body r = Some v /\
              (Py.member "error" v = true \/ Py.member "message" v = true).
Proof.
  intros H. start_run H as R. unfold TC007_retrieval.invalid_groupby_check in H.
  run_inv; tidy_status; (split; [one_call R | eauto 10]).
Qed.

(** C4, as amended: the request with groupBy=year is accepted only if the
    status is 400 or 422 and the JSON body has [error] or [message] in it
    by Python's [in] (a key of an object; also an element of an array or
    a substring of a string); the request with each of day, week and
    month is accepted only if the status is exactly 200. *)
Theorem groupby_contract_by_membership (w : world) :
  (accepts TC007_retrieval.invalid_groupby_check w ->
   calls_of TC007_retrieval.invalid_groupby_check w = [history_call "year"] /\
   exists r v, Lib.next_reply w = Answer r /\
               (status_code r = 400 \/ status_code r = 422) /\ body r = Some v /\
               (Py.member "error" v = true \/ Py.member "message" v = true)) /\
  (forall g, In g TC007_retrieval.valid_groupbys ->
             accepts (TC007_retrieval.valid_groupby_check g) w ->
             calls_of (TC007_retrieval.valid_groupby_check g) w = [history_call g] /\
             exists r, Lib.next_reply w = Answer r /\ status_code r = 200).
Proof.
  split; [apply invalid_groupby_requires | intros g _; apply valid_groupby_requires].
Qed.

Lemma groupby_contract_by_membership_witness :
  accepts TC007_retrieval.invalid_groupby_check
          (scripted [answer 422 (JObj [("message", JStr "groupBy must be day, week or month")])] noon) /\
  accepts (TC007_retrieval.valid_groupby_check "week") (scripted [answer 200 (JArr [])] noon) /\
  (exists r v,
      Lib.next_reply (scripted [answer 422 (JObj [("message", JStr "groupBy must be day, week or month")])] noon)
      = Answer r /\
      (status_code r = 400 \/ status_code r = 422) /\ body r = Some v /\
      (Py.member "error" v = true \/ Py.member "message" v = true)) /\
  (exists r, Lib.next_reply (scripted [answer 200 (JArr [])] noon) = Answer r /\ status_code r = 200).
Proof.
  split; [reflexivity|]. split; [reflexivity|]. split.
  - apply (proj1 (groupby_contract_by_membership _)). reflexivity.
  - apply (proj2 (groupby_contract_by_membership _) "week").
    + cbn. tauto.
    + reflexivity.
Defined.

(** C4, as stated, fails: for groupBy=year a 400 whose body is the JSON
    string "error" is accepted, and that body has no field at all. *)
Lemma groupby_accepts_error_outside_object :
  accepts TC007_retrieval.invalid_groupby_check (scripted [answer 400 (JStr "error")] noon) /\
  object_with_one_of ["error"; "message"] (JStr "error") = false.
Proof. split; reflexivity. Qed.

Lemma isinstance_list_inv v : Py.isinstance_list v = true -> exists l, v = JArr l.
Proof. destruct v; cbn; intros H; try discriminate; eauto. Qed.

Lemma isinstance_dict_inv v : Py.isinstance_dict v = true -> exists kv, v = JObj kv.
Proof. destruct v; cbn; intros H; try discriminate; eauto. Qed.

Lemma eq_str_inv v s : Py.eq_str v s = true -> v = JStr s.
Proof.
  destruct v; cbn; intros H; try discriminate.
  apply String.eqb_eq in H. now subst.
Qed.

Lemma grouped_history_requires sd ed w :
  accepts (TC007_grouping.grouped_history sd ed) w ->
  calls_of (TC007_grouping.grouped_history sd ed) w = [grouped_history_call sd ed] /\
  exists r v, Lib.next_reply w = Answer r /\ body r = Some v /\
              ((status_code r = 200 /\ history_rows v) \/
               (status_code r = 401 /\ invalid_token_error v)).
Proof.
  intros H. start_run H as R.
  unfold TC007_grouping.grouped_history, TC007_grouping.history_body,
    TC007_grouping.invalid_token_body in H.
  run_inv; tidy_status; (split; [one_call R|]).
  - match goal with E : Py.isinstance_list _ = true |- _ =>
      apply isinstance_list_inv in E; destruct E as [rows ->] end.
    do 2 eexists. split; [eassumption|]. split; [eassumption|]. left. split; [assumption|].
    unfold history_rows. eauto 10.
  - match goal with E : Py.eq_str _ _ = true |- _ => apply eq_str_inv in E; subst end.
    do 2 eexists. split; [eassumption|]. split; [eassumption|]. right. split; [assumption|].
    unfold invalid_token_error. eauto 10.
  - discriminate.
Qed.

(** C5: the grouped metrics-history request (startDate, endDate,
    groupBy=day, bearer token) is accepted for the statuses 200 and 401
    and for no other; a 200 is accepted only with a JSON object that has
    a [success] field and a [data] field holding a list, a 401 only with
    a JSON object whose [error] is an object with [code] equal to
    "INVALID_TOKEN". *)
Theorem grouped_history_contract :
  (forall sd ed w,
      accepts (TC007_grouping.grouped_history sd ed) w ->
      calls_of (TC007_grouping.grouped_history sd ed) w = [grouped_history_call sd ed] /\
      exists r v, Lib.next_reply w = Answer r /\ body r = Some v /\
                  ((status_code r = 200 /\ history_rows v) \/
                   (status_code r = 401 /\ invalid_token_error v))) /\
  (forall s, s = 200 \/ s = 401 ->
             exists r w, Lib.next_reply w = Answer r /\ status_code r = s /\
                         forall sd ed, accepts (TC007_grouping.grouped_history sd ed) w).
Proof.
  split; [apply grouped_history_requires|].
  intros s [-> | ->].
  - eexists. exists (scripted [answer 200 (JObj [("success", JBool true); ("data", JArr [])])] noon).
    split; [reflexivity|]. split; [reflexivity|]. intros sd ed. reflexivity.
  - eexists.
    exists (scripted [answer 401 (JObj [("error", JObj [("code", JStr "INVALID_TOKEN")])])] noon).
    split; [reflexivity|]. split; [reflexivity|]. intros sd ed. reflexivity.
Qed.

Lemma grouped_history_contract_witness :
  accepts (TC007_grouping.grouped_history "2025-12-02" "2026-01-01")
          (scripted [answer 401 (JObj [("error", JObj [("code", JStr "INVALID_TOKEN")])])] noon) /\
  exists r v,
    Lib.next_reply (scripted [answer 401 (JObj [("error", JObj [("code", JStr "INVALID_TOKEN")])])] noon)
    = Answer r /\ body r = Some v /\
    ((status_code r = 200 /\ history_rows v) \/ (status_code r = 401 /\ invalid_token_error v)).
Proof.
  split; [reflexivity|].
  apply (proj1 grouped_history_contract "2025-12-02" "2026-01-01"). reflexivity.
Defined.

(** ** The Google Ads campaigns check (TC005) *)

Lemma valid_customer_requires w :
  accepts TC005.valid_customer w ->
  calls_of TC005.valid_customer w = [campaigns_call (Some [("customer_id", "1234567890")])] /\
  exists r kv l, Lib.next_reply w = Answer r /\ status_code r = 200 /\
                 body r = Some (JObj kv) /\ Py.lookup "campaigns" kv = Some (JArr l).
Proof.
  intros H. start_run H as R. unfold TC005.valid_customer, TC005.guarded in H.
  run_inv; tidy_status; (split; [one_call R|]).
  match goal with E : Py.isinstance_list _ = true |- _ =>
    apply isinstance_list_inv in E; destruct E as [l ->] end.
  eauto 10.
Qed.

Lemma missing_customer_requires w :
  accepts TC005.missing_customer w ->
  calls_of TC005.missing_customer w = [campaigns_call None] /\
  exists r v, Lib.next_reply w = Answer r /\
              (status_code r = 400 \/ status_code r = 422) /\ body r = Some v /\
              (Py.member "error" v = true \/ Py.member "message" v = true).
Proof.
  intros H. start_run H as R. unfold TC005.missing_customer, TC005.guarded in H.
  run_inv; tidy_status; (split; [one_call R | eauto 10]).
Qed.

Lemma invalid_customer_requires w :
  accepts TC005.invalid_customer w ->
  calls_of TC005.invalid_customer w = [campaigns_call (Some [("customer_id", "invalid_id_!@#")])] /\
  exists r v, Lib.next_reply w = Answer r /\
              (status_code r = 400 \/ status_code r = 404) /\ body r = Some v /\
              (Py.member "error" v = true \/ Py.member "message" v = true).
Proof.
  intros H. start_run H as R. unfold TC005.invalid_customer, TC005.guarded in H.
  run_inv; tidy_status; (split; [one_call R | eauto 10]).
Qed.

(** C6, as amended: with a valid customer_id the campaigns check accepts
    only a 200 with a JSON object whose [campaigns] key holds a list;
    with customer_id missing it accepts only a 400 or a 422, with an
    invalid customer_id only a 400 or a 404 (so always a status of
    {400, 404, 422}), and in both cases only a JSON body that has [error]
    or [message] in it by Python's [in] (a key of an object; also an
    element of an array or a substring of a string). *)
Theorem campaigns_contract_by_membership (w : world) :
  (accepts TC005.valid_customer w ->
   calls_of TC005.valid_customer w = [campaigns_call (Some [("customer_id", "1234567890")])] /\
   exists r kv l, Lib.next_reply w = Answer r /\ status_code r = 200 /\
                  body r = Some (JObj kv) /\ Py.lookup "campaigns" kv = Some (JArr l)) /\
  (accepts TC005.missing_customer w ->
   calls_of TC005.missing_customer w = [campaigns_call None] /\
   exists r v, Lib.next_reply w = Answer r /\
               (status_code r = 400 \/ status_code r = 422) /\ body r = Some v /\
               (Py.member "error" v = true \/ Py.member "message" v = true)) /\
  (accepts TC005.invalid_customer w ->
   calls_of TC005.invalid_customer w
   = [campaigns_call (Some [("customer_id", "invalid_id_!@#")])] /\
   exists r v, Lib.next_reply w = Answer r /\
               (status_code r = 400 \/ status_code r = 404) /\ body r = Some v /\
               (Py.member "error" v = true \/ Py.member "message" v = true)).
Proof.
  split; [apply valid_customer_requires|].
  split; [apply missing_customer_requires | apply invalid_customer_requires].
Qed.

Lemma campaigns_contract_by_membership_witness :
  accepts TC005.valid_customer (scripted [answer 200 (JObj [("campaigns", JArr [])])] noon) /\
  accepts TC005.missing_customer
          (scripted [answer 422 (JObj [("message", JStr "customer_id is required")])] noon) /\
  accepts TC005.invalid_customer
          (scripted [answer 404 (JObj [("error", JStr "Customer not found")])] noon) /\
  (exists r kv l,
      Lib.next_reply (scripted [answer 200 (JObj [("campaigns", JArr [])])] noon) = Answer r /\
      status_code r = 200 /\ body r = Some (JObj kv) /\
      Py.lookup "campaigns" kv = Some (JArr l)) /\
  (exists r v,
      Lib.next_reply (scripted [answer 422 (JObj [("message", JStr "customer_id is required")])] noon)
      = Answer r /\
      (status_code r = 400 \/ status_code r = 422) /\ body r = Some v /\
      (Py.member "error" v = true \/ Py.member "message" v = true)) /\
  (exists r v,
      Lib.next_reply (scripted [answer 404 (JObj [("error", JStr "Customer not found")])] noon)
      = Answer r /\
      (status_code r = 400 \/ status_code r = 404) /\ body r = Some v /\
      (Py.member "error" v = true \/ Py.member "message" v = true)).
Proof.
  split; [reflexivity|]. split; [reflexivity|]. split; [reflexivity|]. split; [|split].
  - apply (proj1 (campaigns_contract_by_membership _)). reflexivity.
  - apply (proj1 (proj2 (campaigns_contract_by_membership _))). reflexivity.
  - apply (proj2 (proj2 (campaigns_contract_by_membership _))). reflexivity.
Defined.

(** C6, as stated, fails: with customer_id missing a 400 whose body is
    the JSON string "error" is accepted, and that body has no field at
    all. *)
Lemma campaigns_accepts_error_outside_object :
  accepts TC005.missing_customer (scripted [answer 400 (JStr "error")] noon) /\
  object_with_one_of ["error"; "message"] (JStr "error") = false.
Proof. split; reflexivity. Qed.

(** ** The registration checks (TC002) *)

Section Registration.
Import Script Lib.
Variable py_str : json -> string.

Lemma message_present kv word :
  py_str (JStr "") = "" -> word <> "" ->
  Text.substr_in word (Text.lower (py_str (message_of kv))) = true ->
  Py.has_key "message" kv = true.
Proof.
  unfold message_of, Py.has_key. intros E N H.
  destruct (Py.lookup "message" kv); [reflexivity|].
  rewrite E in H. destruct word; [congruence | discriminate].
Qed.

Lemma run_lowered_message v m w w' :
  TC002.lowered_message py_str v w = (Ok m, w') ->
  exists kv, v = JObj kv /\ m = Text.lower (py_str (message_of kv)) /\ w' = w.
Proof.
  unfold TC002.lowered_message. intros H. run_inv. unfold message_of. eauto.
Qed.

Lemma run_any_mention v field (keys : list json) b w w' :
  any_of keys (fun _ => m <- TC002.lowered_message py_str v ;; ret (Text.substr_in field m)) w
  = (Ok b, w') ->
  w' = w /\
  (b = true ->
   exists kv, v = JObj kv /\
              Text.substr_in field (Text.lower (py_str (message_of kv))) = true).
Proof.
  revert w. induction keys as [|k keys IH]; intros w; cbn [any_of]; intros H.
  - apply run_ret in H. destruct H; subst. split; [reflexivity | discriminate].
  - apply run_bind in H. destruct H as (b0 & w1 & H1 & H). cbv beta in H.
    apply run_bind in H1. destruct H1 as (m & w2 & H1 & H2). cbv beta in H2.
    apply run_lowered_message in H1. destruct H1 as (kv & -> & -> & ->).
    apply run_ret in H2. destruct H2 as [-> ->].
    destruct (Text.substr_in field (Text.lower (py_str (message_of kv)))) eqn:E.
    + apply run_ret in H. destruct H; subst. eauto.
    + apply IH in H. exact H.
Qed.

Lemma run_dict_pop k d d' w w' :
  dict_pop k d w = (Ok d', w') -> d' = remove_key k d /\ w' = w.
Proof.
  unfold dict_pop. destruct (has_field k d); intros H.
  - now apply run_ret in H.
  - now apply run_raise in H.
Qed.

Lemma missing_field_check_requires email field w :
  accepts (TC002.missing_field_check py_str email field) w ->
  calls_of (TC002.missing_field_check py_str email field) w
  = [register_call (remove_key field (TC002.valid_payload email))] /\
  exists r kv, next_reply w = Answer r /\
               (status_code r = 400 \/ status_code r = 422) /\
               body r = Some (JObj kv) /\
               Text.substr_in field (Text.lower (py_str (message_of kv))) = true /\
               (py_str (JStr "") = "" -> field <> "" -> Py.has_key "message" kv = true).
Proof.
  intros H. start_run H as R. unfold TC002.missing_field_check in H.
  apply run_bind in H. destruct H as (p & w1 & P & H). cbv beta in H.
  apply run_dict_pop in P. destruct P as [-> ->].
  run_inv.
  match goal with I : py_iter _ _ = _ |- _ => apply run_py_iter in I; destruct I as [_ ->] end.
  match goal with I : any_of _ _ _ = _ |- _ =>
    apply run_any_mention in I; destruct I as [-> I]; destruct (I eq_refl) as (kv & -> & I') end.
  tidy_status. split; [one_call R|].
  do 2 eexists. repeat (split; [eassumption|]).
  intros E N. now apply (message_present kv field).
Qed.

Lemma message_check_requires (check : M unit) (p : payload) (word msg1 msg2 : string) w :
  check =
    (resp <- requests_post TC002.url (Some p) (Some TC002.headers) (Some TC002.TIMEOUT) ;;
     py_assert ((status_code resp =? 400) || (status_code resp =? 422))
       (msg1 ++ Text.str_of_int (status_code resp)) ;;
     err_json <- response_json resp ;;
     m <- TC002.lowered_message py_str err_json ;;
     py_assert (Text.substr_in word m) msg2) ->
  accepts check w ->
  calls_of check w = [register_call p] /\
  exists r kv, next_reply w = Answer r /\
               (status_code r = 400 \/ status_code r = 422) /\
               body r = Some (JObj kv) /\
               Text.substr_in word (Text.lower (py_str (message_of kv))) = true /\
               (py_str (JStr "") = "" -> word <> "" -> Py.has_key "message" kv = true).
Proof.
  intros -> H. start_run H as R. run_inv.
  match goal with I : TC002.lowered_message _ _ _ = _ |- _ =>
    apply run_lowered_message in I; destruct I as (kv & -> & -> & ->) end.
  tidy_status. split; [one_call R|].
  do 2 eexists. repeat (split; [eassumption|]).
  intros E N. now apply (message_present kv word).
Qed.

End Registration.

(** C1: for each of the fields name, email, password and
    organizationName, the registration check that posts the valid payload
    without that field accepts only a reply of status 400 or 422 whose
    body is a JSON object such that the text [str] gives of its [message]
    field, lowercased, contains the field's name as it is written; the
    object has a [message] field indeed, [str] being the identity on
    strings. *)
Theorem missing_field_check_accepts_only
        (py_str : json -> string) (email field : string) (w : world) :
  In field TC002.required_fields ->
  accepts (TC002.missing_field_check py_str email field) w ->
  calls_of (TC002.missing_field_check py_str email field) w
  = [register_call (Lib.remove_key field (TC002.valid_payload email))] /\
  exists r kv, Lib.next_reply w = Answer r /\
               (status_code r = 400 \/ status_code r = 422) /\
               body r = Some (JObj kv) /\
               Text.substr_in field (Text.lower (py_str (message_of kv))) = true /\
               (py_str (JStr "") = "" -> Py.has_key "message" kv = true).
Proof.
  intros Hin H. apply missing_field_check_requires in H.
  destruct H as (Hcall & r & kv & Hr & Hs & Hb & Hm & Hk).
  split; [exact Hcall|]. exists r, kv. repeat (split; [assumption|]).
  intros E. apply Hk; [exact E|].
  intros ->. cbn in Hin. intuition discriminate.
Qed.

Lemma missing_field_check_accepts_only_witness :
  accepts (TC002.missing_field_check str_sample "user_1@example.com" "password")
          (scripted [answer 422 (JObj [("message", JStr "Password is required")])] noon) /\
  exists r kv,
    Lib.next_reply (scripted [answer 422 (JObj [("message", JStr "Password is required")])] noon)
    = Answer r /\
    (status_code r = 400 \/ status_code r = 422) /\
    body r = Some (JObj kv) /\
    Text.substr_in "password" (Text.lower (str_sample (message_of kv))) = true /\
    (str_sample (JStr "") = "" -> Py.has_key "message" kv = true).
Proof.
  split; [reflexivity|].
  apply (missing_field_check_accepts_only str_sample "user_1@example.com" "password").
  - cbn. tauto.
  - reflexivity.
Defined.

(** C10: the registration check with the malformed email
    "invalid-email-format" accepts only a reply of status 400 or 422
    whose body is a JSON object such that the text [str] gives of its
    [message] field, lowercased, contains "email"; the check with the
    password "123" accepts only a reply of status 400 or 422 whose
    [message], lowercased, contains "password" in the same sense; the
    object has a [message] field indeed, [str] being the identity on
    strings. *)
Theorem invalid_email_and_short_password_accept_only
        (py_str : json -> string) (email : string) (w : world) :
  (accepts (TC002.invalid_email_check py_str email) w ->
   calls_of (TC002.invalid_email_check py_str email) w
   = [register_call [("name", "Test User"); ("email", "invalid-email-format");
                     ("password", "StrongP@ssw0rd!"); ("organizationName", "Test Organization")]] /\
   exists r kv, Lib.next_reply w = Answer r /\
                (status_code r = 400 \/ status_code r = 422) /\
                body r = Some (JObj kv) /\
                Text.substr_in "email" (Text.lower (py_str (message_of kv))) = true /\
                (py_str (JStr "") = "" -> Py.has_key "message" kv = true)) /\
  (accepts (TC002.short_password_check py_str email) w ->
   calls_of (TC002.short_password_check py_str email) w
   = [register_call [("name", "Test User"); ("email", email);
                     ("password", "123"); ("organizationName", "Test Organization")]] /\
   exists r kv, Lib.next_reply w = Answer r /\
                (status_code r = 400 \/ status_code r = 422) /\
                body r = Some (JObj kv) /\
                Text.substr_in "password" (Text.lower (py_str (message_of kv))) = true /\
                (py_str (JStr "") = "" -> Py.has_key "message" kv = true)).
Proof.
  split; intros H.
  - eapply message_check_requires in H; [|reflexivity].
    destruct H as (Hcall & r & kv & Hr & Hs & Hb & Hm & Hk).
    split; [exact Hcall|]. exists r, kv. repeat (split; [assumption|]).
    intros E. apply Hk; [exact E | discriminate].
  - eapply message_check_requires in H; [|reflexivity].
    destruct H as (Hcall & r & kv & Hr & Hs & Hb & Hm & Hk).
    split; [exact Hcall|]. exists r, kv. repeat (split; [assumption|]).
    intros E. apply Hk; [exact E | discriminate].
Qed.

Lemma invalid_email_and_short_password_accept_only_witness :
  accepts (TC002.invalid_email_check str_sample "user_1@example.com")
          (scripted [answer 400 (JObj [("message", JStr "Invalid Email format")])] noon) /\
  accepts (TC002.short_password_check str_sample "user_1@example.com")
          (scripted [answer 422 (JObj [("message", JStr "Password too short")])] noon) /\
  (exists r kv,
      Lib.next_reply (scripted [answer 400 (JObj [("message", JStr "Invalid Email format")])] noon)
      = Answer r /\
      (status_code r = 400 \/ status_code r = 422) /\ body r = Some (JObj kv) /\
      Text.substr_in "email" (Text.lower (str_sample (message_of kv))) = true /\
      (str_sample (JStr "") = "" -> Py.has_key "message" kv = true)) /\
  (exists r kv,
      Lib.next_reply (scripted [answer 422 (JObj [("message", JStr "Password too short")])] noon)
      = Answer r /\
      (status_code r = 400 \/ status_code r = 422) /\ body r = Some (JObj kv) /\
      Text.substr_in "password" (Text.lower (str_sample (message_of kv))) = true /\
      (str_sample (JStr "") = "" -> Py.has_key "message" kv = true)).
Proof.
  split; [reflexivity|]. split; [reflexivity|]. split.
  - apply (proj1 (invalid_email_and_short_password_accept_only str_sample "user_1@example.com" _)).
    reflexivity.
  - apply (proj2 (invalid_email_and_short_password_accept_only str_sample "user_1@example.com" _)).
    reflexivity.
Defined.

Lemma run_accepts (m : M unit) w u w' : m w = (Ok u, w') -> accepts m w.
Proof. unfold accepts. intros ->. now destruct u. Qed.

Lemma organization_name_not_in_lower s :
  Text.substr_in "organizationName" (Text.lower s) = false.
Proof. apply (capital_not_in_lower _ _ "N"); reflexivity. Qed.

Lemma organization_name_check_refuses (py_str : json -> string) email w :
  accepts (TC002.missing_field_check py_str email "organizationName") w -> False.
Proof.
  intros H. apply missing_field_check_requires in H.
  destruct H as (_ & r & kv & _ & _ & _ & H & _).
  rewrite organization_name_not_in_lower in H. discriminate.
Qed.

(** X1: the missing-field check for organizationName looks for the name,
    capital N included, in a lowercased text: it accepts no reply. *)
Theorem organization_name_check_never_accepts
        (py_str : json -> string) (email : string) (w : world) :
  ~ accepts (TC002.missing_field_check py_str email "organizationName") w.
Proof. intros H. exact (organization_name_check_refuses py_str email w H). Qed.

(** X2: so the registration script as a whole passes in no world. *)
Theorem registration_script_never_passes (py_str : json -> string) (w : world) :
  ~ accepts (TC002.test_user_registration_process py_str) w.
Proof.
  intros H. start_run H as R. unfold TC002.test_user_registration_process in H.
  apply run_bind in H. destruct H as (hex & w1 & _ & H). cbv beta zeta in H.
  apply run_bind in H. destruct H as (? & w2 & _ & H). cbv beta in H.
  apply run_bind in H. destruct H as (? & w3 & H & _).
  unfold TC002.required_fields in H. cbn [Lib.for_each] in H.
  do 3 (apply run_bind in H; destruct H as (? & ? & _ & H); cbv beta in H).
  apply run_bind in H. destruct H as (? & ? & H & _).
  apply run_accepts in H. now apply organization_name_check_refuses in H.
Qed.

(** ** The UTM creation check (TC003) *)

(** X3: the check with all UTM parameters looks for
    "utm_content=contentA", capital A included, in the lowercased link:
    it accepts no reply. *)
Theorem full_creation_never_accepts (w : world) : ~ accepts TC003.full_creation w.
Proof.
  intros H. start_run H as R. unfold TC003.full_creation in H.
  apply run_bind in H. destruct H as (? & ? & _ & H). cbv beta in H.
  apply run_bind in H. destruct H as (? & ? & _ & H). cbv beta in H.
  apply run_bind in H. destruct H as (? & ? & _ & H). cbv beta in H.
  apply run_bind in H. destruct H as (link & ? & _ & H). cbv beta in H.
  apply run_bind in H. destruct H as (? & ? & _ & H). cbv beta in H.
  unfold TC003.utm_params in H. cbn [Lib.for_each] in H.
  do 4 (apply run_bind in H; destruct H as (? & ? & _ & H); cbv beta in H).
  apply run_bind in H. destruct H as (? & ? & H & _).
  unfold TC003.utm_param_check in H. run_inv.
  match goal with E : Text.substr_in _ _ = true |- _ =>
    rewrite (capital_not_in_lower _ _ "A") in E by reflexivity; discriminate E end.
Qed.

(** C3, on the code: a 200 whose [utmLink] holds every one of the five
    substrings utm_<field>=<value>, letter for letter and so also when
    case is ignored, is refused, with the message that
    utm_content=contentA is missing. *)
Theorem full_creation_refuses_complete_link :
  forallb (fun p => Text.substr_in p complete_link) TC003.utm_params = true /\
  forallb (fun p => Text.substr_in (Text.lower p) (Text.lower complete_link)) TC003.utm_params = true /\
  fst (TC003.full_creation (scripted [answer 200 (JObj [("utmLink", JStr complete_link)])] noon))
  = Raise (mk_exn AssertionError "UTM parameter utm_content=contentA missing in created URL").
Proof. repeat split; vm_compute; reflexivity. Qed.

(** ** The billing subscription check (TC009) *)

Section Billing.
Import Script Lib.

Lemma run_time_time t w w' :
  time_time w = (Ok t, w') -> t = unix (clock w (ticks w)) /\ w' = tick w.
Proof. unfold time_time. intros H. inversion H. auto. Qed.

Lemma run_get_subscription r w w' :
  TC009.get_subscription w = (Ok r, w') ->
  next_reply w = Answer r /\ w' = log_call subscription_call w.
Proof. unfold TC009.get_subscription. intros H. run_inv. auto. Qed.

Lemma run_timed_round ts ts' w w' :
  TC009.timed_round ts w = (Ok ts', w') ->
  (exists r, next_reply w = Answer r /\ status_code r = 200) /\
  ts' = (ts ++ [round_duration w 0])%list /\
  w' = tick (log_call subscription_call (tick w)).
Proof.
  unfold TC009.timed_round. intros H.
  apply run_bind in H. destruct H as (t0 & w1 & T0 & H). cbv beta in H.
  apply run_time_time in T0. destruct T0 as [-> ->].
  apply run_bind in H. destruct H as (r & w2 & G & H). cbv beta in H.
  apply run_get_subscription in G. destruct G as [G ->].
  apply run_bind in H. destruct H as (t1 & w3 & T1 & H). cbv beta zeta in H.
  apply run_time_time in T1. destruct T1 as [-> ->].
  run_inv. tidy_status.
  split; [eauto|]. split; [|reflexivity].
  unfold round_duration. cbn [tick log_call ticks clock].
  now rewrite Nat.add_0_r, Nat.add_1_r.
Qed.


End Billing.

(** The average the script computes of five durations is their mean. *)
Lemma average_of_five (d0 d1 d2 d3 d4 : float) :
  TC009.average [d0; d1; d2; d3; d4] = mean_of_five d0 d1 d2 d3 d4.
Proof. reflexivity. Qed.



(** ** Discipline of the calls: the rules *)

Section Discipline.
Import Script Lib.

Lemma silent_ret {A} (a : A) : silent (ret a).
Proof. intros w. split; reflexivity. Qed.

Lemma silent_raise {A} c msg : silent (@raise A c msg).
Proof. intros w. split; reflexivity. Qed.

Lemma silent_bind {A B} (m : M A) (k : A -> M B) :
  silent m -> (forall a, silent (k a)) -> silent (bind m k).
Proof.
  intros Hm Hk w. unfold bind. specialize (Hm w).
  destruct (m w) as [[a|x] w1]; cbn [snd] in *; [|exact Hm].
  specialize (Hk a w1). destruct (k a w1) as [res w2]; cbn [snd] in *.
  destruct Hm, Hk. split; congruence.
Qed.

Lemma silent_if {A} (c : bool) (m1 m2 : M A) :
  silent m1 -> silent m2 -> silent (if c then m1 else m2).
Proof. destruct c; auto. Qed.

Lemma silent_any_of {B} (xs : list B) (p : B -> M bool) :
  (forall x, silent (p x)) -> silent (any_of xs p).
Proof.
  intros Hp. induction xs as [|x xs IH]; cbn [any_of].
  - apply silent_ret.
  - intros w. unfold bind. specialize (Hp x w).
    destruct (p x w) as [[[|]|e] w1]; cbn [snd] in *; try exact Hp.
    specialize (IH w1). destruct Hp, IH. split; congruence.
Qed.

Lemma orderly_silent {A} P (m : M A) : silent m -> orderly P 0 m.
Proof.
  intros Hm w Q. destruct (Hm w) as [Hs Hr]. split; [exact Hr|].
  exists []. rewrite app_nil_r. split; [exact Hs|]. split; [constructor|].
  assert (quiet (snd (m w))) as Q'
      by (unfold quiet; rewrite Hs, Hr; exact Q).
  destruct (fst (m w)); cbn; auto.
Qed.

Lemma orderly_bind {A B} P n1 n2 (m : M A) (k : A -> M B) :
  orderly P n1 m -> (forall a, orderly P n2 (k a)) -> orderly P (n1 + n2) (bind m k).
Proof.
  intros Hm Hk w Q. unfold bind. specialize (Hm w Q).
  destruct (m w) as [[a|x] w1]; cbn [fst snd] in *.
  - destruct Hm as (Hr & l1 & Hs & HP & Hn & Q1).
    specialize (Hk a w1 Q1). destruct (k a w1) as [res w2]; cbn [fst snd] in *.
    destruct Hk as (Hr2 & l2 & Hs2 & HP2 & Hres).
    split; [congruence|]. exists (l1 ++ l2)%list.
    split; [rewrite Hs2, Hs; apply eq_sym, app_assoc|].
    split; [apply Forall_app; auto|].
    rewrite length_app. destruct res; [destruct Hres; split; [lia|auto]|].
    destruct Hres; split; [lia|auto].
  - destruct Hm as (Hr & l1 & Hs & HP & Hn & Q1).
    split; [exact Hr|]. exists l1. repeat split; auto. lia.
Qed.

Lemma orderly_if {A} P n (c : bool) (m1 m2 : M A) :
  orderly P n m1 -> orderly P n m2 -> orderly P n (if c then m1 else m2).
Proof. destruct c; auto. Qed.

Lemma fatal_text w x x' :
  (forall e, Text.substr_in e (text x) = true -> Text.substr_in e (text x') = true) ->
  fatal w x -> fatal w x'.
Proof. intros T (i & e & ?). exists i, e. intuition. Qed.

Lemma orderly_try {A} P n (body : M A) c h :
  orderly P n body -> reraises h -> orderly P n (try_except body c h).
Proof.
  intros Hb Hh w Q. unfold try_except. specialize (Hb w Q).
  destruct (body w) as [[a|x] w1]; cbn [fst snd] in *; [exact Hb|].
  destruct (c (cls x)); [|exact Hb].
  destruct (Hh x w1) as (x' & -> & T). cbn [fst snd].
  destruct Hb as (Hr & l & Hs & HP & Hn & [Q1|F]).
  - split; [exact Hr|]. exists l. auto.
  - split; [exact Hr|]. exists l. repeat split; auto. right. eapply fatal_text; eauto.
Qed.

Lemma orderly_count {A} P n n' (m : M A) : orderly P n m -> n = n' -> orderly P n' m.
Proof. now intros H <-. Qed.

End Discipline.

Section DisciplineLib.
Import Script Lib.

Lemma orderly_send (P : request -> Prop) q : P q -> orderly P 1 (send q).
Proof.
  intros HP w Q. unfold send.
  destruct (refused q) as [x|]; cbn [fst snd].
  { split; [reflexivity|]. exists []. rewrite app_nil_r. split; [reflexivity|].
    split; [constructor|]. split; [cbn; lia | left; exact Q]. }
  assert (forall i e, (i < List.length (sent w))%nat ->
                      replies (log_call q w) i <> Unreachable e) as Q' by exact Q.
  destruct (next_reply w) as [r|err] eqn:E; cbn [fst snd].
  - split; [reflexivity|]. exists [q]. split; [reflexivity|]. split; [auto|].
    split; [reflexivity|]. intros i e Hi. rewrite sent_log_call, length_app in Hi.
    cbn in Hi. destruct (Nat.eq_dec i (List.length (sent w))) as [->|].
    + unfold next_reply in E. cbn. congruence.
    + apply Q'. lia.
  - split; [reflexivity|]. exists [q]. split; [reflexivity|]. split; [auto|].
    split; [cbn; lia|]. right. exists (List.length (sent w)), err.
    split; [rewrite sent_log_call, length_app; cbn; lia|].
    split; [exact E|]. split; [apply substr_in_refl|]. intros j e' Hj. now apply Q.
Qed.

Lemma orderly_for_each {X} P n (xs : list X) (body : X -> M unit) :
  (forall x, orderly P n (body x)) -> orderly P (List.length xs * n) (for_each xs body).
Proof.
  intros Hb. induction xs as [|x xs IH]; cbn [for_each List.length Nat.mul].
  - apply orderly_silent, silent_ret.
  - apply orderly_bind; auto.
Qed.

Lemma silent_assert c msg : silent (py_assert c msg).
Proof. destruct c; [apply silent_ret | apply silent_raise]. Qed.

Lemma silent_response_json r : silent (response_json r).
Proof. unfold response_json. destruct (body r); [apply silent_ret | apply silent_raise]. Qed.

Lemma silent_raise_for_status r : silent (raise_for_status r).
Proof.
  unfold raise_for_status. cbv zeta.
  repeat apply silent_if; first [apply silent_ret | apply silent_raise].
Qed.

Lemma silent_py_in k v : silent (py_in k v).
Proof. destruct v; first [apply silent_ret | apply silent_raise]. Qed.

Lemma silent_dict_get v k d : silent (dict_get v k d).
Proof. destruct v; first [apply silent_ret | apply silent_raise]. Qed.

Lemma silent_getitem v k : silent (getitem v k).
Proof.
  destruct v; cbn [getitem]; try apply silent_raise.
  destruct (Py.lookup k members); [apply silent_ret | apply silent_raise].
Qed.

Lemma silent_py_lower v : silent (py_lower v).
Proof. destruct v; first [apply silent_ret | apply silent_raise]. Qed.

Lemma silent_py_iter v : silent (py_iter v).
Proof. destruct v; first [apply silent_ret | apply silent_raise]. Qed.

Lemma silent_dict_keys v : silent (dict_keys v).
Proof. destruct v; first [apply silent_ret | apply silent_raise]. Qed.

Lemma silent_py_len v : silent (py_len v).
Proof. destruct v; first [apply silent_ret | apply silent_raise]. Qed.

Lemma silent_dict_pop k d : silent (dict_pop k d).
Proof. unfold dict_pop. apply silent_if; [apply silent_ret | apply silent_raise]. Qed.

Lemma silent_time_time : silent time_time.
Proof. intros w. split; reflexivity. Qed.

Lemma silent_datetime_now : silent datetime_now.
Proof. intros w. split; reflexivity. Qed.

Lemma silent_uuid4_hex : silent uuid4_hex.
Proof. intros w. split; reflexivity. Qed.

End DisciplineLib.

Create HintDb silent.

#[local] Hint Resolve silent_ret silent_raise silent_assert silent_response_json
  silent_raise_for_status silent_py_in silent_dict_get silent_getitem silent_py_lower
  silent_py_iter silent_dict_keys silent_py_len silent_dict_pop silent_time_time
  silent_datetime_now silent_uuid4_hex : silent.

(** [silent] by the structure of the block. *)
Ltac silent_tac :=
  lazymatch goal with
  | |- silent (Script.bind _ _) => apply silent_bind; [silent_tac | intro; silent_tac]
  | |- silent (if _ then _ else _) => apply silent_if; silent_tac
  | |- silent (Lib.any_of _ _) => apply silent_any_of; intro; silent_tac
  | |- silent (Lib.orb_lazy _ _) => unfold Lib.orb_lazy; silent_tac
  | |- silent (Lib.andb_lazy _ _) => unfold Lib.andb_lazy; silent_tac
  | |- silent (Lib.py_or _ _) => unfold Lib.py_or; silent_tac
  | |- silent (Lib.pytest_fail _) => apply silent_raise
  | |- silent (TC002.lowered_message _ _) => unfold TC002.lowered_message; silent_tac
  | |- silent (TC003.created_link _) => unfold TC003.created_link; silent_tac
  | |- _ => solve [auto with silent]
  end.

(** A handler whose exception ends with the text of the one it caught. *)
Ltac reraises_tac :=
  intros ? ?; eexists; split;
  [ reflexivity
  | intros ? ?; cbn [text]; repeat apply substr_in_app; assumption ].

Ltac head_of t :=
  lazymatch t with
  | ?f _ => head_of f
  | _ => t
  end.

(** [orderly] by the structure of the block; [ptac] proves [P] of a call. *)
Ltac orderly_tac ptac :=
  cbv zeta;
  lazymatch goal with
  | |- orderly _ _ (Script.bind _ _) =>
      eapply orderly_bind; [orderly_tac ptac | intro; orderly_tac ptac]
  | |- orderly _ _ (Script.try_except _ _ _) =>
      eapply orderly_try; [orderly_tac ptac | reraises_tac]
  | |- orderly _ _ (if _ then _ else _) => eapply orderly_if; orderly_tac ptac
  | |- orderly _ _ (Lib.send _) => apply orderly_send; ptac
  | |- orderly _ _ (Lib.requests_get _ _ _ _) => unfold Lib.requests_get; orderly_tac ptac
  | |- orderly _ _ (Lib.requests_post _ _ _ _) => unfold Lib.requests_post; orderly_tac ptac
  | |- orderly _ _ (Lib.for_each _ _) => eapply orderly_for_each; intro; orderly_tac ptac
  | |- orderly _ _ (TC009.timed_rounds _ _) => cbn [TC009.timed_rounds]; orderly_tac ptac
  | |- orderly _ _ ?m =>
      first
        [ apply orderly_silent; silent_tac
        | let h := head_of m in unfold h; orderly_tac ptac ]
  end.

Ltac timeout_tac := reflexivity.

Ltac script_orderly := eapply orderly_count; [orderly_tac timeout_tac | reflexivity].

Lemma login_script_orderly :
  orderly (timeout_is 30) 2 TC001.test_user_login_functionality.
Proof. script_orderly. Qed.

Lemma registration_script_orderly py_str :
  orderly (timeout_is 30) 7 (TC002.test_user_registration_process py_str).
Proof. script_orderly. Qed.

Lemma utm_script_orderly :
  orderly (timeout_is 30) 4 TC003.test_utm_link_creation_and_validation.
Proof. script_orderly. Qed.

Lemma oauth_script_orderly :
  orderly (timeout_is 30) 3 TC004.test_google_ads_oauth_flow_initiation.
Proof. script_orderly. Qed.

Lemma campaigns_script_orderly :
  orderly (timeout_is 30) 3 TC005.test_fetch_google_ads_campaigns.
Proof. script_orderly. Qed.

Lemma dashboard_script_orderly py_str :
  orderly (timeout_is 30) 5 (TC006.test_dashboard_metrics_retrieval py_str).
Proof. script_orderly. Qed.

Lemma grouping_script_orderly :
  orderly (timeout_is 10) 1 TC007_grouping.test_metrics_history_data_grouping.
Proof. script_orderly. Qed.

Lemma retrieval_script_orderly :
  orderly (timeout_is 30) 4 TC007_retrieval.test_metrics_history_data_retrieval.
Proof. script_orderly. Qed.

Lemma roas_script_orderly :
  orderly (timeout_is 30) 5 TC008.test_roas_roi_analysis_report_generation.
Proof. script_orderly. Qed.

Lemma billing_script_orderly :
  orderly (timeout_is 30) 6 TC009.test_billing_subscription_management.
Proof. script_orderly. Qed.

Lemma whatsapp_script_orderly :
  orderly (timeout_is 30) 5 TC010.test_whatsapp_message_sending.
Proof. script_orderly. Qed.

Lemma corpus_orderly py_str name t :
  In (name, t) (corpus py_str) ->
  orderly (timeout_is (script_timeout name)) (calls_planned name) t.
Proof.
  unfold corpus. cbn [In].
  intros H; repeat (destruct H as [H|H]; [inversion H; subst; clear H|]); [..|contradiction].
  - exact login_script_orderly.
  - exact (registration_script_orderly py_str).
  - exact utm_script_orderly.
  - exact oauth_script_orderly.
  - exact campaigns_script_orderly.
  - exact (dashboard_script_orderly py_str).
  - exact grouping_script_orderly.
  - exact retrieval_script_orderly.
  - exact roas_script_orderly.
  - exact billing_script_orderly.
  - exact whatsapp_script_orderly.
Qed.

Lemma quiet_boot rs ck us : quiet (boot rs ck us).
Proof. intros i e Hi. cbn in Hi. lia. Qed.

(** What [orderly] gives for a script run from scratch. *)
Lemma orderly_from_boot P n (t : M unit) rs ck us :
  orderly P n t ->
  Forall P (call_log t rs ck us) /\
  (List.length (call_log t rs ck us) <= n)%nat /\
  (outcome t rs ck us = Ok tt -> List.length (call_log t rs ck us) = n) /\
  forall i e, (i < List.length (call_log t rs ck us))%nat -> rs i = Unreachable e ->
              List.length (call_log t rs ck us) = S i /\
              exists x, outcome t rs ck us = Raise x /\ Text.substr_in e (text x) = true.
Proof.
  intros H. unfold call_log, outcome.
  destruct (H (boot rs ck us) (quiet_boot rs ck us)) as (Hr & l & Hs & HP & Hres).
  cbn [sent boot app] in Hs. cbn [replies boot] in Hr. rewrite Hs.
  split; [exact HP|].
  destruct (fst (t (boot rs ck us))) as [[]|x].
  - destruct Hres as [Hn Q]. split; [lia|]. split; [auto|].
    intros i e Hi E. exfalso. apply (Q i e); [now rewrite Hs|]. now rewrite Hr.
  - destruct Hres as [Hn Q]. split; [exact Hn|]. split; [discriminate|].
    intros i e Hi E. destruct Q as [Q | (i0 & e0 & L & E0 & T & Before)].
    + exfalso. apply (Q i e); [now rewrite Hs|]. now rewrite Hr.
    + rewrite Hs in L. rewrite Hr in E0, Before.
      assert (i = i0) as ->.
      { destruct (Nat.lt_ge_cases i i0) as [Lt|Ge]; [|lia].
        exfalso. exact (Before i e Lt E). }
      split; [exact L|]. exists x. split; [reflexivity|]. congruence.
Qed.

(** C2, as amended: every call of every script of the corpus carries a
    timeout: 30 seconds in ten scripts, 10 seconds in
    TC007_metrics_history_data_grouping. *)
Theorem every_call_carries_its_script_timeout
        (py_str : json -> string) (name : string) (t : M unit)
        (rs : nat -> reply) (ck : nat -> instant) (us : nat -> string) (q : request) :
  In (name, t) (corpus py_str) ->
  In q (call_log t rs ck us) ->
  timeout q = Some (script_timeout name).
Proof.
  intros Hin Hq. apply corpus_orderly in Hin.
  destruct (orderly_from_boot _ _ _ rs ck us Hin) as (HP & _).
  rewrite Forall_forall in HP. exact (HP q Hq).
Qed.

Lemma every_call_carries_its_script_timeout_witness :
  In (login_call TC001.valid_payload)
     (call_log TC001.test_user_login_functionality all_fine noon (fun _ => "")) /\
  timeout (login_call TC001.valid_payload)
  = Some (script_timeout "TC001_user_login_functionality").
Proof.
  split; [left; reflexivity|].
  apply (every_call_carries_its_script_timeout
           str_sample "TC001_user_login_functionality"
           TC001.test_user_login_functionality all_fine noon (fun _ => "")).
  - left. reflexivity.
  - left. reflexivity.
Defined.

(** C2, as stated, fails: the one call of
    TC007_metrics_history_data_grouping carries a timeout of 10 seconds,
    not 30. *)
Lemma grouping_call_has_timeout_10 :
  In ("TC007_metrics_history_data_grouping",
      TC007_grouping.test_metrics_history_data_grouping) (corpus str_sample) /\
  call_log TC007_grouping.test_metrics_history_data_grouping all_fine noon (fun _ => "")
  = [grouped_history_call "2025-12-02" "2026-01-01"] /\
  timeout (grouped_history_call "2025-12-02" "2026-01-01") = Some 10 /\
  timeout (grouped_history_call "2025-12-02" "2026-01-01") <> Some 30.
Proof.
  split; [cbn; tauto|]. split; [reflexivity|]. split; [reflexivity | discriminate].
Qed.

(** ** Rules for runs, forwards *)

Lemma accepts_iff_run (m : M unit) w : accepts m w <-> exists w', m w = (Ok tt, w').
Proof.
  split; [apply accepts_run|]. intros [w' H]. unfold accepts. now rewrite H.
Qed.

Section ForwardRules.
Import Script Lib.

Lemma fwd_bind {A B} (m : M A) (k : A -> M B) a w w1 :
  m w = (Ok a, w1) -> bind m k w = k a w1.
Proof. unfold bind. now intros ->. Qed.

Lemma fwd_try {A} (body : M A) c h a w w1 :
  body w = (Ok a, w1) -> try_except body c h w = (Ok a, w1).
Proof. unfold try_except. now intros ->. Qed.

Lemma fwd_send q r w :
  refused q = None -> next_reply w = Answer r -> send q w = (Ok r, log_call q w).
Proof. unfold send. now intros -> ->. Qed.

Lemma fwd_assert c msg w : c = true -> py_assert c msg w = (Ok tt, w).
Proof. now intros ->. Qed.

Lemma fwd_json r v w : body r = Some v -> response_json r w = (Ok v, w).
Proof. unfold response_json. now intros ->. Qed.

Lemma fwd_raise_for_status r w :
  no_http_error (status_code r) = true -> raise_for_status r w = (Ok tt, w).
Proof.
  unfold no_http_error, raise_for_status. cbv zeta. intros H.
  apply negb_true_iff, andb_false_iff in H.
  destruct ((400 <=? status_code r) && (status_code r <? 500)) eqn:E1.
  - apply andb_true_iff in E1. lia.
  - destruct ((500 <=? status_code r) && (status_code r <? 600)) eqn:E2; [|reflexivity].
    apply andb_true_iff in E2. lia.
Qed.

Lemma run_raise_for_status_iff r w w' :
  raise_for_status r w = (Ok tt, w') <-> w' = w /\ no_http_error (status_code r) = true.
Proof.
  split.
  - intros H. apply run_raise_for_status in H. destruct H as [H ->]. split; [reflexivity|].
    unfold no_http_error. apply negb_true_iff, andb_false_iff. lia.
  - intros [-> H]. now apply fwd_raise_for_status.
Qed.

Lemma run_assert_iff c msg w w' :
  py_assert c msg w = (Ok tt, w') <-> w' = w /\ c = true.
Proof.
  split.
  - intros H. apply run_assert in H. tauto.
  - intros [-> ->]. reflexivity.
Qed.

Lemma calls_send q : refused q = None -> calls (send q) q.
Proof.
  intros F r w w'. split; [apply run_send|]. intros [H ->]. now apply fwd_send.
Qed.

(** [try: call / except ...: raise again] returns what the call returns. *)
Lemma calls_try call q c h : calls call q -> reraises h -> calls (try_except call c h) q.
Proof.
  intros Hc Hh r w w'. rewrite <- (Hc r w w'). split.
  - intros H. apply run_try in H. destruct H as [H | (x & w1 & _ & _ & H)]; [exact H|].
    destruct (Hh x w1) as (x' & E & _). congruence.
  - apply fwd_try.
Qed.

(** The shape of most blocks: call, status, body. *)
Lemma checks_json_block call q (admitted : Z -> bool) (msg : response -> string) bc P :
  calls call q -> body_check bc P ->
  checks (r <- call ;; py_assert (admitted (status_code r)) (msg r) ;;
          v <- response_json r ;; bc v)
         q (json_reply admitted P).
Proof.
  intros Hc Hbc w w'. split.
  - intros H. apply run_bind in H. destruct H as (r & w1 & H1 & H). cbv beta in H.
    apply Hc in H1. destruct H1 as [Hr ->].
    run_inv. apply Hbc in H. destruct H as [-> HP].
    split; [reflexivity|]. unfold json_reply. eauto 10.
  - intros (-> & r & v & Hr & Hs & Hb & HP).
    erewrite fwd_bind by (apply Hc; eauto).
    erewrite fwd_bind by (apply fwd_assert; eassumption).
    erewrite fwd_bind by (apply fwd_json; eassumption).
    apply Hbc. auto.
Qed.

(** The same with [raise_for_status] for the status. *)
Lemma checks_raise_for_status_block call q bc P :
  calls call q -> body_check bc P ->
  checks (r <- call ;; raise_for_status r ;; v <- response_json r ;; bc v)
         q (json_reply no_http_error P).
Proof.
  intros Hc Hbc w w'. split.
  - intros H. apply run_bind in H. destruct H as (r & w1 & H1 & H). cbv beta in H.
    apply Hc in H1. destruct H1 as [Hr ->].
    apply run_bind in H. destruct H as ([] & w2 & H2 & H). cbv beta in H.
    apply run_raise_for_status_iff in H2. destruct H2 as [-> Hs].
    run_inv. apply Hbc in H. destruct H as [-> HP].
    split; [reflexivity|]. unfold json_reply. eauto 10.
  - intros (-> & r & v & Hr & Hs & Hb & HP).
    erewrite fwd_bind by (apply Hc; eauto).
    erewrite fwd_bind by (apply fwd_raise_for_status; eassumption).
    erewrite fwd_bind by (apply fwd_json; eassumption).
    apply Hbc. auto.
Qed.

(** A block that reads the status only. *)
Lemma checks_status_block call q (admitted : Z -> bool) (msg : response -> string) :
  calls call q ->
  checks (r <- call ;; py_assert (admitted (status_code r)) (msg r))
         q (status_reply admitted).
Proof.
  intros Hc w w'. split.
  - intros H. apply run_bind in H. destruct H as (r & w1 & H1 & H). cbv beta in H.
    apply Hc in H1. destruct H1 as [Hr ->].
    run_inv. split; [reflexivity|]. unfold status_reply. eauto.
  - intros (-> & r & Hr & Hs).
    erewrite fwd_bind by (apply Hc; eauto).
    now apply fwd_assert.
Qed.

(** A handler that raises again does not change what a check accepts. *)
Lemma checks_try m q C c h :
  checks m q C -> reraises h -> checks (try_except m c h) q C.
Proof.
  intros Hm Hh w w'. rewrite <- (Hm w w'). split.
  - intros H. apply run_try in H. destruct H as [H | (x & w1 & _ & _ & H)]; [exact H|].
    destruct (Hh x w1) as (x' & E & _). congruence.
  - apply fwd_try.
Qed.

(** How checks follow one another. *)
Lemma accepts_check m q C w : checks m q C -> (accepts m w <-> C (next_reply w)).
Proof.
  intros Hm. rewrite accepts_iff_run. split.
  - intros [w' H]. apply Hm in H. tauto.
  - intros H. eexists. apply Hm. eauto.
Qed.

Lemma accepts_then m q C (k : M unit) w :
  checks m q C -> (accepts (m ;; k) w <-> C (next_reply w) /\ accepts k (log_call q w)).
Proof.
  intros Hm. rewrite !accepts_iff_run. split.
  - intros [w' H]. apply run_bind in H. destruct H as ([] & w1 & H1 & H).
    apply Hm in H1. destruct H1 as [-> HC]. eauto.
  - intros [HC [w' H]]. exists w'.
    erewrite fwd_bind by (apply Hm; eauto). exact H.
Qed.

Lemma accepts_assoc (m k1 k2 : M unit) w :
  accepts ((m ;; k1) ;; k2) w <-> accepts (m ;; (k1 ;; k2)) w.
Proof.
  unfold accepts, bind. destruct (m w) as [[a|x] w1]; cbn; reflexivity.
Qed.

Lemma accepts_ret_then (k : M unit) w : accepts (ret tt ;; k) w <-> accepts k w.
Proof. reflexivity. Qed.

End ForwardRules.

(** ** The body checks *)

Section BodyChecks.
Import Script Lib.

Lemma member_container k v : Py.member k v = true -> is_container v = true.
Proof. destruct v; cbn; congruence. Qed.

Lemma fwd_py_in k v w : is_container v = true -> py_in k v w = (Ok (Py.member k v), w).
Proof. destruct v; cbn; intros H; try discriminate; reflexivity. Qed.

Lemma run_py_in_iff k v b w w' :
  py_in k v w = (Ok b, w') <-> w' = w /\ is_container v = true /\ b = Py.member k v.
Proof.
  split.
  - destruct v; cbn; intros H; try (now apply run_raise in H);
      apply run_ret in H; destruct H; subst; auto.
  - intros (-> & C & ->). now apply fwd_py_in.
Qed.

Lemma fwd_either k1 k2 v w :
  has_either k1 k2 v -> orb_lazy (py_in k1 v) (py_in k2 v) w = (Ok true, w).
Proof.
  intros H. unfold orb_lazy.
  assert (is_container v = true) as C by (destruct H; eapply member_container; eauto).
  erewrite fwd_bind by (now apply fwd_py_in).
  destruct (Py.member k1 v) eqn:E1; [reflexivity|].
  destruct H as [H|H]; [congruence|]. rewrite fwd_py_in by assumption. now rewrite H.
Qed.

Lemma body_check_either k1 k2 msg :
  body_check (fun v => found <- orb_lazy (py_in k1 v) (py_in k2 v) ;; py_assert found msg)
             (has_either k1 k2).
Proof.
  intros v w w'. split.
  - intros H. run_inv; (split; [reflexivity|]); unfold has_either; auto.
  - intros [-> H]. erewrite fwd_bind by (now apply fwd_either). reflexivity.
Qed.

Lemma body_check_both k1 k2 msg1 msg2 :
  body_check (fun v => a <- py_in k1 v ;; py_assert a msg1 ;;
                       b <- py_in k2 v ;; py_assert b msg2)
             (has_both k1 k2).
Proof.
  intros v w w'. split.
  - intros H. run_inv. split; [reflexivity|]. split; auto.
  - intros [-> [H1 H2]]. pose proof (member_container _ _ H1) as C.
    erewrite fwd_bind by (now apply fwd_py_in). rewrite H1.
    erewrite fwd_bind by reflexivity.
    erewrite fwd_bind by (now apply fwd_py_in). now rewrite H2.
Qed.

Lemma body_check_campaigns m1 m2 m3 :
  body_check (fun data =>
                py_assert (Py.isinstance_dict data) m1 ;;
                has <- py_in "campaigns" data ;;
                py_assert has m2 ;;
                campaigns <- getitem data "campaigns" ;;
                py_assert (Py.isinstance_list campaigns) m3)
             campaigns_object.
Proof.
  intros v w w'. split.
  - intros H. run_inv.
    match goal with E : Py.isinstance_list _ = true |- _ =>
      apply isinstance_list_inv in E; destruct E as [l ->] end.
    split; [reflexivity|]. unfold campaigns_object. eauto.
  - intros [-> (kv & l & -> & H)]. cbn.
    unfold bind, py_assert, ret, Py.has_key. cbn. now rewrite H.
Qed.

Lemma body_check_object_or_array msg :
  body_check (fun v => py_assert (Py.isinstance_dict v || Py.isinstance_list v) msg)
             object_or_array.
Proof. intros v w w'. apply run_assert_iff. Qed.

Lemma nonempty_key_of_has_key k kv :
  k <> "" -> Py.has_key k kv = true ->
  existsb (fun k => negb (String.eqb k "")) (map fst kv) = true.
Proof.
  intros N. unfold Py.has_key. induction kv as [|[k' x] kv IH]; cbn; [discriminate|].
  destruct (String.eqb k' k) eqn:E.
  - apply String.eqb_eq in E. subst. intros _.
    destruct (String.eqb k "") eqn:E'; [apply String.eqb_eq in E'; congruence | reflexivity].
  - intros H. rewrite (IH H). apply orb_true_r.
Qed.

Lemma run_dict_keys v ks w w' :
  dict_keys v w = (Ok ks, w') -> exists kv, v = JObj kv /\ ks = map fst kv /\ w' = w.
Proof.
  destruct v; cbn; intros H; try (now apply run_raise in H).
  apply run_ret in H. destruct H; subst. eauto.
Qed.

Lemma body_check_object_with_a_key m1 m2 :
  body_check (fun json_resp =>
                py_assert (Py.isinstance_dict json_resp) m1 ;;
                found <- orb_lazy (py_in "auth_url" json_resp)
                           (orb_lazy (py_in "url" json_resp)
                              (ks <- dict_keys json_resp ;;
                               ret (existsb (fun k => negb (String.eqb k "")) ks))) ;;
                py_assert found m2)
             object_with_a_key.
Proof.
  intros v w w'. split.
  - intros H. run_inv.
    all: try match goal with E : dict_keys _ _ = _ |- _ =>
           apply run_dict_keys in E; destruct E as (kv' & E1 & -> & ->) end.
    all: match goal with E : Py.isinstance_dict ?v = true |- _ =>
           apply isinstance_dict_inv in E; destruct E as [kv ->] end.
    all: split; [reflexivity|]; exists kv; split; [reflexivity|].
    + apply (nonempty_key_of_has_key "auth_url"); [discriminate | auto].
    + apply (nonempty_key_of_has_key "url"); [discriminate | auto].
    + inversion E1; subst. auto.
  - intros [-> (kv & -> & H)]. cbn.
    unfold bind, orb_lazy, bind, py_in, ret, py_assert, dict_keys. cbn.
    destruct (Py.has_key "auth_url" kv); [reflexivity|].
    destruct (Py.has_key "url" kv); [reflexivity|]. cbn. now rewrite H.
Qed.

Lemma body_check_report m1 m2 :
  body_check (fun data =>
                py_assert (Py.isinstance_dict data) m1 ;;
                found <- orb_lazy (py_in "report" data) (py_in "analysis" data) ;;
                py_assert found m2)
             report_object.
Proof.
  intros v w w'. split.
  - intros H. run_inv.
    all: match goal with E : Py.isinstance_dict ?v = true |- _ =>
           apply isinstance_dict_inv in E; destruct E as [kv ->] end.
    all: split; [reflexivity|]; exists kv; split; [reflexivity|]; cbn in *; auto.
  - intros [-> (kv & -> & H)].
    erewrite fwd_bind by reflexivity.
    erewrite fwd_bind by (now apply fwd_either). reflexivity.
Qed.


Lemma body_check_sent_message msg :
  body_check (fun resp_json =>
                good <- orb_lazy
                          (andb_lazy (py_in "success" resp_json)
                                     (v <- getitem resp_json "success" ;; ret (Py.is_True v)))
                          (py_in "messageId" resp_json) ;;
                py_assert good msg)
             sent_message.
Proof.
  intros v w w'. split.
  - intros H. run_inv; try discriminate; (split; [reflexivity|]).
    + cbn. left.
      match goal with E : true = Py.is_True ?x |- _ =>
        destruct x as [|[]| | | | |]; try discriminate end.
      assumption.
    + cbn in *. right. auto.
    + destruct v; cbn in *; try discriminate; auto.
  - intros [-> H]. unfold orb_lazy, andb_lazy, bind, py_in, getitem, ret, py_assert.
    destruct v; cbn in H |- *; try (destruct H; discriminate).
    + destruct H as [H1 H2]. rewrite H1, H2. reflexivity.
    + destruct H as [H1 H2]. rewrite H1, H2. reflexivity.
    + unfold Py.has_key in *. destruct H as [H|H].
      * rewrite H. reflexivity.
      * destruct (Py.lookup "success" members) as [[|[]| | | | |]|]; cbn;
          destruct (Py.lookup "messageId" members); try discriminate; reflexivity.
Qed.

End BodyChecks.

(** ** The blocks as checks of one call *)

Lemma valid_login_checks :
  checks TC001.valid_login (login_call TC001.valid_payload)
         (json_reply (exactly 200) (has_either "token" "accessToken")).
Proof.
  unfold TC001.valid_login. apply checks_try; [|reraises_tac].
  apply (checks_json_block _ _ (exactly 200)); [apply calls_send; reflexivity | apply body_check_either].
Qed.

Lemma invalid_login_checks :
  checks TC001.invalid_login (login_call TC001.invalid_payload)
         (json_reply (either_status 400 401) (has_either "error" "message")).
Proof.
  unfold TC001.invalid_login. apply checks_try; [|reraises_tac].
  apply (checks_json_block _ _ (either_status 400 401)); [apply calls_send; reflexivity | apply body_check_either].
Qed.

Lemma post_or_fail_calls p msg : calls (TC004.post_or_fail p msg) (oauth_call p).
Proof.
  unfold TC004.post_or_fail. apply calls_try; [apply calls_send; reflexivity|].
  unfold Lib.pytest_fail. reraises_tac.
Qed.

Lemma valid_redirect_checks :
  checks TC004.valid_redirect (oauth_call TC004.valid_payload)
         (json_reply (either_status 200 201) object_with_a_key).
Proof.
  unfold TC004.valid_redirect.
  apply (checks_json_block _ _ (either_status 200 201));
    [apply post_or_fail_calls | apply body_check_object_with_a_key].
Qed.

Lemma refused_redirect_checks p on_exn what :
  checks (TC004.refused_redirect p on_exn what) (oauth_call p)
         (json_reply (either_status 400 422) (has_either "error" "message")).
Proof.
  unfold TC004.refused_redirect.
  apply (checks_json_block _ _ (either_status 400 422));
    [apply post_or_fail_calls | apply body_check_either].
Qed.

Lemma valid_customer_checks :
  checks TC005.valid_customer (campaigns_call (Some [("customer_id", "1234567890")]))
         (json_reply (exactly 200) campaigns_object).
Proof.
  unfold TC005.valid_customer, TC005.guarded. apply checks_try; [|reraises_tac].
  apply (checks_json_block _ _ (exactly 200)); [apply calls_send; reflexivity | apply body_check_campaigns].
Qed.

Lemma missing_customer_checks :
  checks TC005.missing_customer (campaigns_call None)
         (json_reply (either_status 400 422) (has_either "error" "message")).
Proof.
  unfold TC005.missing_customer, TC005.guarded. apply checks_try; [|reraises_tac].
  apply (checks_json_block _ _ (either_status 400 422)); [apply calls_send; reflexivity | apply body_check_either].
Qed.

Lemma invalid_customer_checks :
  checks TC005.invalid_customer (campaigns_call (Some [("customer_id", "invalid_id_!@#")]))
         (json_reply (either_status 400 404) (has_either "error" "message")).
Proof.
  unfold TC005.invalid_customer, TC005.guarded. apply checks_try; [|reraises_tac].
  apply (checks_json_block _ _ (either_status 400 404)); [apply calls_send; reflexivity | apply body_check_either].
Qed.

Lemma valid_groupby_checks g :
  checks (TC007_retrieval.valid_groupby_check g) (history_call g)
         (json_reply (exactly 200) object_or_array).
Proof.
  unfold TC007_retrieval.valid_groupby_check. apply checks_try; [|reraises_tac].
  apply (checks_json_block _ _ (exactly 200));
    [apply calls_send; reflexivity | apply body_check_object_or_array].
Qed.

Lemma invalid_groupby_checks :
  checks TC007_retrieval.invalid_groupby_check (history_call "year")
         (json_reply (either_status 400 422) (has_either "error" "message")).
Proof.
  unfold TC007_retrieval.invalid_groupby_check. apply checks_try; [|reraises_tac].
  apply (checks_json_block _ _ (either_status 400 422)); [apply calls_send; reflexivity | apply body_check_either].
Qed.

Lemma valid_range_checks :
  checks TC008.valid_range (roas_call TC008.params_valid)
         (json_reply no_http_error report_object).
Proof.
  unfold TC008.valid_range. apply checks_try; [|reraises_tac].
  apply checks_raise_for_status_block; [apply calls_send; reflexivity | apply body_check_report].
Qed.

Lemma refused_range_checks ps what :
  checks (TC008.refused_range ps what) (roas_call ps) (status_reply (either_status 400 422)).
Proof.
  unfold TC008.refused_range.
  apply (checks_status_block _ _ (either_status 400 422)). apply calls_send. reflexivity.
Qed.

Lemma valid_message_checks :
  checks TC010.valid_message (whatsapp_call TC010.valid_payload)
         (json_reply (exactly 200) sent_message).
Proof.
  unfold TC010.valid_message.
  apply (checks_json_block _ _ (exactly 200)); [apply calls_send; reflexivity | apply body_check_sent_message].
Qed.

Lemma refused_message_checks p what :
  checks (TC010.refused_message p what) (whatsapp_call p) (status_reply (either_status 400 422)).
Proof.
  unfold TC010.refused_message.
  apply (checks_status_block _ _ (either_status 400 422)). apply calls_send. reflexivity.
Qed.

Lemma get_subscription_calls : calls TC009.get_subscription subscription_call.
Proof.
  unfold TC009.get_subscription. apply calls_try; [apply calls_send; reflexivity | reraises_tac].
Qed.

Lemma subscription_details_checks :
  checks TC009.subscription_details subscription_call
         (json_reply (exactly 200) (has_both "plan" "status")).
Proof.
  unfold TC009.subscription_details.
  apply (checks_json_block _ _ (exactly 200));
    [apply get_subscription_calls | apply body_check_both].
Qed.

(** ** What makes a script pass *)

Section Passing.
Import Script Lib.

Lemma run_check m q C w w' :
  checks m q C -> (m w = (Ok tt, w') <-> C (next_reply w) /\ w' = log_call q w).
Proof. intros Hm. rewrite (Hm w w'). tauto. Qed.

Lemma run_then m q C (k : M unit) w w' :
  checks m q C ->
  ((m ;; k) w = (Ok tt, w') <-> C (next_reply w) /\ k (log_call q w) = (Ok tt, w')).
Proof.
  intros Hm. split.
  - intros H. apply run_bind in H. destruct H as ([] & w1 & H1 & H).
    apply Hm in H1. destruct H1 as [-> HC]. auto.
  - intros [HC H]. erewrite fwd_bind by (apply Hm; eauto). exact H.
Qed.

Lemma run_assoc (m k1 k2 : M unit) w : ((m ;; k1) ;; k2) w = (m ;; (k1 ;; k2)) w.
Proof. unfold bind. destruct (m w) as [[a|x] w1]; reflexivity. Qed.

(** From the runs of a script that return to its outcome and its log. *)
Lemma passes_with_log (t : M unit) rs ck us (C : Prop) (final : world) :
  (forall w', t (boot rs ck us) = (Ok tt, w') <-> C /\ w' = final) ->
  (outcome t rs ck us = Ok tt <-> C) /\
  (outcome t rs ck us = Ok tt -> call_log t rs ck us = sent final).
Proof.
  intros H.
  change (outcome t rs ck us = Ok tt) with (accepts t (boot rs ck us)).
  rewrite accepts_iff_run. unfold call_log. split; [split|].
  - intros [w' E]. apply H in E. tauto.
  - intros HC. exists final. apply H. auto.
  - intros [w' E]. pose proof E as E'. apply H in E'. destruct E' as [_ ->].
    now rewrite E.
Qed.

End Passing.

(** The worlds of a script run from its start, with the logs computed. *)
Ltac script_worlds :=
  cbn [Lib.log_call Lib.next_reply boot sent replies clock uuids ticks drawn
       List.length app].

(** X4: the login script passes exactly when the first reply is a 200
    whose JSON body has "token" or "accessToken" in it, and the second a
    400 or a 401 whose JSON body has "error" or "message" in it; it has
    then made the two login calls, the valid pair first. *)
Theorem login_script_passes_iff
        (rs : nat -> reply) (ck : nat -> instant) (us : nat -> string) :
  (outcome TC001.test_user_login_functionality rs ck us = Ok tt <->
   json_reply (exactly 200) (has_either "token" "accessToken") (rs 0%nat) /\
   json_reply (either_status 400 401) (has_either "error" "message") (rs 1%nat)) /\
  (outcome TC001.test_user_login_functionality rs ck us = Ok tt ->
   call_log TC001.test_user_login_functionality rs ck us
   = [login_call TC001.valid_payload; login_call TC001.invalid_payload]).
Proof.
  apply (passes_with_log _ _ _ _ _
           (mk_world rs ck us
                     [login_call TC001.valid_payload; login_call TC001.invalid_payload] 0 0)).
  intros w'. unfold TC001.test_user_login_functionality.
  rewrite (run_then _ _ _ _ _ _ valid_login_checks).
  rewrite (run_check _ _ _ _ _ invalid_login_checks).
  script_worlds. tauto.
Qed.

(** X5: the OAuth script passes exactly when the first reply is a 200 or
    a 201 whose body is a JSON object with at least one key that is not
    the empty string (a key auth_url or url is not required), and the
    second and the third are each a 400 or a 422 whose JSON body has
    "error" or "message" in it; it has then posted the valid, the empty
    and the invalid payload, in this order. *)
Theorem oauth_script_passes_iff
        (rs : nat -> reply) (ck : nat -> instant) (us : nat -> string) :
  (outcome TC004.test_google_ads_oauth_flow_initiation rs ck us = Ok tt <->
   json_reply (either_status 200 201) object_with_a_key (rs 0%nat) /\
   json_reply (either_status 400 422) (has_either "error" "message") (rs 1%nat) /\
   json_reply (either_status 400 422) (has_either "error" "message") (rs 2%nat)) /\
  (outcome TC004.test_google_ads_oauth_flow_initiation rs ck us = Ok tt ->
   call_log TC004.test_google_ads_oauth_flow_initiation rs ck us
   = [oauth_call [("redirect_uri", "https://example.com/oauth/callback")];
      oauth_call [];
      oauth_call [("redirect_uri", "not-a-valid-url")]]).
Proof.
  apply (passes_with_log _ _ _ _ _
           (mk_world rs ck us
                     [oauth_call [("redirect_uri", "https://example.com/oauth/callback")];
                      oauth_call [];
                      oauth_call [("redirect_uri", "not-a-valid-url")]] 0 0)).
  intros w'. unfold TC004.test_google_ads_oauth_flow_initiation.
  rewrite (run_then _ _ _ _ _ _ valid_redirect_checks).
  rewrite (run_then _ _ _ _ _ _ (refused_redirect_checks _ _ _)).
  rewrite (run_check _ _ _ _ _ (refused_redirect_checks _ _ _)).
  script_worlds. tauto.
Qed.

(** X6: the campaigns script passes exactly when the first reply is a
    200 whose body is a JSON object with a campaigns list, the second a
    400 or a 422 and the third a 400 or a 404, each with a JSON body that
    has "error" or "message" in it; it has then asked with the valid
    customer_id, with none and with the invalid one, in this order. *)
Theorem campaigns_script_passes_iff
        (rs : nat -> reply) (ck : nat -> instant) (us : nat -> string) :
  (outcome TC005.test_fetch_google_ads_campaigns rs ck us = Ok tt <->
   json_reply (exactly 200) campaigns_object (rs 0%nat) /\
   json_reply (either_status 400 422) (has_either "error" "message") (rs 1%nat) /\
   json_reply (either_status 400 404) (has_either "error" "message") (rs 2%nat)) /\
  (outcome TC005.test_fetch_google_ads_campaigns rs ck us = Ok tt ->
   call_log TC005.test_fetch_google_ads_campaigns rs ck us
   = [campaigns_call (Some [("customer_id", "1234567890")]);
      campaigns_call None;
      campaigns_call (Some [("customer_id", "invalid_id_!@#")])]).
Proof.
  apply (passes_with_log _ _ _ _ _
           (mk_world rs ck us
                     [campaigns_call (Some [("customer_id", "1234567890")]);
                      campaigns_call None;
                      campaigns_call (Some [("customer_id", "invalid_id_!@#")])] 0 0)).
  intros w'. unfold TC005.test_fetch_google_ads_campaigns.
  rewrite (run_then _ _ _ _ _ _ valid_customer_checks).
  rewrite (run_then _ _ _ _ _ _ missing_customer_checks).
  rewrite (run_check _ _ _ _ _ invalid_customer_checks).
  script_worlds. tauto.
Qed.

(** X7: the metrics-history retrieval script passes exactly when the
    replies to groupBy=day, week and month are each a 200 whose body is
    a JSON object or array, and the reply to groupBy=year is a 400 or a
    422 whose JSON body has "error" or "message" in it; it has then made
    these four calls in this order. *)
Theorem retrieval_script_passes_iff
        (rs : nat -> reply) (ck : nat -> instant) (us : nat -> string) :
  (outcome TC007_retrieval.test_metrics_history_data_retrieval rs ck us = Ok tt <->
   json_reply (exactly 200) object_or_array (rs 0%nat) /\
   json_reply (exactly 200) object_or_array (rs 1%nat) /\
   json_reply (exactly 200) object_or_array (rs 2%nat) /\
   json_reply (either_status 400 422) (has_either "error" "message") (rs 3%nat)) /\
  (outcome TC007_retrieval.test_metrics_history_data_retrieval rs ck us = Ok tt ->
   call_log TC007_retrieval.test_metrics_history_data_retrieval rs ck us
   = [history_call "day"; history_call "week"; history_call "month"; history_call "year"]).
Proof.
  apply (passes_with_log _ _ _ _ _
           (mk_world rs ck us
                     [history_call "day"; history_call "week"; history_call "month";
                      history_call "year"] 0 0)).
  intros w'.
  unfold TC007_retrieval.test_metrics_history_data_retrieval, TC007_retrieval.valid_groupbys.
  cbn [Lib.for_each].
  rewrite run_assoc, (run_then _ _ _ _ _ _ (valid_groupby_checks _)).
  rewrite run_assoc, (run_then _ _ _ _ _ _ (valid_groupby_checks _)).
  rewrite run_assoc, (run_then _ _ _ _ _ _ (valid_groupby_checks _)).
  change ((Script.ret tt ;; TC007_retrieval.invalid_groupby_check) ?w)
    with (TC007_retrieval.invalid_groupby_check w).
  rewrite (run_check _ _ _ _ _ invalid_groupby_checks).
  script_worlds. tauto.
Qed.

(** X8: the ROAS/ROI script passes exactly when the first reply has a
    status outside 400..599 and a JSON object with a report or an
    analysis key for body, and the four replies after it each have
    status 400 or 422, whatever their bodies; it has then made its five
    calls in the order of the file. *)
Theorem roas_script_passes_iff
        (rs : nat -> reply) (ck : nat -> instant) (us : nat -> string) :
  (outcome TC008.test_roas_roi_analysis_report_generation rs ck us = Ok tt <->
   json_reply no_http_error report_object (rs 0%nat) /\
   status_reply (either_status 400 422) (rs 1%nat) /\
   status_reply (either_status 400 422) (rs 2%nat) /\
   status_reply (either_status 400 422) (rs 3%nat) /\
   status_reply (either_status 400 422) (rs 4%nat)) /\
  (outcome TC008.test_roas_roi_analysis_report_generation rs ck us = Ok tt ->
   call_log TC008.test_roas_roi_analysis_report_generation rs ck us
   = [roas_call [("startDate", "2024-01-01"); ("endDate", "2024-01-31")];
      roas_call [("endDate", "2024-01-31")];
      roas_call [("startDate", "2024-01-01")];
      roas_call [("startDate", "invalid-date"); ("endDate", "2024-01-31")];
      roas_call [("startDate", "2024-01-01"); ("endDate", "invalid-date")]]).
Proof.
  apply (passes_with_log _ _ _ _ _
           (mk_world rs ck us
                     [roas_call [("startDate", "2024-01-01"); ("endDate", "2024-01-31")];
                      roas_call [("endDate", "2024-01-31")];
                      roas_call [("startDate", "2024-01-01")];
                      roas_call [("startDate", "invalid-date"); ("endDate", "2024-01-31")];
                      roas_call [("startDate", "2024-01-01"); ("endDate", "invalid-date")]]
                     0 0)).
  intros w'. unfold TC008.test_roas_roi_analysis_report_generation.
  rewrite (run_then _ _ _ _ _ _ valid_range_checks).
  do 3 rewrite (run_then _ _ _ _ _ _ (refused_range_checks _ _)).
  rewrite (run_check _ _ _ _ _ (refused_range_checks _ _)).
  script_worlds. tauto.
Qed.

(** X9: the WhatsApp script passes exactly when the first reply is a 200
    whose JSON body is an object with success equal to true or with a
    messageId key (or an array or a string that has "messageId" and not
    "success" in it), and the four replies after it each have status 400
    or 422, whatever their bodies; it has then posted its five payloads
    in the order of the file. *)
Theorem whatsapp_script_passes_iff
        (rs : nat -> reply) (ck : nat -> instant) (us : nat -> string) :
  (outcome TC010.test_whatsapp_message_sending rs ck us = Ok tt <->
   json_reply (exactly 200) sent_message (rs 0%nat) /\
   status_reply (either_status 400 422) (rs 1%nat) /\
   status_reply (either_status 400 422) (rs 2%nat) /\
   status_reply (either_status 400 422) (rs 3%nat) /\
   status_reply (either_status 400 422) (rs 4%nat)) /\
  (outcome TC010.test_whatsapp_message_sending rs ck us = Ok tt ->
   call_log TC010.test_whatsapp_message_sending rs ck us
   = [whatsapp_call [("to", "+12345678901"); ("message", "Test message from automated test.")];
      whatsapp_call [("message", "Test message without recipient.")];
      whatsapp_call [("to", "+12345678901")];
      whatsapp_call [("to", ""); ("message", "Message with invalid recipient")];
      whatsapp_call [("to", "+12345678901"); ("message", "")]]).
Proof.
  apply (passes_with_log _ _ _ _ _
           (mk_world rs ck us
              [whatsapp_call [("to", "+12345678901");
                              ("message", "Test message from automated test.")];
               whatsapp_call [("message", "Test message without recipient.")];
               whatsapp_call [("to", "+12345678901")];
               whatsapp_call [("to", ""); ("message", "Message with invalid recipient")];
               whatsapp_call [("to", "+12345678901"); ("message", "")]] 0 0)).
  intros w'. unfold TC010.test_whatsapp_message_sending.
  rewrite (run_then _ _ _ _ _ _ valid_message_checks).
  do 3 rewrite (run_then _ _ _ _ _ _ (refused_message_checks _ _)).
  rewrite (run_check _ _ _ _ _ (refused_message_checks _ _)).
  script_worlds. tauto.
Qed.

(** ** The grouped metrics-history script (TC007) *)

Lemma grouped_history_checks sd ed :
  checks (TC007_grouping.grouped_history sd ed) (grouped_history_call sd ed)
         rows_or_invalid_token.
Proof.
  intros w w'. split.
  - intros H.
    unfold TC007_grouping.grouped_history, TC007_grouping.history_body,
      TC007_grouping.invalid_token_body in H.
    run_inv; tidy_status; try discriminate; (split; [reflexivity|]).
    + match goal with E : Py.isinstance_list _ = true |- _ =>
        apply isinstance_list_inv in E; destruct E as [rows ->] end.
      left. do 2 eexists. split; [eassumption|]. split; [now apply Z.eqb_eq|].
      split; [eassumption|]. unfold history_rows. eauto 10.
    + match goal with E : Py.eq_str _ _ = true |- _ => apply eq_str_inv in E; subst end.
      right. do 2 eexists. split; [eassumption|]. split; [now apply Z.eqb_eq|].
      split; [eassumption|]. unfold invalid_token_error. eauto 10.
  - intros [-> [H|H]]; destruct H as (r & v & Hr & Hs & Hb & HP);
      apply Z.eqb_eq in Hs; unfold TC007_grouping.grouped_history; apply fwd_try;
      unfold Lib.requests_get;
      (erewrite fwd_bind by (apply fwd_send; [reflexivity | eassumption]));
      (erewrite fwd_bind by (apply fwd_assert; rewrite Hs; reflexivity));
      rewrite Hs; cbn [Z.eqb Pos.eqb].
    + destruct HP as (kv & rows & -> & Hk & Hd).
      unfold TC007_grouping.history_body.
      erewrite fwd_bind by (apply fwd_json; eassumption).
      unfold Script.bind, Lib.py_in, Lib.getitem, Script.py_assert, Script.ret. cbn.
      unfold Py.has_key in *. rewrite Hd.
      destruct (Py.lookup "success" kv); [reflexivity | discriminate].
    + destruct HP as (kv & ekv & -> & He & Hc).
      unfold TC007_grouping.invalid_token_body.
      erewrite fwd_bind by (apply fwd_json; eassumption).
      unfold Script.bind, Lib.py_in, Lib.getitem, Script.py_assert, Script.ret. cbn.
      unfold Py.has_key. rewrite He. cbn. rewrite Hc. reflexivity.
Qed.

(** X10: the grouped metrics-history script passes exactly when the
    reply is a 200 with the rows or a 401 with the INVALID_TOKEN error;
    its one call asks for the thirty days before the date of the second
    reading of the clock up to the date of the first reading. *)
Theorem grouping_script_passes_iff
        (rs : nat -> reply) (ck : nat -> instant) (us : nat -> string) :
  (outcome TC007_grouping.test_metrics_history_data_grouping rs ck us = Ok tt <->
   rows_or_invalid_token (rs 0%nat)) /\
  (outcome TC007_grouping.test_metrics_history_data_grouping rs ck us = Ok tt ->
   call_log TC007_grouping.test_metrics_history_data_grouping rs ck us
   = [grouped_history_call (Lib.strftime_Ymd (local_day (ck 1%nat) - 30))
                           (Lib.strftime_Ymd (local_day (ck 0%nat)))]).
Proof.
  apply (passes_with_log _ _ _ _ _
           (mk_world rs ck us
                     [grouped_history_call (Lib.strftime_Ymd (local_day (ck 1%nat) - 30))
                                           (Lib.strftime_Ymd (local_day (ck 0%nat)))] 2 0)).
  intros w'. unfold TC007_grouping.test_metrics_history_data_grouping.
  unfold Script.bind at 1 2. unfold Lib.datetime_now. cbv beta iota zeta.
  cbn [Lib.tick boot ticks clock].
  rewrite (run_check _ _ _ _ _ (grouped_history_checks _ _)).
  script_worlds. tauto.
Qed.

(** ** The billing script (TC009) *)

Section BillingRuns.
Import Script Lib.

Lemma timed_round_run ts ts' w w' :
  TC009.timed_round ts w = (Ok ts', w') <->
  status_reply (exactly 200) (next_reply w) /\
  ts' = (ts ++ [round_duration w 0])%list /\
  w' = tick (log_call subscription_call (tick w)).
Proof.
  split.
  - intros H. apply run_timed_round in H. destruct H as ((r & Hr & Hs) & -> & ->).
    split; [|auto]. exists r. split; [exact Hr|]. now apply Z.eqb_eq.
  - intros ((r & Hr & Hs) & -> & ->). unfold TC009.timed_round.
    unfold bind at 1. unfold time_time at 1. cbv beta iota.
    erewrite fwd_bind by (apply get_subscription_calls; split; [exact Hr | reflexivity]).
    unfold bind at 1. unfold time_time at 1. cbv beta iota zeta.
    erewrite fwd_bind by (apply fwd_assert; exact Hs).
    unfold ret, round_duration. cbn [tick log_call ticks clock].
    now rewrite Nat.add_0_r, Nat.add_1_r.
Qed.

Lemma after_rounds_step n w :
  after_rounds n (tick (log_call subscription_call (tick w))) = after_rounds (S n) w.
Proof.
  unfold after_rounds. cbn [tick log_call sent replies clock uuids ticks drawn repeat].
  rewrite <- app_assoc. cbn [app]. f_equal. lia.
Qed.

Lemma timed_rounds_run n : forall ts ts' w w',
  TC009.timed_rounds n ts w = (Ok ts', w') <->
  (forall i, (i < n)%nat ->
             status_reply (exactly 200) (replies w (List.length (sent w) + i))) /\
  ts' = (ts ++ map (round_duration w) (seq 0 n))%list /\
  w' = after_rounds n w.
Proof.
  induction n as [|n IH]; intros ts ts' w w'; cbn [TC009.timed_rounds].
  - unfold ret, after_rounds. cbn [repeat map seq]. rewrite !app_nil_r, Nat.add_0_r.
    split.
    + intros H. inversion H; subst. split; [intros i Hi; lia|]. split; [reflexivity|].
      now destruct w'.
    + intros (_ & -> & ->). now destruct w.
  - split.
    + intros H. apply run_bind in H. destruct H as (ts1 & w1 & H1 & H). cbv beta in H.
      apply timed_round_run in H1. destruct H1 as (H0 & -> & ->).
      apply IH in H. destruct H as (Hrep & -> & ->).
      cbn [tick log_call sent replies] in Hrep.
      split; [|split].
      * intros [|i] Hi; [now rewrite Nat.add_0_r|].
        specialize (Hrep i ltac:(lia)). rewrite length_app in Hrep. cbn in Hrep.
        now replace (List.length (sent w) + S i)%nat
          with (List.length (sent w) + 1 + i)%nat by lia.
      * rewrite <- app_assoc. f_equal. cbn [seq map app]. f_equal.
        rewrite <- seq_shift, map_map. apply map_ext. intros i.
        unfold round_duration. cbn [tick log_call ticks clock].
        f_equal; do 2 f_equal; lia.
      * apply after_rounds_step.
    + intros (Hrep & -> & ->).
      erewrite fwd_bind
        by (apply timed_round_run; split;
            [unfold next_reply; rewrite <- (Nat.add_0_r (List.length (sent w)));
             apply Hrep; lia
            | split; reflexivity]).
      apply IH. split; [|split].
      * intros i Hi. cbn [tick log_call sent replies]. rewrite length_app. cbn.
        replace (List.length (sent w) + 1 + i)%nat
          with (List.length (sent w) + S i)%nat by lia.
        apply Hrep. lia.
      * rewrite <- app_assoc. f_equal. cbn [seq map app]. f_equal.
        rewrite <- seq_shift, map_map. apply map_ext. intros i.
        unfold round_duration. cbn [tick log_call ticks clock].
        f_equal; do 2 f_equal; lia.
      * apply eq_sym, after_rounds_step.
Qed.

Lemma performance_run w w' :
  TC009.performance w = (Ok tt, w') <->
  (forall i, (i < 5)%nat ->
             status_reply (exactly 200) (replies w (List.length (sent w) + i))) /\
  PrimFloat.ltb
    (mean_of_five (round_duration w 0) (round_duration w 1) (round_duration w 2)
                  (round_duration w 3) (round_duration w 4))
    2%float = true /\
  w' = after_rounds 5 w.
Proof.
  unfold TC009.performance. split.
  - intros H. apply run_bind in H. destruct H as (ts & w1 & H1 & H). cbv beta zeta in H.
    apply timed_rounds_run in H1. destruct H1 as (Hrep & -> & ->).
    apply run_assert in H. destruct H as [H ->]. cbn [app map seq] in H.
    rewrite average_of_five in H. auto.
  - intros (Hrep & Havg & ->).
    erewrite fwd_bind by (apply timed_rounds_run; split; [eassumption | split; reflexivity]).
    cbv beta zeta. cbn [app map seq]. rewrite average_of_five. now apply fwd_assert.
Qed.

End BillingRuns.

(** X11: the billing script passes exactly when the first reply is a 200
    whose JSON body has "plan" and "status" in it, the five replies
    after it each have status 200 (their bodies are not read), and the
    mean of the five durations, each the difference of the two clock
    readings around a call (the readings 0 and 1, 2 and 3, up to 8 and
    9), is under 2; it has then made the same GET six times. *)
Theorem billing_script_passes_iff
        (rs : nat -> reply) (ck : nat -> instant) (us : nat -> string) :
  (outcome TC009.test_billing_subscription_management rs ck us = Ok tt <->
   json_reply (exactly 200) (has_both "plan" "status") (rs 0%nat) /\
   (forall i, (i < 5)%nat -> status_reply (exactly 200) (rs (1 + i)%nat)) /\
   PrimFloat.ltb
     (mean_of_five (elapsed ck 0 1) (elapsed ck 2 3) (elapsed ck 4 5)
                   (elapsed ck 6 7) (elapsed ck 8 9))
     2%float = true) /\
  (outcome TC009.test_billing_subscription_management rs ck us = Ok tt ->
   call_log TC009.test_billing_subscription_management rs ck us
   = repeat subscription_call 6).
Proof.
  apply (passes_with_log _ _ _ _ _
           (mk_world rs ck us (repeat subscription_call 6) 10 0)).
  intros w'. unfold TC009.test_billing_subscription_management.
  rewrite (run_then _ _ _ _ _ _ subscription_details_checks).
  rewrite performance_run.
  unfold after_rounds, round_duration, elapsed. script_worlds. cbn [repeat Nat.add Nat.mul].
  tauto.
Qed.

(** ** The dashboard script (TC006) *)

Section Dashboard.
Import Script Lib.
Variable py_str : json -> string.











End Dashboard.


(** ** The first checks of TC002 and TC003 *)

Section FirstChecks.
Import Script Lib.

Lemma body_check_echo email msg :
  body_check (fun json_data =>
                same <- andb_lazy (py_in "email" json_data)
                          (v <- getitem json_data "email" ;; ret (Py.eq_str v email)) ;;
                py_assert same msg)
             (echoes_email email).
Proof.
  intros v w w'. split.
  - intros H. run_inv; try discriminate.
    match goal with E : true = Py.eq_str _ _ |- _ =>
      apply eq_sym, eq_str_inv in E; subst end.
    split; [reflexivity|]. unfold echoes_email. eauto.
  - intros [-> (kv & -> & H)].
    unfold andb_lazy, bind, py_in, getitem, ret, py_assert. cbn.
    unfold Py.has_key. rewrite H. cbn. now rewrite String.eqb_refl.
Qed.

Lemma selected_link_run data link w w' :
  TC003.created_link data w = (Ok link, w') <->
  w' = w /\ exists kv, data = JObj kv /\ link = selected_link kv.
Proof.
  unfold TC003.created_link. split.
  - intros H. run_inv.
    all: repeat match goal with E : JObj _ = JObj _ |- _ => inversion E; subst; clear E end.
    all: split; [reflexivity|]; eexists; split; [reflexivity|].
    all: unfold selected_link, first_truthy, get_or_None.
    all: repeat match goal with E : Py.truthy _ = _ |- _ => rewrite E; clear E end.
    all: reflexivity.
  - intros (-> & kv & -> & ->).
    unfold py_or, dict_get, bind, ret, selected_link, first_truthy, get_or_None. cbn.
    destruct (Py.truthy _); [reflexivity|]. cbn.
    destruct (Py.truthy _); reflexivity.
Qed.

(** A link that is read from an object and is not [None] comes from a
    key that the object has. *)
Lemma selected_link_has_key kv :
  selected_link kv <> JNull ->
  Py.has_key "utmLink" kv || (Py.has_key "shortUrl" kv || Py.has_key "url" kv) = true.
Proof.
  unfold selected_link, first_truthy, get_or_None, Py.has_key.
  destruct (Py.lookup "utmLink" kv); [reflexivity|].
  destruct (Py.lookup "shortUrl" kv); [reflexivity|].
  destruct (Py.lookup "url" kv); [reflexivity|]. cbn. congruence.
Qed.

Lemma fwd_link_keys kv w :
  Py.has_key "utmLink" kv || (Py.has_key "shortUrl" kv || Py.has_key "url" kv) = true ->
  orb_lazy (py_in "utmLink" (JObj kv))
           (orb_lazy (py_in "shortUrl" (JObj kv)) (py_in "url" (JObj kv))) w
  = (Ok true, w).
Proof.
  unfold orb_lazy, bind, py_in, ret. cbn.
  destruct (Py.has_key "utmLink" kv); [reflexivity|].
  destruct (Py.has_key "shortUrl" kv); [reflexivity|]. cbn. now intros ->.
Qed.

Lemma body_check_link original m1 m2 :
  body_check (fun data =>
                found <- orb_lazy (py_in "utmLink" data)
                           (orb_lazy (py_in "shortUrl" data) (py_in "url" data)) ;;
                py_assert found m1 ;;
                created_url <- TC003.created_link data ;;
                inside <- py_in original created_url ;;
                py_assert inside m2)
             (link_object original).
Proof.
  intros v w w'. split.
  - intros H. run_inv.
    all: match goal with E : TC003.created_link _ _ = _ |- _ =>
           apply selected_link_run in E; destruct E as (-> & kv & -> & ->) end.
    all: split; [reflexivity|]; exists kv; auto.
  - intros [-> (kv & -> & H)].
    assert (selected_link kv <> JNull) as N by (intros E; rewrite E in H; discriminate).
    erewrite fwd_bind by (apply fwd_link_keys, selected_link_has_key, N).
    erewrite fwd_bind by reflexivity.
    erewrite fwd_bind by (apply selected_link_run; eauto).
    erewrite fwd_bind by (apply fwd_py_in; eapply member_container; eassumption).
    now apply fwd_assert.
Qed.

Lemma fwd_any_in (keys : list string) v w :
  is_container v = true ->
  any_of keys (fun key => py_in key v) w = (Ok (existsb (fun k => Py.member k v) keys), w).
Proof.
  intros C. induction keys as [|k keys IH]; cbn [any_of existsb]; [reflexivity|].
  erewrite fwd_bind by (now apply fwd_py_in).
  destruct (Py.member k v); [reflexivity | exact IH].
Qed.

Lemma run_any_in (keys : list string) v b w w' :
  keys <> [] ->
  any_of keys (fun key => py_in key v) w = (Ok b, w') ->
  w' = w /\ is_container v = true /\ b = existsb (fun k => Py.member k v) keys.
Proof.
  intros N H. destruct (is_container v) eqn:C.
  - rewrite fwd_any_in in H by assumption. inversion H. auto.
  - destruct keys as [|k keys]; [congruence|]. cbn [any_of] in H.
    apply run_bind in H. destruct H as (b0 & w1 & H1 & _).
    apply run_py_in_iff in H1. destruct H1 as (_ & C' & _). congruence.
Qed.

Lemma body_check_error_key msg :
  body_check (fun data =>
                found <- any_of TC003.error_keys (fun key => py_in key data) ;;
                py_assert found msg)
             has_error_key.
Proof.
  intros v w w'. split.
  - intros H. apply run_bind in H. destruct H as (b & w1 & H1 & H). cbv beta in H.
    apply run_any_in in H1; [|discriminate]. destruct H1 as (-> & C & ->).
    apply run_assert in H. destruct H as [H ->]. auto.
  - intros [-> H].
    assert (is_container v = true) as C.
    { unfold has_error_key in H. apply existsb_exists in H. destruct H as (k & _ & H).
      eapply member_container; eassumption. }
    erewrite fwd_bind by (now apply fwd_any_in).
    now apply fwd_assert.
Qed.

End FirstChecks.

Lemma valid_registration_is_check email :
  checks (TC002.valid_registration email) (register_call (TC002.valid_payload email))
         (json_reply (either_status 201 200) (echoes_email email)).
Proof.
  unfold TC002.valid_registration.
  apply (checks_json_block _ _ (either_status 201 200));
    [apply calls_send; reflexivity | apply body_check_echo].
Qed.

(** X13: the first check of the registration script posts the valid
    payload and accepts exactly a reply of status 201 or 200 whose body
    is a JSON object with the posted email for its email. *)
Theorem valid_registration_checks (email : string) :
  checks (TC002.valid_registration email)
         (register_call [("name", "Test User"); ("email", email);
                         ("password", "StrongP@ssw0rd!");
                         ("organizationName", "Test Organization")])
         (json_reply (either_status 201 200) (echoes_email email)).
Proof. exact (valid_registration_is_check email). Qed.

(** X14: the first check of the UTM script posts the original URL alone
    and accepts exactly a reply of status 201 or 200 whose body is a
    JSON object such that the first of utmLink, shortUrl and url with a
    true value (the value of url when none has one) has the original URL
    in it. *)
Theorem minimal_creation_checks :
  checks TC003.minimal_creation
         (utm_call [("originalUrl", "https://www.example.com")])
         (json_reply (either_status 201 200) (link_object "https://www.example.com")).
Proof.
  unfold TC003.minimal_creation.
  apply (checks_json_block _ _ (either_status 201 200));
    [apply calls_send; reflexivity | apply body_check_link].
Qed.

(** X15: the checks of the UTM script for a payload that must be
    refused accept exactly a reply of any status from 400 up, the 5xx
    included, whose JSON body has one of error, message, detail and
    errors in it. *)
Theorem refused_creation_checks (p : Lib.payload) (what : string) :
  checks (TC003.refused_creation p what) (utm_call p)
         (json_reply at_least_400 has_error_key).
Proof.
  unfold TC003.refused_creation.
  apply (checks_json_block _ _ at_least_400);
    [apply calls_send; reflexivity | apply body_check_error_key].
Qed.

(** ** Ends of scripts that do not pass *)

Lemma utm_content_not_in_lower s :
  Text.substr_in "utm_content=contentA" (Text.lower s) = false.
Proof. apply (capital_not_in_lower _ _ "A"); reflexivity. Qed.

Lemma full_creation_refuses w w' : TC003.full_creation w = (Ok tt, w') -> False.
Proof.
  unfold TC003.full_creation. intros H.
  do 5 (apply run_bind in H; destruct H as (? & ? & _ & H); cbv beta in H).
  unfold TC003.utm_params in H. cbn [Lib.for_each] in H.
  do 4 (apply run_bind in H; destruct H as (? & ? & _ & H); cbv beta in H).
  apply run_bind in H. destruct H as (? & ? & H & _).
  unfold TC003.utm_param_check in H. run_inv.
  match goal with E : Text.substr_in _ _ = true |- _ =>
    rewrite utm_content_not_in_lower in E; discriminate E end.
Qed.

(** X16: the UTM script as a whole passes in no world: its second check
    accepts no reply. *)
Theorem utm_script_never_passes (w : world) :
  ~ accepts TC003.test_utm_link_creation_and_validation w.
Proof.
  intros H. apply accepts_run in H. destruct H as [w' H].
  unfold TC003.test_utm_link_creation_and_validation in H.
  apply run_bind in H. destruct H as (? & w1 & _ & H). cbv beta in H.
  apply run_bind in H. destruct H as (? & w2 & H & _).
  destruct x0. exact (full_creation_refuses _ _ H).
Qed.

Section Ends.
Import Script Lib.

(** A call followed by a silent rest is one call, whatever the reply. *)
Lemma one_call_whatever {A} q (k : response -> M A) w :
  refused q = None -> (forall r, silent (k r)) ->
  sent (snd ((r <- send q ;; k r) w)) = (sent w ++ [q])%list.
Proof.
  intros F Hk. unfold bind, send. rewrite F.
  destruct (next_reply w) as [r|e]; [|reflexivity].
  destruct (Hk r (log_call q w)) as [Hs _].
  destruct (k r (log_call q w)) as [[a|x] w1]; exact Hs.
Qed.

Lemma sent_after_raise {A B} (m : M A) (k : A -> M B) w x w1 :
  m w = (Raise x, w1) -> bind m k w = (Raise x, w1).
Proof. unfold bind. now intros ->. Qed.

End Ends.

Lemma valid_registration_one_call email w :
  sent (snd (TC002.valid_registration email w))
  = (sent w ++ [register_call (TC002.valid_payload email)])%list.
Proof.
  unfold TC002.valid_registration, Lib.requests_post.
  apply one_call_whatever; [reflexivity|]. intros r. silent_tac.
Qed.

(** X17: the registration script first posts the valid payload with the
    email "user_<hex>@example.com", hex being the UUID it has drawn; and
    unless the reply to it is a 201 or a 200 whose body is a JSON object
    with that very email, this is the only call the script makes. *)
Theorem registration_stops_without_echo
        (py_str : json -> string)
        (rs : nat -> reply) (ck : nat -> instant) (us : nat -> string) :
  ~ json_reply (either_status 201 200) (echoes_email (registered_email us)) (rs 0%nat) ->
  call_log (TC002.test_user_registration_process py_str) rs ck us
  = [register_call [("name", "Test User"); ("email", registered_email us);
                    ("password", "StrongP@ssw0rd!");
                    ("organizationName", "Test Organization")]].
Proof.
  intros N. unfold call_log, TC002.test_user_registration_process.
  unfold Script.bind at 1. unfold Lib.uuid4_hex at 1. cbv beta iota zeta.
  cbn [boot uuids drawn replies clock sent ticks].
  change ("user_" ++ us 0%nat ++ "@example.com") with (registered_email us).
  set (w1 := mk_world rs ck us [] 0 1).
  pose proof (valid_registration_one_call (registered_email us) w1) as S.
  destruct (TC002.valid_registration (registered_email us) w1) as [[[]|x] w2] eqn:E.
  - exfalso. apply N.
    apply (valid_registration_is_check (registered_email us)) in E. exact (proj2 E).
  - erewrite sent_after_raise by exact E. exact S.
Qed.

Lemma registration_stops_without_echo_witness :
  call_log (TC002.test_user_registration_process str_sample)
           (fun _ => answer 201 (JObj [("email", JStr "someone.else@example.com")]))
           noon (fun _ => "0a1b")
  = [register_call [("name", "Test User"); ("email", "user_0a1b@example.com");
                    ("password", "StrongP@ssw0rd!");
                    ("organizationName", "Test Organization")]].
Proof.
  apply (registration_stops_without_echo
           str_sample
           (fun _ => answer 201 (JObj [("email", JStr "someone.else@example.com")]))
           noon (fun _ => "0a1b")).
  intros (r & v & Hr & _ & Hb & kv & -> & He).
  inversion Hr; subst. cbn in Hb. inversion Hb; subst. cbn in He. discriminate.
Defined.

Section RaisingRuns.
Import Script Lib.

Lemma fwd_try_caught {A} (body : M A) c h x w w1 :
  body w = (Raise x, w1) -> c (cls x) = true -> try_except body c h w = h x w1.
Proof. unfold try_except. now intros -> ->. Qed.

Lemma fwd_try_passed {A} (body : M A) c h x w w1 :
  body w = (Raise x, w1) -> c (cls x) = false -> try_except body c h w = (Raise x, w1).
Proof. unfold try_except. now intros -> ->. Qed.

Lemma fwd_raise_for_status_error r w :
  no_http_error (status_code r) = false ->
  raise_for_status r w = (Raise (mk_exn HTTPError (http_error_text r)), w).
Proof.
  intros Hs. unfold raise_for_status, http_error_text. cbv zeta.
  apply negb_false_iff, andb_true_iff in Hs. destruct Hs as [H4 H6]. rewrite H4.
  destruct (status_code r <? 500) eqn:E5; cbn [andb]; [reflexivity|].
  assert ((500 <=? status_code r) = true) as -> by (apply Z.leb_le; apply Z.ltb_ge in E5; lia).
  rewrite H6. reflexivity.
Qed.

Lemma fwd_py_in_error k v w :
  is_container v = false ->
  py_in k v w
  = (Raise (mk_exn TypeError ("argument of type '" ++ Py.type_name v ++ "' is not iterable")),
     w).
Proof. destruct v; cbn; intros H; try discriminate; reflexivity. Qed.

(** The outcome and the log of a script from its run. *)
Lemma outcome_and_log (t : M unit) rs ck us res l :
  t (boot rs ck us) = (res, mk_world rs ck us l 0 0) ->
  outcome t rs ck us = res /\ call_log t rs ck us = l.
Proof. unfold outcome, call_log. now intros ->. Qed.

End RaisingRuns.

(** X18: when the login of the dashboard script is answered with a
    status in 400..599, the script ends after this one call with the
    assertion "Login request failed: " followed by the text of the HTTP
    error; no dashboard call is made. *)
Theorem dashboard_script_stops_on_login_error
        (py_str : json -> string)
        (rs : nat -> reply) (ck : nat -> instant) (us : nat -> string) (r : response) :
  rs 0%nat = Answer r ->
  no_http_error (status_code r) = false ->
  outcome (TC006.test_dashboard_metrics_retrieval py_str) rs ck us
  = Raise (mk_exn AssertionError ("Login request failed: " ++ http_error_text r)) /\
  call_log (TC006.test_dashboard_metrics_retrieval py_str) rs ck us = [token_call].
Proof.
  intros Hr Hs. apply outcome_and_log.
  unfold TC006.test_dashboard_metrics_retrieval. cbv zeta.
  apply sent_after_raise. unfold TC006.get_auth_token. cbv zeta.
  eapply eq_trans; [eapply fwd_try_caught|].
  - unfold Lib.requests_post.
    erewrite fwd_bind by (apply fwd_send; [reflexivity | exact Hr]).
    apply sent_after_raise. now apply fwd_raise_for_status_error.
  - reflexivity.
  - reflexivity.
Qed.

Lemma dashboard_script_stops_on_login_error_witness :
  outcome (TC006.test_dashboard_metrics_retrieval str_sample)
          (fun _ => Answer (mk_response 401 "Unauthorized"
                                        "http://localhost:3001/api/v1/auth/login" None))
          noon (fun _ => "")
  = Raise (mk_exn AssertionError
             "Login request failed: 401 Client Error: Unauthorized for url: http://localhost:3001/api/v1/auth/login") /\
  call_log (TC006.test_dashboard_metrics_retrieval str_sample)
           (fun _ => Answer (mk_response 401 "Unauthorized"
                                         "http://localhost:3001/api/v1/auth/login" None))
           noon (fun _ => "")
  = [token_call].
Proof.
  apply (dashboard_script_stops_on_login_error
           str_sample _ noon (fun _ => "")
           (mk_response 401 "Unauthorized" "http://localhost:3001/api/v1/auth/login" None));
    reflexivity.
Defined.




(** ** The classes of the exceptions *)

Section Classes.
Import Script Lib.

Lemma raises_in_ret ok {A} (a : A) : raises_in ok (ret a).
Proof. intros w x w' H. discriminate H. Qed.

Lemma raises_in_raise ok {A} c msg : ok c = true -> raises_in ok (@raise A c msg).
Proof. intros Hc w x w' H. inversion H. exact Hc. Qed.

Lemma raises_in_bind ok {A B} (m : M A) (k : A -> M B) :
  raises_in ok m -> (forall a, raises_in ok (k a)) -> raises_in ok (bind m k).
Proof.
  intros Hm Hk w x w'. unfold bind. destruct (m w) as [[a|y] w1] eqn:E.
  - apply Hk.
  - intros H. inversion H; subst. eapply Hm; eassumption.
Qed.

Lemma raises_in_if ok {A} (c : bool) (m1 m2 : M A) :
  raises_in ok m1 -> raises_in ok m2 -> raises_in ok (if c then m1 else m2).
Proof. destruct c; auto. Qed.

Lemma raises_in_first_complaint ok check hd x :
  (forall h y, check h = Some y -> ok (cls y) = true) ->
  first_complaint check hd = Some x -> ok (cls x) = true.
Proof.
  intros Hc. induction hd as [|h hd IH]; cbn [first_complaint]; [discriminate|].
  destruct (check h) as [y|] eqn:E; [|exact IH].
  intros H. inversion H; subst. eapply Hc; eassumption.
Qed.

Lemma raises_in_send ok q :
  ok RequestException = true -> ok InvalidHeader = true -> ok ValueError = true ->
  raises_in ok (send q).
Proof.
  intros Hc Hi Hv w x w'. unfold send. destruct (refused q) as [y|] eqn:F.
  - intros H. inversion H; subst. unfold refused, header_complaint in F.
    destruct (first_complaint check_header_validity _) as [z|] eqn:F1.
    + inversion F; subst. eapply raises_in_first_complaint; [|exact F1].
      intros h y0. unfold check_header_validity.
      repeat match goal with |- context [if ?c then _ else _] => destruct c end;
        intros E; inversion E; exact Hi.
    + eapply raises_in_first_complaint; [|exact F].
      intros h y0. unfold putheader.
      destruct (non_ascii_run 0 (fst h)) as [[[c st] [|[|n]]]|];
        repeat match goal with |- context [if ?c then _ else _] => destruct c end;
        intros E; inversion E; exact Hv.
  - destruct (next_reply w); intros H; inversion H. exact Hc.
Qed.

Lemma raises_in_assert ok c msg : ok AssertionError = true -> raises_in ok (py_assert c msg).
Proof. intros Hc. destruct c; [apply raises_in_ret | now apply raises_in_raise]. Qed.

Lemma raises_in_response_json ok r :
  ok JSONDecodeError = true -> raises_in ok (response_json r).
Proof.
  intros Hc. unfold response_json.
  destruct (body r); [apply raises_in_ret | now apply raises_in_raise].
Qed.

Lemma raises_in_py_in ok k v : ok TypeError = true -> raises_in ok (py_in k v).
Proof. intros Hc. destruct v; first [apply raises_in_ret | now apply raises_in_raise]. Qed.

Lemma raises_in_getitem ok v k :
  ok TypeError = true -> ok KeyError = true -> raises_in ok (getitem v k).
Proof.
  intros Ht Hk. destruct v; cbn [getitem]; try (now apply raises_in_raise).
  destruct (Py.lookup k members); [apply raises_in_ret | now apply raises_in_raise].
Qed.

(** What [guarded] makes of a block that raises [Exception]s only. *)
Lemma guarded_fails_only_with block msg :
  raises_in is_Exception block -> fails_only_with msg (TC005.guarded block msg).
Proof.
  intros Hb w. unfold TC005.guarded, try_except.
  destruct (block w) as [[[]|x] w1] eqn:E; [now left|].
  rewrite (Hb w x w1 E). right. exists (text x). reflexivity.
Qed.

Lemma fails_only_with_seq prefix (m k : M unit) :
  fails_only_with prefix m -> fails_only_with prefix k -> fails_only_with prefix (m ;; k).
Proof.
  intros Hm Hk w. unfold bind. specialize (Hm w).
  destruct (m w) as [[[]|x] w1]; cbn [fst] in *.
  - apply Hk.
  - destruct Hm as [Hm | [d Hm]]; [discriminate|]. right. exists d. exact Hm.
Qed.

Lemma fails_only_with_longer p1 p2 (m : M unit) :
  fails_only_with (p1 ++ p2) m -> fails_only_with p1 m.
Proof.
  intros H w. destruct (H w) as [E | [d E]]; [now left|]. right. exists (p2 ++ d).
  rewrite E. do 2 f_equal.
  clear. induction p1 as [|c p1 IH]; cbn; [reflexivity | now rewrite IH].
Qed.

End Classes.

(** The classes of a block, by its structure. *)
Ltac raises_tac :=
  lazymatch goal with
  | |- raises_in _ (Script.bind _ _) => apply raises_in_bind; [raises_tac | intro; raises_tac]
  | |- raises_in _ (if _ then _ else _) => apply raises_in_if; raises_tac
  | |- raises_in _ (Script.ret _) => apply raises_in_ret
  | |- raises_in _ (Script.raise _ _) => apply raises_in_raise; reflexivity
  | |- raises_in _ (Script.py_assert _ _) => apply raises_in_assert; reflexivity
  | |- raises_in _ (Lib.send _) => apply raises_in_send; reflexivity
  | |- raises_in _ (Lib.requests_get _ _ _ _) => unfold Lib.requests_get; raises_tac
  | |- raises_in _ (Lib.requests_post _ _ _ _) => unfold Lib.requests_post; raises_tac
  | |- raises_in _ (Lib.response_json _) => apply raises_in_response_json; reflexivity
  | |- raises_in _ (Lib.py_in _ _) => apply raises_in_py_in; reflexivity
  | |- raises_in _ (Lib.getitem _ _) => apply raises_in_getitem; reflexivity
  | |- raises_in _ (Lib.orb_lazy _ _) => unfold Lib.orb_lazy; raises_tac
  | |- raises_in _ (Lib.andb_lazy _ _) => unfold Lib.andb_lazy; raises_tac
  end.

(** X19: the campaigns script ends well or in an [AssertionError] whose
    text starts with "Exception during ": its three blocks catch every
    exception, their own failed assertions and the [TypeError] and
    [KeyError] of a body of the wrong shape included, and raise it again
    as an assertion that carries its text. *)
Theorem campaigns_script_fails_only_by_assertion :
  fails_only_with "Exception during " TC005.test_fetch_google_ads_campaigns.
Proof.
  unfold TC005.test_fetch_google_ads_campaigns.
  repeat apply fails_only_with_seq.
  - apply (fails_only_with_longer _ "valid customer_id request: ").
    unfold TC005.valid_customer. apply guarded_fails_only_with. raises_tac.
  - apply (fails_only_with_longer _ "missing customer_id request: ").
    unfold TC005.missing_customer. apply guarded_fails_only_with. raises_tac.
  - apply (fails_only_with_longer _ "invalid customer_id request: ").
    unfold TC005.invalid_customer. apply guarded_fails_only_with. raises_tac.
Qed.

(** X20: in the login script a 200 whose JSON body is a number, a
    boolean or null is not judged by an assertion: the [TypeError] of
    [in] leaves the script, after this one call. *)
Theorem login_script_leaks_type_error
        (rs : nat -> reply) (ck : nat -> instant) (us : nat -> string)
        (r : response) (v : json) :
  rs 0%nat = Answer r -> status_code r = 200 -> body r = Some v ->
  is_container v = false ->
  outcome TC001.test_user_login_functionality rs ck us
  = Raise (mk_exn TypeError
             ("argument of type '" ++ Py.type_name v ++ "' is not iterable")) /\
  call_log TC001.test_user_login_functionality rs ck us
  = [login_call TC001.valid_payload].
Proof.
  intros Hr Hs Hb Hc. apply outcome_and_log.
  unfold TC001.test_user_login_functionality. apply sent_after_raise.
  unfold TC001.valid_login.
  eapply eq_trans; [eapply fwd_try_passed|].
  - unfold Lib.requests_post.
    erewrite fwd_bind by (apply fwd_send; [reflexivity | exact Hr]).
    erewrite fwd_bind by (apply fwd_assert; rewrite Hs; reflexivity).
    erewrite fwd_bind by (apply fwd_json; exact Hb).
    apply sent_after_raise. unfold Lib.orb_lazy.
    apply sent_after_raise. now apply fwd_py_in_error.
  - reflexivity.
  - reflexivity.
Qed.

Lemma login_script_leaks_type_error_witness :
  outcome TC001.test_user_login_functionality (fun _ => answer 200 JNull) noon (fun _ => "")
  = Raise (mk_exn TypeError "argument of type 'NoneType' is not iterable") /\
  call_log TC001.test_user_login_functionality (fun _ => answer 200 JNull) noon (fun _ => "")
  = [login_call TC001.valid_payload].
Proof.
  apply (login_script_leaks_type_error
           (fun _ => answer 200 JNull) noon (fun _ => "")
           (mk_response 200 "" "" (Some JNull)) JNull); reflexivity.
Defined.

(** X21: in the first check of the UTM script, a 201 or a 200 whose JSON
    object has a link key but no link that is a string, an array or an
    object (all three values false, and the url absent, null, false or a
    number) is not judged by an assertion: the [TypeError] of [in]
    leaves the check. *)
Theorem minimal_creation_leaks_type_error
        (w : world) (r : response) (kv : list (string * json)) :
  Lib.next_reply w = Answer r ->
  either_status 201 200 (status_code r) = true ->
  body r = Some (JObj kv) ->
  Py.has_key "utmLink" kv || (Py.has_key "shortUrl" kv || Py.has_key "url" kv) = true ->
  is_container (selected_link kv) = false ->
  fst (TC003.minimal_creation w)
  = Raise (mk_exn TypeError
             ("argument of type '" ++ Py.type_name (selected_link kv)
              ++ "' is not iterable")).
Proof.
  intros Hr Hs Hb Hk Hc. unfold TC003.minimal_creation, Lib.requests_post.
  erewrite fwd_bind by (apply fwd_send; [reflexivity | eassumption]).
  erewrite fwd_bind by (apply fwd_assert; exact Hs).
  erewrite fwd_bind by (apply fwd_json; eassumption).
  erewrite fwd_bind by (now apply fwd_link_keys).
  erewrite fwd_bind by reflexivity.
  erewrite fwd_bind by (apply selected_link_run; eauto).
  erewrite sent_after_raise by (apply fwd_py_in_error; exact Hc).
  reflexivity.
Qed.

Lemma minimal_creation_leaks_type_error_witness :
  fst (TC003.minimal_creation (scripted [answer 200 (JObj [("utmLink", JStr "")])] noon))
  = Raise (mk_exn TypeError "argument of type 'NoneType' is not iterable").
Proof.
  apply (minimal_creation_leaks_type_error
           (scripted [answer 200 (JObj [("utmLink", JStr "")])] noon)
           (mk_response 200 "" "" (Some (JObj [("utmLink", JStr "")])))
           [("utmLink", JStr "")]); reflexivity.
Defined.

(** ** The order of the calls *)

Section Order.
Import Script Lib.












End Order.























(** ** The scripts that can pass, passing *)

Example login_script_passes_once :
  outcome TC001.test_user_login_functionality
          (fun i => nth i [answer 200 (JObj [("accessToken", JStr "t0")])]
                        (answer 401 (JObj [("message", JStr "Invalid credentials")])))
          noon (fun _ => "") = Ok tt.
Proof. reflexivity. Qed.

Example oauth_script_passes_without_a_url :
  outcome TC004.test_google_ads_oauth_flow_initiation
          (fun i => nth i [answer 201 (JObj [("state", JStr "pending")])]
                        (answer 422 (JObj [("error", JStr "redirect_uri")])))
          noon (fun _ => "") = Ok tt.
Proof. reflexivity. Qed.

Example campaigns_script_passes_once :
  outcome TC005.test_fetch_google_ads_campaigns
          (fun i => nth i [answer 200 (JObj [("campaigns", JArr [])]);
                           answer 422 (JObj [("message", JStr "customer_id is required")])]
                        (answer 404 (JObj [("error", JStr "Customer not found")])))
          noon (fun _ => "") = Ok tt.
Proof. reflexivity. Qed.

Example dashboard_script_passes_once :
  outcome (TC006.test_dashboard_metrics_retrieval str_sample)
          (fun i => nth i [answer 200 (JObj [("token", JStr "t0")]);
                           answer 200 (JObj [("clicks", JInt 3)]);
                           answer 400 JNull]
                        (Answer (mk_response 422 "" "" None)))
          noon (fun _ => "") = Ok tt /\
  call_log (TC006.test_dashboard_metrics_retrieval str_sample)
           (fun i => nth i [answer 200 (JObj [("token", JStr "t0")]);
                            answer 200 (JObj [("clicks", JInt 3)]);
                            answer 400 JNull]
                         (Answer (mk_response 422 "" "" None)))
           noon (fun _ => "")
  = dashboard_calls str_sample (JStr "t0").
Proof. split; reflexivity. Qed.

Example whatsapp_script_passes_on_message_id :
  outcome TC010.test_whatsapp_message_sending
          (fun i => nth i [answer 200 (JObj [("success", JBool false); ("messageId", JStr "m1")])]
                        (Answer (mk_response 400 "" "" None)))
          noon (fun _ => "") = Ok tt.
Proof. reflexivity. Qed.

Example campaigns_script_wraps_a_failed_assertion :
  outcome TC005.test_fetch_google_ads_campaigns
          (fun _ => answer 500 (JObj [])) noon (fun _ => "")
  = Raise (mk_exn AssertionError
             "Exception during valid customer_id request: Expected status 200, got 500").
Proof. reflexivity. Qed.

(** ** Headers that are not sent, on examples *)

Example header_on_two_lines_is_refused_by_requests :
  Lib.header_complaint [("Authorization", "Bearer a" ++ line_feed ++ "b")]
  = Some (mk_exn InvalidHeader
            "Invalid leading whitespace, reserved character(s), or return character(s) in header value: 'Bearer a\nb'").
Proof. reflexivity. Qed.

Example header_that_ends_with_a_line_feed_is_refused_by_http_client :
  Lib.header_complaint [("Authorization", "Bearer a" ++ line_feed)]
  = Some (mk_exn ValueError "Invalid header value b'Bearer a\n'").
Proof. reflexivity. Qed.

Example headers_of_the_corpus_are_sent :
  map Lib.header_complaint
      [TC001.headers; TC002.headers; TC003.headers; TC004.HEADERS; TC005.headers;
       TC006.auth_headers str_sample (JStr "t0"); TC007_grouping.headers;
       TC007_retrieval.HEADERS; TC008.headers; TC009.headers; TC010.headers]
  = repeat None 11.
Proof. reflexivity. Qed.

Example dashboard_script_refuses_a_token_on_two_lines :
  outcome (TC006.test_dashboard_metrics_retrieval str_sample)
          (fun _ => answer 200 (JObj [("accessToken", JStr ("a" ++ line_feed ++ "b"))]))
          noon (fun _ => "")
  = Raise (mk_exn AssertionError
             "Request failed for valid dates: Invalid leading whitespace, reserved character(s), or return character(s) in header value: 'Bearer a\nb'") /\
  call_log (TC006.test_dashboard_metrics_retrieval str_sample)
           (fun _ => answer 200 (JObj [("accessToken", JStr ("a" ++ line_feed ++ "b"))]))
           noon (fun _ => "")
  = [token_call].
Proof. split; reflexivity. Qed.

Example dashboard_script_leaks_the_error_of_a_final_line_feed :
  outcome (TC006.test_dashboard_metrics_retrieval str_sample)
          (fun _ => answer 200 (JObj [("token", JStr ("a" ++ line_feed))]))
          noon (fun _ => "")
  = Raise (mk_exn ValueError "Invalid header value b'Bearer a\n'") /\
  call_log (TC006.test_dashboard_metrics_retrieval str_sample)
           (fun _ => answer 200 (JObj [("token", JStr ("a" ++ line_feed))]))
           noon (fun _ => "")
  = [token_call].
Proof. split; reflexivity. Qed.
